(** * Confluence and Jira MCP servers: dispatcher, session and handlers

    A shallow embedding of [src/confluence_server.py] and
    [src/jira_server.py].  Python values that travel through the handlers
    (tool arguments, decoded remote responses) are JSON values; a Python
    [dict] is an association list in insertion order.  A handler is a
    computation in a state-and-exception monad over the server object
    ([self]): the retained client and the trace of everything the process
    did to the outside (environment reads, client construction, file-system
    tests, remote calls).  The remote services, the environment and the
    file system are oracles of the [World]; the Python library functions
    whose output format is not the repository's business ([json.dumps],
    [str.lower], [str()], [repr()], [os.path.basename], pydantic's
    messages) and the constructors of the library's clients are fields of
    the [Runtime] class. *)

From Stdlib Require Import String Ascii List ZArith Bool Lia DecimalString.
Import ListNotations.
Local Open Scope string_scope.
Set Warnings "-register-all".

(** ** Python values *)

Module Py.

Inductive json : Type :=
| JNull
| JBool (b : bool)
| JNum (n : Z)
| JStr (s : string)
| JList (l : list json)
| JDict (d : list (string * json)).

(** A Python [dict] with string keys, in insertion order. *)
Definition dict := list (string * json).

(** Exceptions, all of them instances of Python's [Exception]. *)
Inductive exn : Type :=
| KeyError (k : string)
| TypeError (msg : string)
| AttributeError (msg : string)
| ValueError (msg : string)
| ValidationError (model : string) (fields : list string)
| LibraryError (cls msg : string).

Inductive result (A : Type) : Type :=
| Return (a : A)
| Raise (e : exn).
Arguments Return {A} a.
Arguments Raise {A} e.

Definition rbind {A B} (r : result A) (k : A -> result B) : result B :=
  match r with
  | Return a => k a
  | Raise e => Raise e
  end.

Fixpoint rmap {A B} (f : A -> result B) (l : list A) : result (list B) :=
  match l with
  | [] => Return []
  | x :: tl => rbind (f x) (fun y => rbind (rmap f tl) (fun ys => Return (y :: ys)))
  end.

(** [bool(v)]: Python truthiness. *)
Definition truthy (v : json) : bool :=
  match v with
  | JNull => false
  | JBool b => b
  | JNum n => negb (Z.eqb n 0)
  | JStr s => negb (String.eqb s "")
  | JList l => match l with [] => false | _ => true end
  | JDict d => match d with [] => false | _ => true end
  end.

Definition type_name (v : json) : string :=
  match v with
  | JNull => "NoneType"
  | JBool _ => "bool"
  | JNum _ => "int"
  | JStr _ => "str"
  | JList _ => "list"
  | JDict _ => "dict"
  end.

Fixpoint lookup (k : string) (d : dict) : option json :=
  match d with
  | [] => None
  | (k', v) :: tl => if String.eqb k k' then Some v else lookup k tl
  end.

(** [d[k] = v]: replaces in place, or appends a new key. *)
Fixpoint dict_set (k : string) (v : json) (d : dict) : dict :=
  match d with
  | [] => [(k, v)]
  | (k', v') :: tl =>
      if String.eqb k k' then (k, v) :: tl else (k', v') :: dict_set k v tl
  end.

(** [arguments[k]] on a dict. *)
Definition item (d : dict) (k : string) : result json :=
  match lookup k d with
  | Some v => Return v
  | None => Raise (KeyError k)
  end.

(** [arguments.get(k, default)] on a dict. *)
Definition get_or (d : dict) (k : string) (default : json) : json :=
  match lookup k d with
  | Some v => v
  | None => default
  end.

(** [v[k]] with a string key on any value. *)
Definition subscript (v : json) (k : string) : result json :=
  match v with
  | JDict d => item d k
  | JStr _ => Raise (TypeError "string indices must be integers, not 'str'")
  | JList _ => Raise (TypeError "list indices must be integers or slices, not str")
  | _ => Raise (TypeError ("'" ++ type_name v ++ "' object is not subscriptable"))
  end.

(** [v[k1][k2]...]: subscripts applied from left to right. *)
Fixpoint subscripts (v : json) (ks : list string) : result json :=
  match ks with
  | [] => Return v
  | k :: tl => rbind (subscript v k) (fun v' => subscripts v' tl)
  end.

(** [v.get(k, default)] on any value. *)
Definition py_get (v : json) (k : string) (default : json) : result json :=
  match v with
  | JDict d => Return (get_or d k default)
  | _ => Raise (AttributeError
                  ("'" ++ type_name v ++ "' object has no attribute 'get'"))
  end.

Fixpoint is_prefix (p s : string) : bool :=
  match p, s with
  | EmptyString, _ => true
  | String a p', String b s' => Ascii.eqb a b && is_prefix p' s'
  | String _ _, EmptyString => false
  end.

Fixpoint is_substring (p s : string) : bool :=
  is_prefix p s ||
  match s with
  | EmptyString => false
  | String _ s' => is_substring p s'
  end.

(** [k in v] with a string on the left. *)
Definition py_in (k : string) (v : json) : result bool :=
  match v with
  | JDict d => Return (match lookup k d with Some _ => true | None => false end)
  | JStr s => Return (is_substring k s)
  | JList l =>
      Return (existsb (fun x => match x with
                                | JStr s => String.eqb s k
                                | _ => false
                                end) l)
  | _ => Raise (TypeError
                  ("argument of type '" ++ type_name v ++ "' is not iterable"))
  end.

Fixpoint chars (s : string) : list json :=
  match s with
  | EmptyString => []
  | String a s' => JStr (String a EmptyString) :: chars s'
  end.

(** [for x in v]: the elements a loop over [v] visits. *)
Definition py_iter (v : json) : result (list json) :=
  match v with
  | JList l => Return l
  | JDict d => Return (map (fun kv => JStr (fst kv)) d)
  | JStr s => Return (chars s)
  | _ => Raise (TypeError ("'" ++ type_name v ++ "' object is not iterable"))
  end.

Definition nl : string := String (ascii_of_nat 10) EmptyString.

(** The Jira issue model of [jira_server.py] (a pydantic [BaseModel]). *)
Record JiraIssue : Type := {
  key : string;
  summary : string;
  description : option string;
  status : string;
  assignee : option string;
  reporter : string;
  created : string;
  updated : string;
  priority : option string;
  issue_type : string;
  project : string
}.

(** A client object of the atlassian library, [Confluence(...)] or
    [Jira(...)]: the attributes it holds once constructed. *)
Record Client : Type := {
  url : string;
  username : string;
  password : string;
  cloud : bool
}.

(** Library functions the servers call and do not define. *)
Class Runtime : Type := {
  (** [json.dumps(v, indent=2)] *)
  json_dumps : json -> string;
  (** [issue.model_dump_json(indent=2)] *)
  model_dump_json : JiraIssue -> string;
  (** [str(v)], as an f-string renders [{v}] *)
  format : json -> string;
  format_str : forall s, format (JStr s) = s;
  (** [repr(s)] of a string *)
  repr : string -> string;
  (** [s.lower()] *)
  str_lower : string -> string;
  (** [os.path.basename(p)] *)
  os_path_basename : json -> result string;
  (** [str(e)] of a pydantic validation error *)
  validation_text : string -> list string -> string;
  (** [Confluence(url=..., username=..., password=..., cloud=...)]: the
      client the library constructs; which address it keeps as its [url]
      is the library's business *)
  atlassian_Confluence : string -> string -> string -> bool -> Client;
  (** [Jira(url=..., username=..., password=..., cloud=...)] *)
  atlassian_Jira : string -> string -> string -> bool -> Client
}.

(** [str(e)] *)
Definition str_exn `{Runtime} (e : exn) : string :=
  match e with
  | KeyError k => repr k
  | TypeError m => m
  | AttributeError m => m
  | ValueError m => m
  | ValidationError model fields => validation_text model fields
  | LibraryError _ m => m
  end.

(** [v.lower()] on any value. *)
Definition py_lower `{Runtime} (v : json) : result string :=
  match v with
  | JStr s => Return (str_lower s)
  | _ => Raise (AttributeError
                  ("'" ++ type_name v ++ "' object has no attribute 'lower'"))
  end.

(** [", ".join(l)]: every item has to be a string; [i] is the position of
    the head of [l] in the joined sequence. *)
Fixpoint join_from (i : nat) (l : list json) : result string :=
  match l with
  | [] => Return ""
  | JStr s :: tl =>
      match tl with
      | [] => Return s
      | _ :: _ => rbind (join_from (S i) tl) (fun r => Return (s ++ ", " ++ r))
      end
  | v :: _ =>
      Raise (TypeError ("sequence item " ++ NilEmpty.string_of_uint (Nat.to_uint i)
                        ++ ": expected str instance, " ++ type_name v ++ " found"))
  end.

Definition join_strs (l : list json) : result string := join_from 0 l.

(** ** The server object and its world *)

(** [TextContent(type=..., text=...)] *)
Record TextContent : Type := {
  type : string;
  text : string
}.

Definition text_content (s : string) : TextContent :=
  {| type := "text"; text := s |}.

Section Machine.

(** The remote calls of one service. *)
Context {call : Type}.

Inductive event : Type :=
| EvGetenv (name : string)
| EvConnect (c : Client)
| EvExists (path : json)
| EvCall (c : call).

(** [self]: the retained client, and the trace of the process so far. *)
Record Server : Type := {
  client : option Client;
  trace : list event
}.

Record World : Type := {
  (** [os.environ] *)
  environ : string -> option string;
  (** [os.path.exists(p)] *)
  os_path_exists : json -> result bool;
  (** the answer of the remote service to a call, after a given history *)
  remote : list event -> call -> result json
}.

Definition M (A : Type) : Type := Server -> result A * Server.

Definition ret {A} (a : A) : M A := fun st => (Return a, st).
Definition raise {A} (e : exn) : M A := fun st => (Raise e, st).
Definition lift {A} (r : result A) : M A := fun st => (r, st).

Definition bind {A B} (m : M A) (k : A -> M B) : M B :=
  fun st =>
    match m st with
    | (Return a, st') => k a st'
    | (Raise e, st') => (Raise e, st')
    end.

(** [try: body  except Exception as e: handler(e)] *)
Definition try_except {A} (body : M A) (handler : exn -> M A) : M A :=
  fun st =>
    match body st with
    | (Return a, st') => (Return a, st')
    | (Raise e, st') => handler e st'
    end.

(** A [for] loop that appends one value per element. *)
Fixpoint for_each {A B} (body : A -> M B) (l : list A) : M (list B) :=
  match l with
  | [] => ret []
  | x :: tl =>
      bind (body x) (fun y => bind (for_each body tl) (fun ys => ret (y :: ys)))
  end.

Variable w : World.

(** [os.getenv(name, default)] *)
Definition getenv (name default : string) : M string :=
  fun st =>
    (Return (match environ w name with Some v => v | None => default end),
     {| client := client st; trace := trace st ++ [EvGetenv name] |}).

(** [self.client = c] for a freshly constructed client *)
Definition set_client (c : Client) : M unit :=
  fun st => (Return tt, {| client := Some c; trace := trace st ++ [EvConnect c] |}).

(** [os.path.exists(p)] *)
Definition path_exists (p : json) : M bool :=
  fun st =>
    (os_path_exists w p,
     {| client := client st; trace := trace st ++ [EvExists p] |}).

(** [self.client.method(...)]: a method of the retained client, which is
    an attribute error on [None]. *)
Definition client_call (method : string) (c : call) : M json :=
  fun st =>
    match client st with
    | None =>
        (Raise (AttributeError
                  ("'NoneType' object has no attribute '" ++ method ++ "'")), st)
    | Some _ =>
        (remote w (trace st) c,
         {| client := client st; trace := trace st ++ [EvCall c] |})
    end.

(** [self.client.url] *)
Definition client_url : M string :=
  fun st =>
    match client st with
    | None =>
        (Raise (AttributeError "'NoneType' object has no attribute 'url'"), st)
    | Some c => (Return (url c), st)
    end.

(** The remote calls in a trace, in order. *)
Fixpoint calls (t : list event) : list call :=
  match t with
  | [] => []
  | EvCall c :: tl => c :: calls tl
  | _ :: tl => calls tl
  end.

(** The environment variables read in a trace, in order. *)
Fixpoint env_reads (t : list event) : list string :=
  match t with
  | [] => []
  | EvGetenv n :: tl => n :: env_reads tl
  | _ :: tl => env_reads tl
  end.

(** The clients constructed in a trace, in order. *)
Fixpoint connects (t : list event) : list Client :=
  match t with
  | [] => []
  | EvConnect c :: tl => c :: connects tl
  | _ :: tl => connects tl
  end.

(** Events that talk to the file system or to the remote service. *)
Definition is_io (e : event) : bool :=
  match e with
  | EvCall _ | EvExists _ => true
  | EvGetenv _ | EvConnect _ => false
  end.

(** A computation that leaves the retained client alone and adds only
    file-system tests and remote calls to the trace. *)
Definition quiet {A} (m : M A) : Prop :=
  forall st,
    client (snd (m st)) = client st /\
    exists evs, trace (snd (m st)) = (trace st ++ evs)%list /\ forallb is_io evs = true.

End Machine.

Arguments event : clear implicits.
Arguments Server : clear implicits.
Arguments World : clear implicits.
Arguments M : clear implicits.

Declare Scope py_scope.
Notation "x <- m ;; k" := (bind m (fun x => k))
  (at level 61, m at next level, right associativity) : py_scope.
Notation "m ;;; k" := (bind m (fun _ => k))
  (at level 61, right associativity) : py_scope.

End Py.

Import Py.
Local Open Scope py_scope.

(** ** The tool catalog *)

(** A property of a tool's input schema: its name, JSON type and declared
    default. *)
Record Property : Type := {
  prop_name : string;
  prop_type : string;
  prop_default : option json
}.

(** [Tool(name=..., description=..., inputSchema=...)]: the schema is an
    object schema, kept as its properties and its list of required ones. *)
Record Tool : Type := {
  tool_name : string;
  tool_description : string;
  tool_properties : list Property;
  tool_required : list string
}.

Definition prop (n t : string) : Property :=
  {| prop_name := n; prop_type := t; prop_default := None |}.

Definition prop_with (n t : string) (d : json) : Property :=
  {| prop_name := n; prop_type := t; prop_default := Some d |}.

(** ** confluence_server.py *)

Module Confluence.

(** The methods of [atlassian.Confluence] the server calls, with the
    arguments it passes. [expand] is passed by one caller only. *)
Inductive call : Type :=
| cql (query limit : json)
| get_page_by_id (page_id : json) (expand : option json)
| create_page (space title body parent_id : json)
| update_page (page_id title body version_comment : json)
| remove_page (page_id : json)
| get_all_spaces (limit : json)
| get_page_child_by_type (page_id : json) (type limit : json)
| attach_file (file_path page_id comment : json).

Definition list_tools : list Tool :=
  [ {| tool_name := "confluence_search_content";
       tool_description := "Search for Confluence content using CQL";
       tool_properties := [prop "cql" "string";
                           prop_with "limit" "integer" (JNum 25)];
       tool_required := ["cql"] |};
    {| tool_name := "confluence_get_page";
       tool_description := "Get a Confluence page by ID";
       tool_properties := [prop "page_id" "string";
                           prop_with "expand" "string" (JStr "body.storage,version")];
       tool_required := ["page_id"] |};
    {| tool_name := "confluence_create_page";
       tool_description := "Create a new Confluence page";
       tool_properties := [prop "space_key" "string"; prop "title" "string";
                           prop "content" "string"; prop "parent_id" "string"];
       tool_required := ["space_key"; "title"; "content"] |};
    {| tool_name := "confluence_update_page";
       tool_description := "Update an existing Confluence page";
       tool_properties := [prop "page_id" "string"; prop "title" "string";
                           prop "content" "string";
                           prop "version_comment" "string"];
       tool_required := ["page_id"; "content"] |};
    {| tool_name := "confluence_delete_page";
       tool_description := "Delete a Confluence page";
       tool_properties := [prop "page_id" "string"];
       tool_required := ["page_id"] |};
    {| tool_name := "confluence_get_spaces";
       tool_description := "Get list of Confluence spaces";
       tool_properties := [prop_with "limit" "integer" (JNum 25)];
       tool_required := [] |};
    {| tool_name := "confluence_get_page_children";
       tool_description := "Get child pages of a specific page";
       tool_properties := [prop "page_id" "string";
                           prop_with "limit" "integer" (JNum 25)];
       tool_required := ["page_id"] |};
    {| tool_name := "confluence_add_attachment";
       tool_description := "Add an attachment to a Confluence page";
       tool_properties := [prop "page_id" "string"; prop "file_path" "string";
                           prop "comment" "string"];
       tool_required := ["page_id"; "file_path"] |} ].

Definition declared (name : string) : bool :=
  existsb (fun t => String.eqb name (tool_name t)) list_tools.

(** The environment variables of the server, in the order it reads them. *)
Definition env_names : list string :=
  ["CONFLUENCE_URL"; "CONFLUENCE_USERNAME"; "CONFLUENCE_API_TOKEN";
   "CONFLUENCE_CLOUD"].

Section Server.

Context {rt : Runtime}.
Variable w : World call.

Let M := Py.M call.

Definition missing_credentials : string :=
  "CONFLUENCE_URL, CONFLUENCE_USERNAME, and CONFLUENCE_API_TOKEN must be set".

(** [_connect_to_confluence] *)
Definition _connect_to_confluence : M unit :=
  config_url <- getenv w "CONFLUENCE_URL" "" ;;
  config_username <- getenv w "CONFLUENCE_USERNAME" "" ;;
  config_api_token <- getenv w "CONFLUENCE_API_TOKEN" "" ;;
  cloud_text <- getenv w "CONFLUENCE_CLOUD" "true" ;;
  let config_cloud := String.eqb (str_lower cloud_text) "true" in
  if negb (forallb (fun s => truthy (JStr s))
                   [config_url; config_username; config_api_token])
  then raise (ValueError missing_credentials)
  else set_client (atlassian_Confluence config_url config_username
                     config_api_token config_cloud).

(** [_search_content] *)
Definition _search_content (arguments : dict) : M (list TextContent) :=
  cql_ <- lift (item arguments "cql") ;;
  let limit := get_or arguments "limit" (JNum 25) in
  results <- client_call w "cql" (cql cql_ limit) ;;
  hits <- lift (rbind (py_get results "results" (JList [])) py_iter) ;;
  formatted_results <-
    for_each (fun hit =>
      id_ <- lift (subscripts hit ["content"; "id"]) ;;
      title <- lift (subscripts hit ["content"; "title"]) ;;
      type_ <- lift (subscripts hit ["content"; "type"]) ;;
      space <- lift (subscripts hit ["content"; "space"; "key"]) ;;
      base <- client_url ;;
      webui <- lift (subscripts hit ["content"; "_links"; "webui"]) ;;
      ret (JDict [("id", id_); ("title", title); ("type", type_);
                  ("space", space); ("url", JStr (base ++ format webui))]))
      hits ;;
  ret [text_content (json_dumps (JList formatted_results))].

(** [_get_page] *)
Definition _get_page (arguments : dict) : M (list TextContent) :=
  page_id <- lift (item arguments "page_id") ;;
  let expand := get_or arguments "expand" (JStr "body.storage,version") in
  page <- client_call w "get_page_by_id" (get_page_by_id page_id (Some expand)) ;;
  id_ <- lift (subscript page "id") ;;
  title <- lift (subscript page "title") ;;
  space <- lift (subscripts page ["space"; "key"]) ;;
  version <- lift (subscripts page ["version"; "number"]) ;;
  created_by <- lift (subscripts page ["version"; "by"; "displayName"]) ;;
  created_date <- lift (subscripts page ["version"; "when"]) ;;
  base <- client_url ;;
  webui <- lift (subscripts page ["_links"; "webui"]) ;;
  let page_info :=
    [("id", id_); ("title", title); ("space", space); ("version", version);
     ("created_by", created_by); ("created_date", created_date);
     ("url", JStr (base ++ format webui))] in
  has_body <- lift (py_in "body" page) ;;
  has_storage <-
    (if has_body
     then lift (rbind (subscript page "body") (py_in "storage"))
     else ret false) ;;
  page_info' <-
    (if has_storage
     then content <- lift (subscripts page ["body"; "storage"; "value"]) ;;
          ret (dict_set "content" content page_info)
     else ret page_info) ;;
  ret [text_content (json_dumps (JDict page_info'))].

(** [_create_page] *)
Definition _create_page (arguments : dict) : M (list TextContent) :=
  space_key <- lift (item arguments "space_key") ;;
  title <- lift (item arguments "title") ;;
  content <- lift (item arguments "content") ;;
  let parent_id := get_or arguments "parent_id" JNull in
  result <- client_call w "create_page"
              (create_page space_key title content parent_id) ;;
  new_title <- lift (subscript result "title") ;;
  new_id <- lift (subscript result "id") ;;
  base <- client_url ;;
  webui <- lift (subscripts result ["_links"; "webui"]) ;;
  ret [text_content ("Created page: " ++ format new_title ++ nl
                     ++ "ID: " ++ format new_id ++ nl
                     ++ "URL: " ++ base ++ format webui)].

(** [_update_page] *)
Definition _update_page (arguments : dict) : M (list TextContent) :=
  page_id <- lift (item arguments "page_id") ;;
  content <- lift (item arguments "content") ;;
  let title := get_or arguments "title" JNull in
  let version_comment :=
    get_or arguments "version_comment" (JStr "Updated via MCP") in
  current_page <- client_call w "get_page_by_id" (get_page_by_id page_id None) ;;
  (* title or current_page["title"] *)
  new_title <-
    (if truthy title then ret title
     else lift (subscript current_page "title")) ;;
  result <- client_call w "update_page"
              (update_page page_id new_title content version_comment) ;;
  result_title <- lift (subscript result "title") ;;
  number <- lift (subscripts result ["version"; "number"]) ;;
  ret [text_content ("Updated page: " ++ format result_title ++ nl
                     ++ "Version: " ++ format number)].

(** [_delete_page] *)
Definition _delete_page (arguments : dict) : M (list TextContent) :=
  page_id <- lift (item arguments "page_id") ;;
  client_call w "remove_page" (remove_page page_id) ;;;
  ret [text_content ("Deleted page with ID: " ++ format page_id)].

(** [_get_spaces] *)
Definition _get_spaces (arguments : dict) : M (list TextContent) :=
  let limit := get_or arguments "limit" (JNum 25) in
  spaces <- client_call w "get_all_spaces" (get_all_spaces limit) ;;
  items <- lift (rbind (subscript spaces "results") py_iter) ;;
  space_list <-
    for_each (fun space =>
      key_ <- lift (subscript space "key") ;;
      name <- lift (subscript space "name") ;;
      id_ <- lift (subscript space "id") ;;
      type_ <- lift (subscript space "type") ;;
      ret (JDict [("key", key_); ("name", name); ("id", id_);
                  ("type", type_)]))
      items ;;
  ret [text_content (json_dumps (JList space_list))].

(** [_get_page_children] *)
Definition _get_page_children (arguments : dict) : M (list TextContent) :=
  page_id <- lift (item arguments "page_id") ;;
  let limit := get_or arguments "limit" (JNum 25) in
  children <- client_call w "get_page_child_by_type"
                (get_page_child_by_type page_id (JStr "page") limit) ;;
  items <- lift (py_iter children) ;;
  child_list <-
    for_each (fun child =>
      id_ <- lift (subscript child "id") ;;
      title <- lift (subscript child "title") ;;
      base <- client_url ;;
      webui <- lift (subscripts child ["_links"; "webui"]) ;;
      ret (JDict [("id", id_); ("title", title);
                  ("url", JStr (base ++ format webui))]))
      items ;;
  ret [text_content (json_dumps (JList child_list))].

(** [_add_attachment] *)
Definition _add_attachment (arguments : dict) : M (list TextContent) :=
  page_id <- lift (item arguments "page_id") ;;
  file_path <- lift (item arguments "file_path") ;;
  let comment := get_or arguments "comment" (JStr "") in
  found <- path_exists w file_path ;;
  if negb found
  then ret [text_content ("Error: File not found: " ++ format file_path)]
  else
    client_call w "attach_file" (attach_file file_path page_id comment) ;;;
    base_name <- lift (os_path_basename file_path) ;;
    ret [text_content ("Attached file: " ++ base_name
                       ++ " to page " ++ format page_id)].

(** The body of the [try] block of [call_tool]: the chain of name tests. *)
Definition dispatch (name : string) (arguments : dict) : M (list TextContent) :=
  if String.eqb name "confluence_search_content" then _search_content arguments
  else if String.eqb name "confluence_get_page" then _get_page arguments
  else if String.eqb name "confluence_create_page" then _create_page arguments
  else if String.eqb name "confluence_update_page" then _update_page arguments
  else if String.eqb name "confluence_delete_page" then _delete_page arguments
  else if String.eqb name "confluence_get_spaces" then _get_spaces arguments
  else if String.eqb name "confluence_get_page_children"
       then _get_page_children arguments
  else if String.eqb name "confluence_add_attachment"
       then _add_attachment arguments
  else ret [text_content ("Unknown tool: " ++ name)].

(** [__init__]: no client yet, and nothing done. *)
Definition __init__ : Server call := {| client := None; trace := [] |}.

(** [if not self.confluence_client: self._connect_to_confluence()] *)
Definition ensure_connected : M unit :=
  fun st =>
    match client st with
    | Some _ => (Return tt, st)
    | None => _connect_to_confluence st
    end.

(** [call_tool]: the connection test stands before the [try]. *)
Definition call_tool (name : string) (arguments : dict) : M (list TextContent) :=
  ensure_connected ;;;
  try_except (dispatch name arguments)
    (fun e => ret [text_content ("Error: " ++ str_exn e)]).

(** The handler that the chain of tests in [call_tool] selects. *)
Definition handlers : list (string * (dict -> M (list TextContent))) :=
  [("confluence_search_content", _search_content);
   ("confluence_get_page", _get_page);
   ("confluence_create_page", _create_page);
   ("confluence_update_page", _update_page);
   ("confluence_delete_page", _delete_page);
   ("confluence_get_spaces", _get_spaces);
   ("confluence_get_page_children", _get_page_children);
   ("confluence_add_attachment", _add_attachment)].

Fixpoint assoc {A} (name : string) (l : list (string * A)) : option A :=
  match l with
  | [] => None
  | (k, v) :: tl => if String.eqb name k then Some v else assoc name tl
  end.

Definition handler_for (name : string) := assoc name handlers.

(** The three required variables are set and not empty. *)
Definition credentials_set : bool :=
  forallb (fun name => match environ w name with
                       | Some v => negb (String.eqb v "")
                       | None => false
                       end)
          ["CONFLUENCE_URL"; "CONFLUENCE_USERNAME"; "CONFLUENCE_API_TOKEN"].

(** The process serving a sequence of invocations, one after the other;
    an invocation that raises leaves the server object as it is then. *)
Fixpoint serve (invocations : list (string * dict)) (st : Server call)
  : Server call :=
  match invocations with
  | [] => st
  | (name, arguments) :: rest => serve rest (snd (call_tool name arguments st))
  end.

End Server.

End Confluence.

(** ** jira_server.py *)

Module Jira.

(** The methods of [atlassian.Jira] the server calls. *)
Inductive call : Type :=
| jql (query limit : json)
| issue (issue_key : json)
| create_issue (fields : json)
| update_issue_field (issue_key fields : json)
| issue_add_comment (issue_key comment : json)
| get_issue_transitions (issue_key : json)
| set_issue_status (issue_key transition_id : json)
| projects.

Definition list_tools : list Tool :=
  [ {| tool_name := "jira_search_issues";
       tool_description := "Search for Jira issues using JQL";
       tool_properties := [prop "jql" "string";
                           prop_with "max_results" "integer" (JNum 50)];
       tool_required := ["jql"] |};
    {| tool_name := "jira_get_issue";
       tool_description := "Get details of a specific Jira issue";
       tool_properties := [prop "issue_key" "string"];
       tool_required := ["issue_key"] |};
    {| tool_name := "jira_create_issue";
       tool_description := "Create a new Jira issue";
       tool_properties := [prop "project_key" "string"; prop "summary" "string";
                           prop "description" "string";
                           prop_with "issue_type" "string" (JStr "Task");
                           prop_with "priority" "string" (JStr "Medium");
                           prop "assignee" "string"];
       tool_required := ["project_key"; "summary"] |};
    {| tool_name := "jira_update_issue";
       tool_description := "Update an existing Jira issue";
       tool_properties := [prop "issue_key" "string"; prop "fields" "object"];
       tool_required := ["issue_key"; "fields"] |};
    {| tool_name := "jira_add_comment";
       tool_description := "Add a comment to a Jira issue";
       tool_properties := [prop "issue_key" "string"; prop "comment" "string"];
       tool_required := ["issue_key"; "comment"] |};
    {| tool_name := "jira_transition_issue";
       tool_description := "Transition a Jira issue to a different status";
       tool_properties := [prop "issue_key" "string"; prop "status" "string"];
       tool_required := ["issue_key"; "status"] |};
    {| tool_name := "jira_get_projects";
       tool_description := "Get list of Jira projects";
       tool_properties := [];
       tool_required := [] |} ].

Definition declared (name : string) : bool :=
  existsb (fun t => String.eqb name (tool_name t)) list_tools.

(** The environment variables of the server, in the order it reads them. *)
Definition env_names : list string :=
  ["JIRA_URL"; "JIRA_USERNAME"; "JIRA_API_TOKEN"; "JIRA_CLOUD"].

(** ** The [JiraIssue] constructor: pydantic's validation *)

Definition is_str (v : json) : bool :=
  match v with JStr _ => true | _ => false end.

Definition is_opt_str (v : json) : bool :=
  match v with JStr _ | JNull => true | _ => false end.

Definition str_of (v : json) : string :=
  match v with JStr s => s | _ => "" end.

Definition opt_str_of (v : json) : option string :=
  match v with JStr s => Some s | _ => None end.

(** [JiraIssue(key=..., summary=..., ...)]: a [str] field takes a string, an
    [Optional[str]] field a string or [None]; the fields that take neither
    are reported together, in the order of the model. *)
Definition JiraIssue_init
    (key_ summary_ description_ status_ assignee_ reporter_ created_ updated_
     priority_ issue_type_ project_ : json) : result JiraIssue :=
  let check (ok : json -> bool) (field : string) (v : json) :=
    if ok v then [] else [field] in
  let errors :=
   (check is_str "key" key_ ++ check is_str "summary" summary_
    ++ check is_opt_str "description" description_
    ++ check is_str "status" status_
    ++ check is_opt_str "assignee" assignee_
    ++ check is_str "reporter" reporter_
    ++ check is_str "created" created_ ++ check is_str "updated" updated_
    ++ check is_opt_str "priority" priority_
    ++ check is_str "issue_type" issue_type_
    ++ check is_str "project" project_)%list in
  match errors with
  | [] =>
      Return {| key := str_of key_; summary := str_of summary_;
                description := opt_str_of description_;
                status := str_of status_;
                assignee := opt_str_of assignee_;
                reporter := str_of reporter_;
                created := str_of created_; updated := str_of updated_;
                priority := opt_str_of priority_;
                issue_type := str_of issue_type_;
                project := str_of project_ |}
  | _ :: _ => Raise (ValidationError "JiraIssue" errors)
  end.

(** [v.get(k1, d1).get(k2, d2)] *)
Definition get2 (v : json) (k1 : string) (d1 : json) (k2 : string) (d2 : json)
  : result json :=
  rbind (py_get v k1 d1) (fun x => py_get x k2 d2).

(** [v.get(k, {}).get(k2, d2) if v.get(k) else otherwise] *)
Definition get2_if (v : json) (k k2 : string) (d2 otherwise : json)
  : result json :=
  rbind (py_get v k JNull) (fun c =>
    if truthy c then get2 v k (JDict []) k2 d2 else Return otherwise).

(** One element of [formatted_issues] in [_search_issues]. *)
Definition format_issue (issue_ : json) : result json :=
  rbind (py_get issue_ "fields" (JDict [])) (fun fields =>
  rbind (subscript issue_ "key") (fun key_ =>
  rbind (py_get fields "summary" (JStr "")) (fun summary_ =>
  rbind (get2 fields "status" (JDict []) "name" (JStr "")) (fun status_ =>
  rbind (get2_if fields "assignee" "displayName" (JStr "Unassigned")
                 (JStr "Unassigned")) (fun assignee_ =>
  rbind (get2_if fields "priority" "name" (JStr "") (JStr "")) (fun priority_ =>
  rbind (py_get fields "created" (JStr "")) (fun created_ =>
  rbind (py_get fields "updated" (JStr "")) (fun updated_ =>
  Return (JDict [("key", key_); ("summary", summary_); ("status", status_);
                 ("assignee", assignee_); ("priority", priority_);
                 ("created", created_); ("updated", updated_)]))))))))).

(** [issue_details] in [_get_issue]: the keyword arguments are evaluated in
    order, then the model validates them. *)
Definition issue_details (issue_ : json) : result JiraIssue :=
  rbind (py_get issue_ "fields" (JDict [])) (fun fields =>
  rbind (subscript issue_ "key") (fun key_ =>
  rbind (py_get fields "summary" (JStr "")) (fun summary_ =>
  rbind (py_get fields "description" (JStr "")) (fun description_ =>
  rbind (get2 fields "status" (JDict []) "name" (JStr "")) (fun status_ =>
  rbind (get2_if fields "assignee" "displayName" (JStr "") JNull) (fun assignee_ =>
  rbind (get2 fields "reporter" (JDict []) "displayName" (JStr "")) (fun reporter_ =>
  rbind (py_get fields "created" (JStr "")) (fun created_ =>
  rbind (py_get fields "updated" (JStr "")) (fun updated_ =>
  rbind (get2_if fields "priority" "name" (JStr "") JNull) (fun priority_ =>
  rbind (get2 fields "issuetype" (JDict []) "name" (JStr "")) (fun issue_type_ =>
  rbind (get2 fields "project" (JDict []) "key" (JStr "")) (fun project_ =>
  JiraIssue_init key_ summary_ description_ status_ assignee_ reporter_
                 created_ updated_ priority_ issue_type_ project_)))))))))))).

(** The field map of [_create_issue]. *)
Definition create_fields (arguments : dict) : result dict :=
  rbind (item arguments "project_key") (fun project_key =>
  rbind (item arguments "summary") (fun summary_ =>
  let fields :=
    [("project", JDict [("key", project_key)]);
     ("summary", summary_);
     ("issuetype", JDict [("name", get_or arguments "issue_type" (JStr "Task"))])] in
  rbind (match lookup "description" arguments with
         | Some _ => rbind (item arguments "description") (fun v =>
                       Return (dict_set "description" v fields))
         | None => Return fields
         end) (fun fields1 =>
  rbind (match lookup "priority" arguments with
         | Some _ => rbind (item arguments "priority") (fun v =>
                       Return (dict_set "priority" (JDict [("name", v)]) fields1))
         | None => Return fields1
         end) (fun fields2 =>
  match lookup "assignee" arguments with
  | Some _ => rbind (item arguments "assignee") (fun v =>
                Return (dict_set "assignee" (JDict [("name", v)]) fields2))
  | None => Return fields2
  end)))).

(** The field map of [_update_issue]. *)
Definition update_fields (fields : json) : result dict :=
  let copy (k : string) (wrap : json -> json) (acc : dict) : result dict :=
    rbind (py_in k fields) (fun present =>
      if (present : bool)
      then rbind (subscript fields k) (fun v => Return (dict_set k (wrap v) acc))
      else Return acc) in
  let named (v : json) := JDict [("name", v)] in
  rbind (copy "summary" (fun v => v) []) (fun f1 =>
  rbind (copy "description" (fun v => v) f1) (fun f2 =>
  rbind (copy "priority" named f2) (fun f3 =>
  copy "assignee" named f3))).

Section Server.

Context {rt : Runtime}.
Variable w : World call.

Let M := Py.M call.

Definition missing_credentials : string :=
  "JIRA_URL, JIRA_USERNAME, and JIRA_API_TOKEN must be set".

(** [_connect_to_jira] *)
Definition _connect_to_jira : M unit :=
  config_url <- getenv w "JIRA_URL" "" ;;
  config_username <- getenv w "JIRA_USERNAME" "" ;;
  config_api_token <- getenv w "JIRA_API_TOKEN" "" ;;
  cloud_text <- getenv w "JIRA_CLOUD" "true" ;;
  let config_cloud := String.eqb (str_lower cloud_text) "true" in
  if negb (forallb (fun s => truthy (JStr s))
                   [config_url; config_username; config_api_token])
  then raise (ValueError missing_credentials)
  else set_client (atlassian_Jira config_url config_username
                     config_api_token config_cloud).

(** [_search_issues] *)
Definition _search_issues (arguments : dict) : M (list TextContent) :=
  jql_ <- lift (item arguments "jql") ;;
  let max_results := get_or arguments "max_results" (JNum 50) in
  results <- client_call w "jql" (jql jql_ max_results) ;;
  issues <- lift (rbind (py_get results "issues" (JList [])) py_iter) ;;
  formatted_issues <- lift (rmap format_issue issues) ;;
  ret [text_content (json_dumps (JList formatted_issues))].

(** [_get_issue] *)
Definition _get_issue (arguments : dict) : M (list TextContent) :=
  issue_key <- lift (item arguments "issue_key") ;;
  issue_ <- client_call w "issue" (issue issue_key) ;;
  details <- lift (issue_details issue_) ;;
  ret [text_content (model_dump_json details)].

(** [_create_issue] *)
Definition _create_issue (arguments : dict) : M (list TextContent) :=
  fields <- lift (create_fields arguments) ;;
  result <- client_call w "create_issue" (create_issue (JDict fields)) ;;
  key_ <- lift (subscript result "key") ;;
  self_ <- lift (subscript result "self") ;;
  ret [text_content ("Created issue: " ++ format key_ ++ nl
                     ++ "URL: " ++ format self_)].

(** [_update_issue] *)
Definition _update_issue (arguments : dict) : M (list TextContent) :=
  issue_key <- lift (item arguments "issue_key") ;;
  fields <- lift (item arguments "fields") ;;
  updates <- lift (update_fields fields) ;;
  client_call w "update_issue_field"
    (update_issue_field issue_key (JDict updates)) ;;;
  ret [text_content ("Updated issue: " ++ format issue_key)].

(** [_add_comment] *)
Definition _add_comment (arguments : dict) : M (list TextContent) :=
  issue_key <- lift (item arguments "issue_key") ;;
  comment <- lift (item arguments "comment") ;;
  client_call w "issue_add_comment" (issue_add_comment issue_key comment) ;;;
  ret [text_content ("Added comment to issue: " ++ format issue_key)].

(** The loop of [_transition_issue]: the id of the first transition whose
    target name equals the requested status once both are lower-cased, and
    [None] when the loop ends without a [break]. *)
Fixpoint find_transition (transitions : list json) (target_status : json)
  : result json :=
  match transitions with
  | [] => Return JNull
  | transition :: rest =>
      rbind (subscripts transition ["to"; "name"]) (fun name =>
      rbind (py_lower name) (fun lowered =>
      rbind (py_lower target_status) (fun wanted =>
      if String.eqb lowered wanted
      then subscript transition "id"
      else find_transition rest target_status)))
  end.

(** [_transition_issue] *)
Definition _transition_issue (arguments : dict) : M (list TextContent) :=
  issue_key <- lift (item arguments "issue_key") ;;
  target_status <- lift (item arguments "status") ;;
  transitions <- client_call w "get_issue_transitions"
                   (get_issue_transitions issue_key) ;;
  candidates <- lift (rbind (subscript transitions "transitions") py_iter) ;;
  transition_id <- lift (find_transition candidates target_status) ;;
  if negb (truthy transition_id)
  then
    again <- lift (rbind (subscript transitions "transitions") py_iter) ;;
    available_statuses <-
      lift (rmap (fun t => subscripts t ["to"; "name"]) again) ;;
    joined <- lift (join_strs available_statuses) ;;
    ret [text_content ("Cannot transition to '" ++ format target_status
                       ++ "'. Available statuses: " ++ joined)]
  else
    client_call w "set_issue_status"
      (set_issue_status issue_key transition_id) ;;;
    ret [text_content ("Transitioned issue " ++ format issue_key
                       ++ " to status: " ++ format target_status)].

(** [_get_projects] *)
Definition _get_projects : M (list TextContent) :=
  listing <- client_call w "projects" projects ;;
  items <- lift (py_iter listing) ;;
  project_list <-
    lift (rmap (fun project_ =>
            rbind (subscript project_ "key") (fun key_ =>
            rbind (subscript project_ "name") (fun name =>
            rbind (subscript project_ "id") (fun id_ =>
            Return (JDict [("key", key_); ("name", name); ("id", id_)])))))
          items) ;;
  ret [text_content (json_dumps (JList project_list))].

(** The body of the [try] block of [call_tool]. *)
Definition dispatch (name : string) (arguments : dict) : M (list TextContent) :=
  if String.eqb name "jira_search_issues" then _search_issues arguments
  else if String.eqb name "jira_get_issue" then _get_issue arguments
  else if String.eqb name "jira_create_issue" then _create_issue arguments
  else if String.eqb name "jira_update_issue" then _update_issue arguments
  else if String.eqb name "jira_add_comment" then _add_comment arguments
  else if String.eqb name "jira_transition_issue"
       then _transition_issue arguments
  else if String.eqb name "jira_get_projects" then _get_projects
  else ret [text_content ("Unknown tool: " ++ name)].

(** [__init__]: no client yet, and nothing done. *)
Definition __init__ : Server call := {| client := None; trace := [] |}.

(** [if not self.jira_client: self._connect_to_jira()] *)
Definition ensure_connected : M unit :=
  fun st =>
    match client st with
    | Some _ => (Return tt, st)
    | None => _connect_to_jira st
    end.

(** [call_tool]: the connection test stands before the [try]. *)
Definition call_tool (name : string) (arguments : dict) : M (list TextContent) :=
  ensure_connected ;;;
  try_except (dispatch name arguments)
    (fun e => ret [text_content ("Error: " ++ str_exn e)]).

(** The handler that the chain of tests in [call_tool] selects. *)
Definition handlers : list (string * (dict -> M (list TextContent))) :=
  [("jira_search_issues", _search_issues);
   ("jira_get_issue", _get_issue);
   ("jira_create_issue", _create_issue);
   ("jira_update_issue", _update_issue);
   ("jira_add_comment", _add_comment);
   ("jira_transition_issue", _transition_issue);
   ("jira_get_projects", fun _ => _get_projects)].

Definition handler_for (name : string) := Confluence.assoc name handlers.

(** The three required variables are set and not empty. *)
Definition credentials_set : bool :=
  forallb (fun name => match environ w name with
                       | Some v => negb (String.eqb v "")
                       | None => false
                       end)
          ["JIRA_URL"; "JIRA_USERNAME"; "JIRA_API_TOKEN"].

(** The process serving a sequence of invocations, one after the other;
    an invocation that raises leaves the server object as it is then. *)
Fixpoint serve (invocations : list (string * dict)) (st : Server call)
  : Server call :=
  match invocations with
  | [] => st
  | (name, arguments) :: rest => serve rest (snd (call_tool name arguments st))
  end.

End Server.

(** A field of an issue that the remote API left out or sent as [null]. *)
Definition missing (fields : dict) (k : string) : bool :=
  match lookup k fields with
  | None | Some JNull => true
  | Some _ => false
  end.

Definition str_or_absent (d : dict) (k : string) : bool :=
  match lookup k d with
  | None | Some (JStr _) => true
  | Some _ => false
  end.

Definition opt_str_or_absent (d : dict) (k : string) : bool :=
  match lookup k d with
  | None | Some (JStr _) | Some JNull => true
  | Some _ => false
  end.

Definition ref_or_absent (d : dict) (k k2 : string) : bool :=
  match lookup k d with
  | None => true
  | Some (JDict r) => str_or_absent r k2
  | Some _ => false
  end.

(** An optional reference: left out, [null], or an object holding a string. *)
Definition optional_ref (d : dict) (k k2 : string) : bool :=
  match lookup k d with
  | None | Some JNull => true
  | Some (JDict r) => str_or_absent r k2
  | Some _ => false
  end.

(** The fields of an issue as the remote API sends them: strings,
    references that are objects holding a string, and an assignee and a
    priority that may be missing. *)
Definition well_formed_fields (f : dict) : bool :=
  str_or_absent f "summary" && opt_str_or_absent f "description"
  && ref_or_absent f "status" "name"
  && optional_ref f "assignee" "displayName"
  && ref_or_absent f "reporter" "displayName"
  && str_or_absent f "created" && str_or_absent f "updated"
  && optional_ref f "priority" "name"
  && ref_or_absent f "issuetype" "name"
  && ref_or_absent f "project" "key".

End Jira.

(** ** A runtime and worlds to run the model on

    [plain_runtime] renders JSON on one line and lower-cases the letters A
    to Z; the theorems below hold for every runtime, this one serves to
    evaluate the handlers on concrete invocations. *)

Module Sample.

Definition quote : string := String (ascii_of_nat 34) EmptyString.

Definition lower_ascii (a : ascii) : ascii :=
  let n := nat_of_ascii a in
  if (65 <=? n)%nat && (n <=? 90)%nat then ascii_of_nat (n + 32) else a.

Fixpoint lower (s : string) : string :=
  match s with
  | EmptyString => EmptyString
  | String a s' => String (lower_ascii a) (lower s')
  end.

Fixpoint render (v : json) : string :=
  match v with
  | JNull => "null"
  | JBool true => "true"
  | JBool false => "false"
  | JNum n => NilZero.string_of_int (Z.to_int n)
  | JStr s => quote ++ s ++ quote
  | JList l =>
      "[" ++ (fix items (l : list json) : string :=
                match l with
                | [] => ""
                | x :: tl =>
                    render x ++ match tl with [] => "" | _ :: _ => ", " ++ items tl end
                end) l ++ "]"
  | JDict d =>
      "{" ++ (fix items (d : list (string * json)) : string :=
                match d with
                | [] => ""
                | (k, x) :: tl =>
                    quote ++ k ++ quote ++ ": " ++ render x
                    ++ match tl with [] => "" | _ :: _ => ", " ++ items tl end
                end) d ++ "}"
  end.

Definition render_opt (o : option string) : json :=
  match o with Some s => JStr s | None => JNull end.

Definition render_issue (i : JiraIssue) : string :=
  render (JDict [("key", JStr (key i)); ("summary", JStr (summary i));
                 ("description", render_opt (description i));
                 ("status", JStr (status i));
                 ("assignee", render_opt (assignee i));
                 ("reporter", JStr (reporter i));
                 ("created", JStr (created i)); ("updated", JStr (updated i));
                 ("priority", render_opt (priority i));
                 ("issue_type", JStr (issue_type i));
                 ("project", JStr (project i))]).

Definition show (v : json) : string :=
  match v with
  | JStr s => s
  | JNull => "None"
  | JBool true => "True"
  | JBool false => "False"
  | _ => render v
  end.

(** The last component of a path written with slashes. *)
Fixpoint last_component (s acc : string) : string :=
  match s with
  | EmptyString => acc
  | String a s' =>
      if Ascii.eqb a "/"%char then last_component s' ""
      else last_component s' (acc ++ String a EmptyString)
  end.

Definition plain_runtime : Runtime := {|
  json_dumps := render;
  model_dump_json := render_issue;
  format := show;
  format_str := fun s => eq_refl;
  repr := fun s => "'" ++ s ++ "'";
  str_lower := lower;
  os_path_basename := fun p =>
    match p with
    | JStr s => Return (last_component s "")
    | _ => Raise (TypeError "expected str, bytes or os.PathLike object")
    end;
  validation_text := fun model fields =>
    "validation errors for " ++ model ++ ": " ++ String.concat ", " fields;
  atlassian_Confluence := fun address user token flag =>
    {| url := address; username := user; password := token; cloud := flag |};
  atlassian_Jira := fun address user token flag =>
    {| url := address; username := user; password := token; cloud := flag |}
|}.

(** A process with nothing configured and no service in reach. *)
Definition bare_world (call : Type) : World call := {|
  environ := fun _ => None;
  os_path_exists := fun _ => Return false;
  remote := fun _ _ => Raise (LibraryError "ConnectionError" "unreachable")
|}.

Definition a_client : Client :=
  {| url := "https://wiki.example.org"; username := "ada";
     password := "secret"; cloud := true |}.

Definition connected (call : Type) : Server call :=
  {| client := Some a_client; trace := [] |}.

(** A configured Confluence: page reads answer with the page "Home" at
    version 7, writes answer with the written title at version 8, and only
    [/tmp/report.pdf] exists on disk. *)
Definition wiki_world : World Confluence.call := {|
  environ := fun name =>
    if String.eqb name "CONFLUENCE_URL" then Some "https://wiki.example.org"
    else if String.eqb name "CONFLUENCE_USERNAME" then Some "ada"
    else if String.eqb name "CONFLUENCE_API_TOKEN" then Some "secret"
    else None;
  os_path_exists := fun p =>
    match p with
    | JStr s => Return (String.eqb s "/tmp/report.pdf")
    | _ => Raise (TypeError "stat: path should be string, bytes, os.PathLike or integer")
    end;
  remote := fun _ c =>
    match c with
    | Confluence.get_page_by_id page_id _ =>
        Return (JDict [("id", page_id); ("title", JStr "Home");
                       ("version", JDict [("number", JNum 7)])])
    | Confluence.update_page page_id title _ _ =>
        Return (JDict [("id", page_id); ("title", title);
                       ("version", JDict [("number", JNum 8)])])
    | Confluence.remove_page _ =>
        Raise (LibraryError "HTTPError" "404 Client Error: Not Found")
    | _ => Return (JDict [])
    end
|}.

(** A transition as [get_issue_transitions] of the client returns it: the
    name of the transition, its id as a number, and the name of the status
    it leads to. *)
Definition transition (id_ : Z) (name : string) : json :=
  JDict [("name", JStr ("to " ++ name)); ("id", JNum id_); ("to", JStr name)].

(** A configured Jira: every issue can move to "In Review" or "Done" (the
    client answers with the list of these transitions), created issues get
    the key PROJ-1, and issue reads answer with an issue that has neither
    assignee nor priority. *)
Definition tracker_world : World Jira.call := {|
  environ := fun name =>
    if String.eqb name "JIRA_URL" then Some "https://jira.example.org"
    else if String.eqb name "JIRA_USERNAME" then Some "ada"
    else if String.eqb name "JIRA_API_TOKEN" then Some "secret"
    else None;
  os_path_exists := fun _ => Return false;
  remote := fun _ c =>
    match c with
    | Jira.get_issue_transitions _ =>
        Return (JList [transition 21 "In Review"; transition 31 "Done"])
    | Jira.create_issue _ =>
        Return (JDict [("id", JStr "10001"); ("key", JStr "PROJ-1");
                       ("self", JStr "https://jira.example.org/rest/api/2/issue/10001")])
    | Jira.issue issue_key =>
        Return (JDict [("key", issue_key);
                       ("fields", JDict [("summary", JStr "Broken link");
                                         ("status", JDict [("name", JStr "Open")]);
                                         ("assignee", JNull);
                                         ("reporter", JDict [("displayName", JStr "Ada")]);
                                         ("priority", JNull)])])
    | Jira.issue_add_comment _ _ =>
        Raise (LibraryError "HTTPError" "404 Client Error: Not Found")
    | Jira.jql _ _ =>
        Return (JDict [("issues",
                        JList [JDict [("key", JStr "PROJ-1");
                                      ("fields", JDict [("summary", JStr "Broken link");
                                                        ("assignee", JNull)])]])])
    | Jira.projects =>
        Return (JList [JDict [("key", JStr "PROJ"); ("name", JStr "Project");
                              ("id", JStr "10000")]])
    | _ => Return JNull
    end
|}.

End Sample.

(** ** What an invocation does to the outside *)

Section Effects.

Context {call : Type}.

(** A computation that issues no remote call. *)
Definition no_calls {A} (m : M call A) : Prop :=
  forall st, calls (trace (snd (m st))) = calls (trace st).

(** A computation that issues at most [n] remote calls. *)
Definition at_most {A} (n : nat) (m : M call A) : Prop :=
  forall st,
    exists added,
      calls (trace (snd (m st))) = (calls (trace st) ++ added)%list /\
      (length added <= n)%nat.

(** A computation that returns, when it returns, one text content. *)
Definition one_text (m : M call (list TextContent)) : Prop :=
  forall st r st', m st = (Return r, st') -> exists s, r = [text_content s].

(** A computation that either issues no remote call, or issues one and
    ends in the exception [e]. *)
Definition gives_up {A} (e : exn) (m : M call A) : Prop :=
  forall st,
    calls (trace (snd (m st))) = calls (trace st) \/
    exists c,
      calls (trace (snd (m st))) = (calls (trace st) ++ [c])%list /\
      fst (m st) = Raise e.

End Effects.

(** The first required argument that an invocation leaves out. *)
Definition first_missing (required : list string) (arguments : dict)
  : option string :=
  find (fun k => match lookup k arguments with
                 | Some _ => false
                 | None => true
                 end) required.

(** The required arguments that the catalog declares for a tool name. *)
Definition required_arguments (tools : list Tool) (name : string)
  : list string :=
  match find (fun t => String.eqb name (tool_name t)) tools with
  | Some t => tool_required t
  | None => []
  end.


(** A row of a listing: the object that holds the fields [keys] of [item],
    in this order, and nothing else. *)
Definition row_of (keys : list string) (item row : json) : Prop :=
  exists values,
    Forall2 (fun k v => subscript item k = Return v) keys values /\
    row = JDict (combine keys values).


(** A dict without the key [k]. *)
Definition without (k : string) (d : dict) : dict :=
  filter (fun entry => negb (String.eqb k (fst entry))) d.


(** A row with a link: the values found in [item] along [paths], under the
    names given with the paths, followed by a [url] that is [base] and the
    link found along [link]. *)
Definition linked_row `{Runtime} (base : string)
    (paths : list (string * list string)) (link : list string)
    (item row : json) : Prop :=
  exists values webui,
    Forall2 (fun path v => subscripts item (snd path) = Return v) paths values /\
    subscripts item link = Return webui /\
    row = JDict (combine (map fst paths) values
                 ++ [("url", JStr (base ++ format webui))])%list.


(** ** Answers to run the handlers on *)

Module Scenes.

(** A world whose remote service gives the same answer to every call;
    nothing is configured and no file exists. *)
Definition answering (call : Type) (answer : result json) : World call := {|
  environ := fun _ => None;
  os_path_exists := fun _ => Return false;
  remote := fun _ _ => answer
|}.

Definition page_fields : dict :=
  [("id", JStr "42"); ("title", JStr "Home");
   ("space", JDict [("key", JStr "DOC")]);
   ("version", JDict [("number", JNum 7);
                      ("by", JDict [("displayName", JStr "Ada")]);
                      ("when", JStr "2024-01-01")]);
   ("_links", JDict [("webui", JStr "/pages/42")]);
   ("body", JDict [("storage", JDict [("value", JStr "<p>hi</p>")])])].

Definition space (key_ name : string) : json :=
  JDict [("key", JStr key_); ("name", JStr name); ("id", JNum 1);
         ("type", JStr "global"); ("status", JStr "current")].

Definition space_row (key_ name : string) : json :=
  JDict [("key", JStr key_); ("name", JStr name); ("id", JNum 1);
         ("type", JStr "global")].

Definition hit : json :=
  JDict [("content",
          JDict [("id", JStr "42"); ("title", JStr "Home");
                 ("type", JStr "page");
                 ("space", JDict [("key", JStr "DOC")]);
                 ("_links", JDict [("webui", JStr "/pages/42")])]);
         ("excerpt", JStr "welcome")].

Definition hit_row : json :=
  JDict [("id", JStr "42"); ("title", JStr "Home"); ("type", JStr "page");
         ("space", JStr "DOC");
         ("url", JStr "https://wiki.example.org/pages/42")].

Definition child : json :=
  JDict [("id", JStr "43"); ("title", JStr "Notes");
         ("_links", JDict [("webui", JStr "/pages/43")])].

Definition child_row : json :=
  JDict [("id", JStr "43"); ("title", JStr "Notes");
         ("url", JStr "https://wiki.example.org/pages/43")].

Definition null_status_issue : dict :=
  [("key", JStr "PROJ-1");
   ("fields", JDict [("summary", JStr "Broken link"); ("status", JNull)])].

Definition anonymous_assignee_issue : json :=
  JDict [("key", JStr "PROJ-1");
         ("fields", JDict [("summary", JStr "Broken link");
                           ("assignee", JDict [("accountId", JStr "5b10")])])].

Definition document_issue : json :=
  JDict [("key", JStr "PROJ-1");
         ("fields", JDict [("summary", JStr "Broken link");
                           ("description",
                            JDict [("type", JStr "doc"); ("version", JNum 1)])])].

End Scenes.


(** * Properties *)

(** ** The machine *)

Section MachineFacts.

Context {call : Type}.
Variable w : World call.

Lemma bind_Return {A B} (m : M call A) (k : A -> M call B) st a st' :
  m st = (Return a, st') -> bind m k st = k a st'.
Proof. intros E. unfold bind. now rewrite E. Qed.

Lemma bind_Raise {A B} (m : M call A) (k : A -> M call B) st e st' :
  m st = (Raise e, st') -> bind m k st = (Raise e, st').
Proof. intros E. unfold bind. now rewrite E. Qed.

Lemma bind_lift {A B} (r : result A) (k : A -> M call B) st a :
  r = Return a -> bind (lift r) k st = k a st.
Proof. intros ->. reflexivity. Qed.

Lemma client_call_connected method c st cl :
  client st = Some cl ->
  client_call w method c st =
    (remote w (trace st) c,
     {| client := Some cl; trace := (trace st ++ [EvCall c])%list |}).
Proof. intros E. unfold client_call. now rewrite E. Qed.

Lemma bind_client_call {B} method c (k : json -> M call B) st cl r :
  client st = Some cl ->
  remote w (trace st) c = r ->
  bind (client_call w method c) k st =
    let st' := {| client := Some cl; trace := (trace st ++ [EvCall c])%list |} in
    match r with
    | Return v => k v st'
    | Raise e => (Raise e, st')
    end.
Proof.
  intros E Hr. unfold bind. rewrite (client_call_connected _ _ _ _ E), Hr.
  now destruct r.
Qed.

Lemma quiet_ret {A} (a : A) : quiet (call := call) (ret a).
Proof.
  intros st. split; [reflexivity|]. exists []. simpl.
  now rewrite app_nil_r.
Qed.

Lemma quiet_raise {A} e : quiet (call := call) (A := A) (raise e).
Proof.
  intros st. split; [reflexivity|]. exists []. simpl.
  now rewrite app_nil_r.
Qed.

Lemma quiet_lift {A} (r : result A) : quiet (call := call) (lift r).
Proof.
  intros st. split; [reflexivity|]. exists []. simpl.
  now rewrite app_nil_r.
Qed.

Lemma quiet_client_url : quiet (call := call) client_url.
Proof.
  intros st. unfold client_url.
  destruct (client st) eqn:E; simpl; (split; [exact E|]); exists [];
    now rewrite app_nil_r.
Qed.

Lemma quiet_client_call method c : quiet (client_call w method c).
Proof.
  intros st. unfold client_call. destruct (client st) eqn:E; simpl.
  - split; [reflexivity|]. now exists [EvCall c].
  - split; [exact E|]. exists []. now rewrite app_nil_r.
Qed.

Lemma quiet_path_exists p : quiet (path_exists w p).
Proof.
  intros st. split; [reflexivity|]. now exists [EvExists p].
Qed.

Lemma quiet_bind {A B} (m : M call A) (k : A -> M call B) :
  quiet m -> (forall a, quiet (k a)) -> quiet (bind m k).
Proof.
  intros Hm Hk st. unfold bind.
  destruct (Hm st) as [Hc [evs [Ht Hio]]].
  destruct (m st) as [[a|e] st1]; simpl in *.
  - destruct (Hk a st1) as [Hc' [evs' [Ht' Hio']]].
    split; [congruence|].
    exists (evs ++ evs')%list. rewrite Ht', Ht, app_assoc. split; [reflexivity|].
    rewrite forallb_app. now rewrite Hio, Hio'.
  - split; [assumption|]. now exists evs.
Qed.

Lemma quiet_try_except {A} (body : M call A) handler :
  quiet body -> (forall e, quiet (handler e)) -> quiet (try_except body handler).
Proof.
  intros Hm Hk st. unfold try_except.
  destruct (Hm st) as [Hc [evs [Ht Hio]]].
  destruct (body st) as [[a|e] st1]; simpl in *.
  - split; [assumption|]. now exists evs.
  - destruct (Hk e st1) as [Hc' [evs' [Ht' Hio']]].
    split; [congruence|].
    exists (evs ++ evs')%list. rewrite Ht', Ht, app_assoc. split; [reflexivity|].
    rewrite forallb_app. now rewrite Hio, Hio'.
Qed.

Lemma quiet_for_each {A B} (body : A -> M call B) l :
  (forall x, quiet (body x)) -> quiet (for_each body l).
Proof.
  intros Hb. induction l as [|x tl IH]; simpl.
  - apply quiet_ret.
  - apply quiet_bind; [apply Hb|]. intros y.
    apply quiet_bind; [apply IH|]. intros ys. apply quiet_ret.
Qed.

Lemma env_reads_app (t u : list (event call)) :
  env_reads (t ++ u) = (env_reads t ++ env_reads u)%list.
Proof.
  induction t as [|e t IH]; [reflexivity|].
  destruct e; simpl; now rewrite IH.
Qed.

Lemma connects_app (t u : list (event call)) :
  connects (t ++ u) = (connects t ++ connects u)%list.
Proof.
  induction t as [|e t IH]; [reflexivity|].
  destruct e; simpl; now rewrite IH.
Qed.

Lemma calls_app (t u : list (event call)) :
  calls (t ++ u) = (calls t ++ calls u)%list.
Proof.
  induction t as [|e t IH]; [reflexivity|].
  destruct e; simpl; now rewrite IH.
Qed.

Lemma io_no_env_reads (evs : list (event call)) :
  forallb is_io evs = true -> env_reads evs = [] /\ connects evs = [].
Proof.
  induction evs as [|e evs IH]; [auto|].
  destruct e; simpl; intros H; try discriminate; auto.
Qed.

Lemma quiet_preserves {A} (m : M call A) st :
  quiet m ->
  client (snd (m st)) = client st /\
  env_reads (trace (snd (m st))) = env_reads (trace st) /\
  connects (trace (snd (m st))) = connects (trace st) /\
  exists evs, calls (trace (snd (m st))) = (calls (trace st) ++ evs)%list.
Proof.
  intros Hq. destruct (Hq st) as [Hc [evs [Ht Hio]]].
  destruct (io_no_env_reads evs Hio) as [He Hn].
  rewrite Ht, env_reads_app, connects_app, calls_app, He, Hn, !app_nil_r.
  repeat split; try assumption. now exists (calls evs).
Qed.

End MachineFacts.

Create HintDb quiet.
#[local] Hint Resolve quiet_ret quiet_raise quiet_lift quiet_client_url
  quiet_client_call quiet_path_exists : quiet.

(** Runs the remote call at the head of a handler, given that a client is
    retained ([E]) and what the remote answers ([H]). *)
Ltac remote_step E H :=
  match goal with
  | |- context [bind (client_call ?w ?m ?c) ?k ?s] =>
      rewrite (bind_client_call w m c k s _ _ E H); cbv zeta
  end.

(** Decomposes a handler into the steps that are known to be quiet. *)
Ltac quiet_steps :=
  repeat first
    [ progress intros
    | apply quiet_bind
    | apply quiet_for_each
    | apply quiet_try_except
    | solve [auto with quiet]
    | match goal with
      | |- quiet (if ?b then _ else _) => destruct b
      | |- quiet (match ?x with _ => _ end) => destruct x
      end ].

(** ** The Confluence server: session and dispatcher *)

Section ConfluenceFacts.

Context {rt : Runtime}.
Variable w : World Confluence.call.

Lemma confluence_connected st c :
  client st = Some c -> Confluence.ensure_connected w st = (Return tt, st).
Proof. intros E. unfold Confluence.ensure_connected. now rewrite E. Qed.

Lemma confluence_connect_fails st :
  client st = None -> Confluence.credentials_set w = false ->
  Confluence.ensure_connected w st =
    (Raise (ValueError Confluence.missing_credentials),
     {| client := None;
        trace := (trace st ++ map EvGetenv Confluence.env_names)%list |}).
Proof.
  intros E. unfold Confluence.ensure_connected, Confluence.credentials_set.
  rewrite E. unfold Confluence._connect_to_confluence, bind, getenv. simpl.
  rewrite E, <- !app_assoc. simpl.
  destruct (environ w "CONFLUENCE_URL") as [u|];
    destruct (environ w "CONFLUENCE_USERNAME") as [n|];
    destruct (environ w "CONFLUENCE_API_TOKEN") as [t|]; simpl;
    repeat match goal with
           | |- context [String.eqb ?x ""] => destruct (String.eqb x ""); simpl
           end;
    intros; try discriminate; reflexivity.
Qed.

Lemma confluence_connect_succeeds st :
  client st = None -> Confluence.credentials_set w = true ->
  exists c,
    Confluence.ensure_connected w st =
      (Return tt,
       {| client := Some c;
          trace := (trace st ++ map EvGetenv Confluence.env_names
                    ++ [EvConnect c])%list |}).
Proof.
  intros E. unfold Confluence.ensure_connected, Confluence.credentials_set.
  rewrite E. unfold Confluence._connect_to_confluence, bind, getenv, set_client.
  simpl. rewrite <- !app_assoc. simpl.
  destruct (environ w "CONFLUENCE_URL") as [u|]; simpl; [|discriminate].
  destruct (String.eqb u ""); simpl; [discriminate|].
  destruct (environ w "CONFLUENCE_USERNAME") as [n|]; simpl; [|discriminate].
  destruct (String.eqb n ""); simpl; [discriminate|].
  destruct (environ w "CONFLUENCE_API_TOKEN") as [t|]; simpl; [|discriminate].
  destruct (String.eqb t ""); simpl; [discriminate|].
  intros _. eexists. rewrite <- app_assoc. reflexivity.
Qed.

Lemma confluence_dispatch_selects name arguments :
  Confluence.dispatch w name arguments =
    match Confluence.handler_for w name with
    | Some h => h arguments
    | None => ret [text_content ("Unknown tool: " ++ name)]
    end.
Proof.
  unfold Confluence.dispatch, Confluence.handler_for, Confluence.handlers.
  simpl.
  repeat match goal with
         | |- context [String.eqb name ?k] => destruct (String.eqb name k)
         end; reflexivity.
Qed.

Lemma confluence_declared_handler name :
  Confluence.declared name = true <-> Confluence.handler_for w name <> None.
Proof.
  unfold Confluence.declared, Confluence.handler_for, Confluence.handlers.
  simpl.
  repeat match goal with
         | |- context [String.eqb name ?k] => destruct (String.eqb name k)
         end; simpl; split; congruence.
Qed.

Lemma confluence_handlers_quiet name h arguments :
  Confluence.handler_for w name = Some h -> quiet (h arguments).
Proof.
  unfold Confluence.handler_for, Confluence.handlers. simpl.
  repeat match goal with
         | |- context [String.eqb name ?k] => destruct (String.eqb name k)
         end; intros E; inversion E; subst h; clear E.
  - unfold Confluence._search_content. quiet_steps.
  - unfold Confluence._get_page. quiet_steps.
  - unfold Confluence._create_page. quiet_steps.
  - unfold Confluence._update_page. quiet_steps.
  - unfold Confluence._delete_page. quiet_steps.
  - unfold Confluence._get_spaces. quiet_steps.
  - unfold Confluence._get_page_children. quiet_steps.
  - unfold Confluence._add_attachment. quiet_steps.
Qed.

Lemma confluence_dispatch_quiet name arguments :
  quiet (Confluence.dispatch w name arguments).
Proof.
  rewrite confluence_dispatch_selects.
  destruct (Confluence.handler_for w name) as [h|] eqn:E.
  - now apply confluence_handlers_quiet with (name := name).
  - apply quiet_ret.
Qed.

Lemma confluence_call_tool_connected name arguments st st1 :
  Confluence.ensure_connected w st = (Return tt, st1) ->
  Confluence.call_tool w name arguments st =
    try_except (Confluence.dispatch w name arguments)
      (fun e => ret [text_content ("Error: " ++ str_exn e)]) st1.
Proof. intros E. unfold Confluence.call_tool. now rewrite (bind_Return _ _ _ _ _ E). Qed.

Lemma confluence_call_tool_unconnected name arguments st e st1 :
  Confluence.ensure_connected w st = (Raise e, st1) ->
  Confluence.call_tool w name arguments st = (Raise e, st1).
Proof. intros E. unfold Confluence.call_tool. now rewrite (bind_Raise _ _ _ _ _ E). Qed.

Lemma confluence_try_quiet name arguments :
  quiet (try_except (Confluence.dispatch w name arguments)
           (fun e => ret [text_content ("Error: " ++ str_exn e)])).
Proof.
  apply quiet_try_except; [apply confluence_dispatch_quiet|]. intros e. apply quiet_ret.
Qed.

(** An invocation that finds a retained client keeps it, reads no
    environment variable and constructs nothing. *)
Lemma confluence_call_tool_retained name arguments st c :
  client st = Some c ->
  let st' := snd (Confluence.call_tool w name arguments st) in
  client st' = Some c /\
  env_reads (trace st') = env_reads (trace st) /\
  connects (trace st') = connects (trace st).
Proof.
  intros E st'. subst st'.
  rewrite (confluence_call_tool_connected name arguments st st
             (confluence_connected st c E)).
  destruct (quiet_preserves _ st (confluence_try_quiet name arguments))
    as [Hc [He [Hn _]]].
  rewrite Hc, He, Hn. auto.
Qed.

(** An invocation that finds no client reads the four variables, and
    constructs the client when the credentials are there. *)
Lemma confluence_call_tool_first name arguments st :
  client st = None ->
  let st' := snd (Confluence.call_tool w name arguments st) in
  env_reads (trace st') = (env_reads (trace st) ++ Confluence.env_names)%list /\
  (if Confluence.credentials_set w
   then exists c, client st' = Some c /\
                  connects (trace st') = (connects (trace st) ++ [c])%list
   else client st' = None /\ connects (trace st') = connects (trace st)).
Proof.
  intros E st'. subst st'.
  destruct (Confluence.credentials_set w) eqn:Hcred.
  - destruct (confluence_connect_succeeds st E Hcred) as [c Hc].
    rewrite (confluence_call_tool_connected name arguments _ _ Hc).
    match goal with
    | |- context [try_except ?b ?h ?s] =>
        destruct (quiet_preserves (try_except b h) s
                    (confluence_try_quiet name arguments)) as [Hcl [He [Hn _]]]
    end.
    rewrite He, Hn, Hcl. simpl.
    rewrite env_reads_app, connects_app. simpl.
    rewrite ?app_nil_r. split; [reflexivity|]. now exists c.
  - rewrite (confluence_call_tool_unconnected name arguments _ _ _
               (confluence_connect_fails st E Hcred)). simpl.
    rewrite env_reads_app, connects_app. simpl.
    rewrite ?app_nil_r. auto.
Qed.

(** What the process keeps true between invocations: the retained client
    is the one and only client ever constructed. *)
Lemma confluence_serve_invariant invocations st :
  match client st with
  | Some c => connects (trace st) = [c]
  | None => connects (trace st) = []
  end ->
  match client (Confluence.serve w invocations st) with
  | Some c => connects (trace (Confluence.serve w invocations st)) = [c]
  | None => connects (trace (Confluence.serve w invocations st)) = []
  end.
Proof.
  revert st. induction invocations as [|[name arguments] rest IH];
    intros st Hinv; [exact Hinv|].
  simpl. apply IH.
  destruct (client st) as [c|] eqn:E.
  - destruct (confluence_call_tool_retained name arguments st c E) as [Hc [_ Hn]].
    rewrite Hc, Hn. exact Hinv.
  - destruct (confluence_call_tool_first name arguments st E) as [_ Hf].
    destruct (Confluence.credentials_set w).
    + destruct Hf as [c [Hc Hn]]. rewrite Hc, Hn, Hinv. reflexivity.
    + destruct Hf as [Hc Hn]. rewrite Hc, Hn. exact Hinv.
Qed.

Lemma confluence_serve_retained invocations st c :
  client st = Some c ->
  client (Confluence.serve w invocations st) = Some c /\
  env_reads (trace (Confluence.serve w invocations st)) = env_reads (trace st) /\
  connects (trace (Confluence.serve w invocations st)) = connects (trace st).
Proof.
  revert st. induction invocations as [|[name arguments] rest IH];
    intros st E; [auto|].
  simpl.
  destruct (confluence_call_tool_retained name arguments st c E) as [Hc [He Hn]].
  destruct (IH _ Hc) as [Hc' [He' Hn']].
  rewrite Hc', He', Hn'. auto.
Qed.

End ConfluenceFacts.

(** ** The Jira server: session and dispatcher *)

Section JiraFacts.

Context {rt : Runtime}.
Variable w : World Jira.call.

Lemma jira_connected st c :
  client st = Some c -> Jira.ensure_connected w st = (Return tt, st).
Proof. intros E. unfold Jira.ensure_connected. now rewrite E. Qed.

Lemma jira_connect_fails st :
  client st = None -> Jira.credentials_set w = false ->
  Jira.ensure_connected w st =
    (Raise (ValueError Jira.missing_credentials),
     {| client := None;
        trace := (trace st ++ map EvGetenv Jira.env_names)%list |}).
Proof.
  intros E. unfold Jira.ensure_connected, Jira.credentials_set.
  rewrite E. unfold Jira._connect_to_jira, bind, getenv. simpl.
  rewrite E, <- !app_assoc. simpl.
  destruct (environ w "JIRA_URL") as [u|];
    destruct (environ w "JIRA_USERNAME") as [n|];
    destruct (environ w "JIRA_API_TOKEN") as [t|]; simpl;
    repeat match goal with
           | |- context [String.eqb ?x ""] => destruct (String.eqb x ""); simpl
           end;
    intros; try discriminate; reflexivity.
Qed.

Lemma jira_connect_succeeds st :
  client st = None -> Jira.credentials_set w = true ->
  exists c,
    Jira.ensure_connected w st =
      (Return tt,
       {| client := Some c;
          trace := (trace st ++ map EvGetenv Jira.env_names
                    ++ [EvConnect c])%list |}).
Proof.
  intros E. unfold Jira.ensure_connected, Jira.credentials_set.
  rewrite E. unfold Jira._connect_to_jira, bind, getenv, set_client.
  simpl. rewrite <- !app_assoc. simpl.
  destruct (environ w "JIRA_URL") as [u|]; simpl; [|discriminate].
  destruct (String.eqb u ""); simpl; [discriminate|].
  destruct (environ w "JIRA_USERNAME") as [n|]; simpl; [|discriminate].
  destruct (String.eqb n ""); simpl; [discriminate|].
  destruct (environ w "JIRA_API_TOKEN") as [t|]; simpl; [|discriminate].
  destruct (String.eqb t ""); simpl; [discriminate|].
  intros _. eexists. rewrite <- app_assoc. reflexivity.
Qed.

Lemma jira_dispatch_selects name arguments :
  Jira.dispatch w name arguments =
    match Jira.handler_for w name with
    | Some h => h arguments
    | None => ret [text_content ("Unknown tool: " ++ name)]
    end.
Proof.
  unfold Jira.dispatch, Jira.handler_for, Jira.handlers.
  simpl.
  repeat match goal with
         | |- context [String.eqb name ?k] => destruct (String.eqb name k)
         end; reflexivity.
Qed.

Lemma jira_declared_handler name :
  Jira.declared name = true <-> Jira.handler_for w name <> None.
Proof.
  unfold Jira.declared, Jira.handler_for, Jira.handlers.
  simpl.
  repeat match goal with
         | |- context [String.eqb name ?k] => destruct (String.eqb name k)
         end; simpl; split; congruence.
Qed.

Lemma jira_handlers_quiet name h arguments :
  Jira.handler_for w name = Some h -> quiet (h arguments).
Proof.
  unfold Jira.handler_for, Jira.handlers. simpl.
  repeat match goal with
         | |- context [String.eqb name ?k] => destruct (String.eqb name k)
         end; intros E; inversion E; subst h; clear E.
  - unfold Jira._search_issues. quiet_steps.
  - unfold Jira._get_issue. quiet_steps.
  - unfold Jira._create_issue. quiet_steps.
  - unfold Jira._update_issue. quiet_steps.
  - unfold Jira._add_comment. quiet_steps.
  - unfold Jira._transition_issue. quiet_steps.
  - unfold Jira._get_projects. quiet_steps.
Qed.

Lemma jira_dispatch_quiet name arguments :
  quiet (Jira.dispatch w name arguments).
Proof.
  rewrite jira_dispatch_selects.
  destruct (Jira.handler_for w name) as [h|] eqn:E.
  - now apply jira_handlers_quiet with (name := name).
  - apply quiet_ret.
Qed.

Lemma jira_call_tool_connected name arguments st st1 :
  Jira.ensure_connected w st = (Return tt, st1) ->
  Jira.call_tool w name arguments st =
    try_except (Jira.dispatch w name arguments)
      (fun e => ret [text_content ("Error: " ++ str_exn e)]) st1.
Proof. intros E. unfold Jira.call_tool. now rewrite (bind_Return _ _ _ _ _ E). Qed.

Lemma jira_call_tool_unconnected name arguments st e st1 :
  Jira.ensure_connected w st = (Raise e, st1) ->
  Jira.call_tool w name arguments st = (Raise e, st1).
Proof. intros E. unfold Jira.call_tool. now rewrite (bind_Raise _ _ _ _ _ E). Qed.

Lemma jira_try_quiet name arguments :
  quiet (try_except (Jira.dispatch w name arguments)
           (fun e => ret [text_content ("Error: " ++ str_exn e)])).
Proof.
  apply quiet_try_except; [apply jira_dispatch_quiet|]. intros e. apply quiet_ret.
Qed.

(** An invocation that finds a retained client keeps it, reads no
    environment variable and constructs nothing. *)
Lemma jira_call_tool_retained name arguments st c :
  client st = Some c ->
  let st' := snd (Jira.call_tool w name arguments st) in
  client st' = Some c /\
  env_reads (trace st') = env_reads (trace st) /\
  connects (trace st') = connects (trace st).
Proof.
  intros E st'. subst st'.
  rewrite (jira_call_tool_connected name arguments st st
             (jira_connected st c E)).
  destruct (quiet_preserves _ st (jira_try_quiet name arguments))
    as [Hc [He [Hn _]]].
  rewrite Hc, He, Hn. auto.
Qed.

(** An invocation that finds no client reads the four variables, and
    constructs the client when the credentials are there. *)
Lemma jira_call_tool_first name arguments st :
  client st = None ->
  let st' := snd (Jira.call_tool w name arguments st) in
  env_reads (trace st') = (env_reads (trace st) ++ Jira.env_names)%list /\
  (if Jira.credentials_set w
   then exists c, client st' = Some c /\
                  connects (trace st') = (connects (trace st) ++ [c])%list
   else client st' = None /\ connects (trace st') = connects (trace st)).
Proof.
  intros E st'. subst st'.
  destruct (Jira.credentials_set w) eqn:Hcred.
  - destruct (jira_connect_succeeds st E Hcred) as [c Hc].
    rewrite (jira_call_tool_connected name arguments _ _ Hc).
    match goal with
    | |- context [try_except ?b ?h ?s] =>
        destruct (quiet_preserves (try_except b h) s
                    (jira_try_quiet name arguments)) as [Hcl [He [Hn _]]]
    end.
    rewrite He, Hn, Hcl. simpl.
    rewrite env_reads_app, connects_app. simpl.
    rewrite ?app_nil_r. split; [reflexivity|]. now exists c.
  - rewrite (jira_call_tool_unconnected name arguments _ _ _
               (jira_connect_fails st E Hcred)). simpl.
    rewrite env_reads_app, connects_app. simpl.
    rewrite ?app_nil_r. auto.
Qed.

(** What the process keeps true between invocations: the retained client
    is the one and only client ever constructed. *)
Lemma jira_serve_invariant invocations st :
  match client st with
  | Some c => connects (trace st) = [c]
  | None => connects (trace st) = []
  end ->
  match client (Jira.serve w invocations st) with
  | Some c => connects (trace (Jira.serve w invocations st)) = [c]
  | None => connects (trace (Jira.serve w invocations st)) = []
  end.
Proof.
  revert st. induction invocations as [|[name arguments] rest IH];
    intros st Hinv; [exact Hinv|].
  simpl. apply IH.
  destruct (client st) as [c|] eqn:E.
  - destruct (jira_call_tool_retained name arguments st c E) as [Hc [_ Hn]].
    rewrite Hc, Hn. exact Hinv.
  - destruct (jira_call_tool_first name arguments st E) as [_ Hf].
    destruct (Jira.credentials_set w).
    + destruct Hf as [c [Hc Hn]]. rewrite Hc, Hn, Hinv. reflexivity.
    + destruct Hf as [Hc Hn]. rewrite Hc, Hn. exact Hinv.
Qed.

Lemma jira_serve_retained invocations st c :
  client st = Some c ->
  client (Jira.serve w invocations st) = Some c /\
  env_reads (trace (Jira.serve w invocations st)) = env_reads (trace st) /\
  connects (trace (Jira.serve w invocations st)) = connects (trace st).
Proof.
  revert st. induction invocations as [|[name arguments] rest IH];
    intros st E; [auto|].
  simpl.
  destruct (jira_call_tool_retained name arguments st c E) as [Hc [He Hn]].
  destruct (IH _ Hc) as [Hc' [He' Hn']].
  rewrite Hc', He', Hn'. auto.
Qed.

End JiraFacts.

(** ** The dispatcher and the session, for both servers *)

Section Dispatcher.

Context {rt : Runtime}.

(** With a credential missing and no client retained, [call_tool] of the
    Confluence server ends in the [ValueError] of
    [_connect_to_confluence], whatever the tool. *)
Lemma confluence_call_without_credentials
    (w : World Confluence.call) name arguments st :
  client st = None -> Confluence.credentials_set w = false ->
  fst (Confluence.call_tool w name arguments st) =
    Raise (ValueError Confluence.missing_credentials).
Proof.
  intros E Hcred.
  now rewrite (confluence_call_tool_unconnected w name arguments _ _ _
                 (confluence_connect_fails w st E Hcred)).
Qed.

(** The same for the Jira server. *)
Lemma jira_call_without_credentials (w : World Jira.call) name arguments st :
  client st = None -> Jira.credentials_set w = false ->
  fst (Jira.call_tool w name arguments st) =
    Raise (ValueError Jira.missing_credentials).
Proof.
  intros E Hcred.
  now rewrite (jira_call_tool_unconnected w name arguments _ _ _
                 (jira_connect_fails w st E Hcred)).
Qed.

(** C2: for every declared tool of either server, when the handler that
    the dispatcher selects raises an exception [e], [call_tool] returns
    the one text "Error: " followed by [str(e)], and the server is left as
    the handler left it: the handler ran once, nothing was retried and the
    kind of [e] plays no part. *)
Theorem C2_handler_exception_becomes_error_text :
  (forall (w : World Confluence.call) name arguments h st st1 e st2,
      Confluence.declared name = true ->
      Confluence.handler_for w name = Some h ->
      Confluence.ensure_connected w st = (Return tt, st1) ->
      h arguments st1 = (Raise e, st2) ->
      Confluence.call_tool w name arguments st =
        (Return [text_content ("Error: " ++ str_exn e)], st2))
  /\
  (forall (w : World Jira.call) name arguments h st st1 e st2,
      Jira.declared name = true ->
      Jira.handler_for w name = Some h ->
      Jira.ensure_connected w st = (Return tt, st1) ->
      h arguments st1 = (Raise e, st2) ->
      Jira.call_tool w name arguments st =
        (Return [text_content ("Error: " ++ str_exn e)], st2)).
Proof.
  split; intros w name arguments h st st1 e st2 _ Hh Hconn Hraise.
  - rewrite (confluence_call_tool_connected w name arguments st st1 Hconn).
    unfold try_except.
    now rewrite confluence_dispatch_selects, Hh, Hraise.
  - rewrite (jira_call_tool_connected w name arguments st st1 Hconn).
    unfold try_except.
    now rewrite jira_dispatch_selects, Hh, Hraise.
Qed.

(** C3, as amended: for every tool name that matches none of the declared
    handlers, when a client is retained or the three credentials are set,
    [call_tool] returns exactly the text "Unknown tool: " followed by the
    name, whatever the arguments, without raising and without a remote
    call; for both servers. *)
Theorem C3_unknown_tool_is_reported :
  (forall (w : World Confluence.call) name arguments st,
      Confluence.declared name = false ->
      client st <> None \/ Confluence.credentials_set w = true ->
      exists st',
        Confluence.call_tool w name arguments st =
          (Return [text_content ("Unknown tool: " ++ name)], st') /\
        calls (trace st') = calls (trace st))
  /\
  (forall (w : World Jira.call) name arguments st,
      Jira.declared name = false ->
      client st <> None \/ Jira.credentials_set w = true ->
      exists st',
        Jira.call_tool w name arguments st =
          (Return [text_content ("Unknown tool: " ++ name)], st') /\
        calls (trace st') = calls (trace st)).
Proof.
  split; intros w name arguments st Hundeclared Hsession.
  - assert (Hnone : Confluence.handler_for w name = None).
    { destruct (Confluence.handler_for w name) eqn:E; [|reflexivity].
      assert (Confluence.declared name = true)
        by (apply (confluence_declared_handler w); congruence).
      congruence. }
    assert (Hconn : exists st1,
               Confluence.ensure_connected w st = (Return tt, st1) /\
               calls (trace st1) = calls (trace st)).
    { destruct (client st) as [c|] eqn:E.
      - exists st. split; [now apply confluence_connected with c|reflexivity].
      - destruct Hsession as [Hc|Hcred]; [congruence|].
        destruct (confluence_connect_succeeds w st E Hcred) as [c Hc].
        eexists. split; [exact Hc|]. simpl. rewrite calls_app. simpl.
        now rewrite app_nil_r. }
    destruct Hconn as [st1 [Hconn Hcalls]].
    exists st1. split; [|exact Hcalls].
    rewrite (confluence_call_tool_connected w name arguments st st1 Hconn).
    unfold try_except. now rewrite confluence_dispatch_selects, Hnone.
  - assert (Hnone : Jira.handler_for w name = None).
    { destruct (Jira.handler_for w name) eqn:E; [|reflexivity].
      assert (Jira.declared name = true)
        by (apply (jira_declared_handler w); congruence).
      congruence. }
    assert (Hconn : exists st1,
               Jira.ensure_connected w st = (Return tt, st1) /\
               calls (trace st1) = calls (trace st)).
    { destruct (client st) as [c|] eqn:E.
      - exists st. split; [now apply jira_connected with c|reflexivity].
      - destruct Hsession as [Hc|Hcred]; [congruence|].
        destruct (jira_connect_succeeds w st E Hcred) as [c Hc].
        eexists. split; [exact Hc|]. simpl. rewrite calls_app. simpl.
        now rewrite app_nil_r. }
    destruct Hconn as [st1 [Hconn Hcalls]].
    exists st1. split; [|exact Hcalls].
    rewrite (jira_call_tool_connected w name arguments st st1 Hconn).
    unfold try_except. now rewrite jira_dispatch_selects, Hnone.
Qed.

(** C9: in each server process the client is constructed at most once.
    An invocation that finds no retained client reads the four environment
    variables, in order, and with the credentials set constructs the
    client and retains it; every invocation that finds a retained client,
    and so every later invocation of the process, keeps that same client,
    reads no environment variable and constructs nothing; whatever the
    invocations served since [__init__], the trace of the process holds at
    most one construction. *)
Theorem C9_client_constructed_at_most_once :
  (forall (w : World Confluence.call),
      (forall name arguments st,
          client st = None ->
          let st' := snd (Confluence.call_tool w name arguments st) in
          env_reads (trace st') =
            (env_reads (trace st) ++ Confluence.env_names)%list /\
          (Confluence.credentials_set w = true ->
           exists c, client st' = Some c /\
                     connects (trace st') = (connects (trace st) ++ [c])%list)) /\
      (forall invocations st c,
          client st = Some c ->
          client (Confluence.serve w invocations st) = Some c /\
          env_reads (trace (Confluence.serve w invocations st)) =
            env_reads (trace st) /\
          connects (trace (Confluence.serve w invocations st)) =
            connects (trace st)) /\
      (forall invocations,
          (length (connects (trace (Confluence.serve w invocations
                                      Confluence.__init__))) <= 1)%nat))
  /\
  (forall (w : World Jira.call),
      (forall name arguments st,
          client st = None ->
          let st' := snd (Jira.call_tool w name arguments st) in
          env_reads (trace st') =
            (env_reads (trace st) ++ Jira.env_names)%list /\
          (Jira.credentials_set w = true ->
           exists c, client st' = Some c /\
                     connects (trace st') = (connects (trace st) ++ [c])%list)) /\
      (forall invocations st c,
          client st = Some c ->
          client (Jira.serve w invocations st) = Some c /\
          env_reads (trace (Jira.serve w invocations st)) =
            env_reads (trace st) /\
          connects (trace (Jira.serve w invocations st)) =
            connects (trace st)) /\
      (forall invocations,
          (length (connects (trace (Jira.serve w invocations
                                      Jira.__init__))) <= 1)%nat)).
Proof.
  split; intros w.
  - split; [|split].
    + intros name arguments st E.
      destruct (confluence_call_tool_first w name arguments st E) as [He Hf].
      split; [exact He|]. intros Hcred. now rewrite Hcred in Hf.
    + intros invocations st c E. now apply confluence_serve_retained.
    + intros invocations.
      pose proof (confluence_serve_invariant w invocations Confluence.__init__ eq_refl)
        as Hinv.
      destruct (client (Confluence.serve w invocations Confluence.__init__));
        rewrite Hinv; simpl; lia.
  - split; [|split].
    + intros name arguments st E.
      destruct (jira_call_tool_first w name arguments st E) as [He Hf].
      split; [exact He|]. intros Hcred. now rewrite Hcred in Hf.
    + intros invocations st c E. now apply jira_serve_retained.
    + intros invocations.
      pose proof (jira_serve_invariant w invocations Jira.__init__ eq_refl)
        as Hinv.
      destruct (client (Jira.serve w invocations Jira.__init__));
        rewrite Hinv; simpl; lia.
Qed.

End Dispatcher.

(** ** Confluence handlers *)

Section ConfluenceHandlers.

Context {rt : Runtime}.
Variable w : World Confluence.call.

(** With a title argument that is falsy (absent, [None] or empty),
    [_update_page] reads the page, then writes it under the title it has
    read. *)
Lemma update_page_keeps_current_title
    arguments st c page_id content current title result result_title number :
  client st = Some c ->
  lookup "page_id" arguments = Some page_id ->
  lookup "content" arguments = Some content ->
  truthy (get_or arguments "title" JNull) = false ->
  let read := Confluence.get_page_by_id page_id None in
  let write :=
    Confluence.update_page page_id title content
      (get_or arguments "version_comment" (JStr "Updated via MCP")) in
  remote w (trace st) read = Return current ->
  subscript current "title" = Return title ->
  remote w (trace st ++ [EvCall read]) write = Return result ->
  subscript result "title" = Return result_title ->
  subscripts result ["version"; "number"] = Return number ->
  Confluence._update_page w arguments st =
    (Return [text_content ("Updated page: " ++ format result_title ++ nl
                           ++ "Version: " ++ format number)],
     {| client := Some c;
        trace := (trace st ++ [EvCall read; EvCall write])%list |}).
Proof.
  intros E Hid Hcontent Hfalsy read write Hread Htitle Hwrite Hrt Hnum.
  unfold Confluence._update_page, item. rewrite Hid, Hcontent.
  rewrite (bind_lift _ _ _ _ eq_refl), (bind_lift _ _ _ _ eq_refl).
  cbv zeta. rewrite Hfalsy.
  remote_step E Hread.
  rewrite (bind_lift _ _ _ _ Htitle).
  remote_step (eq_refl (Some c)) Hwrite.
  rewrite (bind_lift _ _ _ _ Hrt), (bind_lift _ _ _ _ Hnum).
  unfold ret. cbn [trace]. now rewrite <- app_assoc.
Qed.

(** C4: when the invocation supplies no title, [_update_page] issues one
    read of the page and then the write, two remote calls in all; the
    write carries the title the read returned, unchanged, and the version
    comment of the invocation, which is "Updated via MCP" when none is
    supplied; the text returned holds the version number of the answer to
    the write. *)
Theorem C4_update_page_without_title
    arguments st c page_id content current title result result_title number :
  client st = Some c ->
  lookup "page_id" arguments = Some page_id ->
  lookup "content" arguments = Some content ->
  lookup "title" arguments = None ->
  let version_comment :=
    match lookup "version_comment" arguments with
    | Some supplied => supplied
    | None => JStr "Updated via MCP"
    end in
  let read := Confluence.get_page_by_id page_id None in
  let write := Confluence.update_page page_id title content version_comment in
  remote w (trace st) read = Return current ->
  subscript current "title" = Return title ->
  remote w (trace st ++ [EvCall read]) write = Return result ->
  subscript result "title" = Return result_title ->
  subscripts result ["version"; "number"] = Return number ->
  Confluence._update_page w arguments st =
    (Return [text_content ("Updated page: " ++ format result_title ++ nl
                           ++ "Version: " ++ format number)],
     {| client := Some c;
        trace := (trace st ++ [EvCall read; EvCall write])%list |}).
Proof.
  intros E Hid Hcontent Hnotitle version_comment read write.
  apply update_page_keeps_current_title; try assumption.
  unfold get_or. now rewrite Hnotitle.
Qed.

(** C10: a title argument equal to the empty string is treated as an
    absent one: [_update_page] writes the page under the title that the
    read of the current page returned, not under the empty title. *)
Theorem C10_update_page_with_empty_title
    arguments st c page_id content current title result result_title number :
  client st = Some c ->
  lookup "page_id" arguments = Some page_id ->
  lookup "content" arguments = Some content ->
  lookup "title" arguments = Some (JStr "") ->
  let read := Confluence.get_page_by_id page_id None in
  let write :=
    Confluence.update_page page_id title content
      (get_or arguments "version_comment" (JStr "Updated via MCP")) in
  remote w (trace st) read = Return current ->
  subscript current "title" = Return title ->
  remote w (trace st ++ [EvCall read]) write = Return result ->
  subscript result "title" = Return result_title ->
  subscripts result ["version"; "number"] = Return number ->
  Confluence._update_page w arguments st =
    (Return [text_content ("Updated page: " ++ format result_title ++ nl
                           ++ "Version: " ++ format number)],
     {| client := Some c;
        trace := (trace st ++ [EvCall read; EvCall write])%list |}).
Proof.
  intros E Hid Hcontent Hempty read write.
  apply update_page_keeps_current_title; try assumption.
  unfold get_or. now rewrite Hempty.
Qed.

(** C6: when the file path of the invocation does not exist,
    [_add_attachment] returns the text "Error: File not found: " followed
    by the path, as a normal result, and the upload is never called; when
    it exists, the file is uploaded to the page with the comment of the
    invocation, the empty string when none is supplied, and a
    confirmation is returned. *)
Theorem C6_add_attachment_checks_the_file
    arguments st page_id path :
  lookup "page_id" arguments = Some page_id ->
  lookup "file_path" arguments = Some (JStr path) ->
  let comment :=
    match lookup "comment" arguments with
    | Some supplied => supplied
    | None => JStr ""
    end in
  let upload := Confluence.attach_file (JStr path) page_id comment in
  (os_path_exists w (JStr path) = Return false ->
   Confluence._add_attachment w arguments st =
     (Return [text_content ("Error: File not found: " ++ path)],
      {| client := client st;
         trace := (trace st ++ [EvExists (JStr path)])%list |}))
  /\
  (forall c answer base,
      client st = Some c ->
      os_path_exists w (JStr path) = Return true ->
      remote w (trace st ++ [EvExists (JStr path)]) upload = Return answer ->
      os_path_basename (JStr path) = Return base ->
      Confluence._add_attachment w arguments st =
        (Return [text_content ("Attached file: " ++ base ++ " to page "
                               ++ format page_id)],
         {| client := Some c;
            trace := (trace st ++ [EvExists (JStr path); EvCall upload])%list |})).
Proof.
  intros Hid Hpath comment upload.
  split.
  - intros Habsent.
    unfold Confluence._add_attachment, item. rewrite Hid, Hpath.
    rewrite (bind_lift _ _ _ _ eq_refl), (bind_lift _ _ _ _ eq_refl).
    cbv zeta. unfold bind at 1. unfold path_exists. rewrite Habsent.
    cbn [negb]. unfold ret. now rewrite format_str.
  - intros c answer base E Hexists Hupload Hbase.
    unfold Confluence._add_attachment, item. rewrite Hid, Hpath.
    rewrite (bind_lift _ _ _ _ eq_refl), (bind_lift _ _ _ _ eq_refl).
    cbv zeta. unfold bind at 1. unfold path_exists. rewrite Hexists.
    cbn [negb].
    remote_step E Hupload.
    rewrite (bind_lift _ _ _ _ Hbase).
    unfold ret. cbn [trace]. now rewrite <- app_assoc.
Qed.

End ConfluenceHandlers.

(** ** Jira handlers *)

Section JiraHandlers.

Context {rt : Runtime}.
Variable w : World Jira.call.

(** On an answer that is a list, [_transition_issue] stops at
    [transitions["transitions"]]: a list takes no string index, so the
    handler ends in a [TypeError] after the one call that fetched the
    transitions; the scan is not entered, no status name is listed and no
    status is set. *)
Lemma transition_issue_on_a_list
    arguments st c issue_key target_status transitions :
  client st = Some c ->
  lookup "issue_key" arguments = Some issue_key ->
  lookup "status" arguments = Some target_status ->
  let fetch := Jira.get_issue_transitions issue_key in
  remote w (trace st) fetch = Return (JList transitions) ->
  Jira._transition_issue w arguments st =
    (Raise (TypeError "list indices must be integers or slices, not str"),
     {| client := Some c; trace := (trace st ++ [EvCall fetch])%list |}).
Proof.
  intros E Hkey Hstatus fetch Hfetch.
  unfold Jira._transition_issue, item. rewrite Hkey, Hstatus.
  rewrite (bind_lift _ _ _ _ eq_refl), (bind_lift _ _ _ _ eq_refl).
  now remote_step E Hfetch.
Qed.

(** C7: with project key and summary present, the field map that
    [_create_issue] sends holds the project key, the summary and the
    issue type, "Task" when none is supplied; description, priority and
    assignee are in the map exactly when the invocation supplies them
    (the default "Medium" of the schema is not filled in), priority and
    assignee wrapped as objects with the one key [name]; nothing else is
    in the map, and the text returned holds the key and the self-link of
    the answer. *)
Theorem C7_create_issue_builds_the_field_map
    arguments project_key summary_ :
  lookup "project_key" arguments = Some project_key ->
  lookup "summary" arguments = Some summary_ ->
  let named (v : json) := JDict [("name", v)] in
  exists fields,
    Jira.create_fields arguments = Return fields /\
    lookup "project" fields = Some (JDict [("key", project_key)]) /\
    lookup "summary" fields = Some summary_ /\
    lookup "issuetype" fields =
      Some (named match lookup "issue_type" arguments with
                  | Some supplied => supplied
                  | None => JStr "Task"
                  end) /\
    lookup "description" fields = lookup "description" arguments /\
    lookup "priority" fields = option_map named (lookup "priority" arguments) /\
    lookup "assignee" fields = option_map named (lookup "assignee" arguments) /\
    (forall k, lookup k fields <> None ->
               In k ["project"; "summary"; "issuetype"; "description";
                     "priority"; "assignee"]) /\
    (forall st c result key_ self_,
        client st = Some c ->
        let create := Jira.create_issue (JDict fields) in
        remote w (trace st) create = Return result ->
        subscript result "key" = Return key_ ->
        subscript result "self" = Return self_ ->
        Jira._create_issue w arguments st =
          (Return [text_content ("Created issue: " ++ format key_ ++ nl
                                 ++ "URL: " ++ format self_)],
           {| client := Some c; trace := (trace st ++ [EvCall create])%list |})).
Proof.
  intros Hproject Hsummary named.
  assert (Hfields : exists fields, Jira.create_fields arguments = Return fields /\
    lookup "project" fields = Some (JDict [("key", project_key)]) /\
    lookup "summary" fields = Some summary_ /\
    lookup "issuetype" fields =
      Some (named (get_or arguments "issue_type" (JStr "Task"))) /\
    lookup "description" fields = lookup "description" arguments /\
    lookup "priority" fields = option_map named (lookup "priority" arguments) /\
    lookup "assignee" fields = option_map named (lookup "assignee" arguments) /\
    (forall k, lookup k fields <> None ->
               In k ["project"; "summary"; "issuetype"; "description";
                     "priority"; "assignee"])).
  { unfold Jira.create_fields, item. rewrite Hproject, Hsummary.
    cbn [rbind].
    destruct (lookup "description" arguments) as [d|];
      destruct (lookup "priority" arguments) as [p|];
      destruct (lookup "assignee" arguments) as [a|];
      cbn; eexists; (split; [reflexivity|]);
      repeat (split; [reflexivity|]);
      intros k; unfold lookup;
      repeat match goal with
             | |- context [String.eqb k ?lit] =>
                 destruct (String.eqb_spec k lit); [subst k; cbn; tauto|]
             end;
      congruence. }
  destruct Hfields as [fields [Hcreate Hrest]].
  exists fields. split; [exact Hcreate|].
  repeat match type of Hrest with
         | _ /\ _ => destruct Hrest as [? Hrest]; split; [assumption|]
         end.
  split; [exact Hrest|].
  intros st c result key_ self_ E create Hremote Hkey Hself.
  unfold Jira._create_issue.
  rewrite (bind_lift _ _ _ _ Hcreate).
  remote_step E Hremote.
  now rewrite (bind_lift _ _ _ _ Hkey), (bind_lift _ _ _ _ Hself).
Qed.

Lemma py_get_str f k :
  Jira.str_or_absent f k = true ->
  exists s, py_get (JDict f) k (JStr "") = Return (JStr s).
Proof.
  unfold Jira.str_or_absent, py_get, get_or.
  destruct (lookup k f) as [[| | |s| |]|]; try discriminate; eauto.
Qed.

Lemma py_get_opt_str f k :
  Jira.opt_str_or_absent f k = true ->
  exists v, py_get (JDict f) k (JStr "") = Return v /\
            Jira.is_opt_str v = true.
Proof.
  unfold Jira.opt_str_or_absent, py_get, get_or.
  destruct (lookup k f) as [[| | |s| |]|]; try discriminate; eauto.
Qed.

Lemma get2_ref f k k2 :
  Jira.ref_or_absent f k k2 = true ->
  exists s, Jira.get2 (JDict f) k (JDict []) k2 (JStr "") = Return (JStr s).
Proof.
  unfold Jira.ref_or_absent, Jira.get2. cbn [py_get rbind]. unfold get_or at 1.
  destruct (lookup k f) as [[| | | | |r]|]; try discriminate.
  - apply py_get_str.
  - intros _. now exists "".
Qed.

(** A conditional reference yields the fallback when the field is
    missing, and otherwise the fallback or a string. *)
Lemma get2_if_optional f k k2 default otherwise :
  Jira.optional_ref f k k2 = true ->
  exists v,
    Jira.get2_if (JDict f) k k2 (JStr default) otherwise = Return v /\
    (v = otherwise \/ Jira.is_str v = true) /\
    (Jira.missing f k = true -> v = otherwise).
Proof.
  unfold Jira.optional_ref, Jira.missing, Jira.get2_if, Jira.get2.
  cbn [py_get rbind]. unfold get_or at 1 2.
  destruct (lookup k f) as [[| | | | |r]|]; try discriminate; cbn [rbind truthy].
  - intros _. exists otherwise. auto.
  - destruct r as [|kv r'].
    + intros _. exists otherwise. auto.
    + unfold Jira.str_or_absent, py_get, get_or.
      destruct (lookup k2 (kv :: r')) as [[| | |s| |]|]; try discriminate;
        intros _; eexists; (split; [reflexivity|]); split;
        try (right; reflexivity); discriminate.
  - intros _. exists otherwise. auto.
Qed.

(** The two projections of one well-formed issue. *)
Lemma issue_projections issue_ key_ f :
  subscript issue_ "key" = Return (JStr key_) ->
  py_get issue_ "fields" (JDict []) = Return (JDict f) ->
  Jira.well_formed_fields f = true ->
  (exists details,
      Jira.issue_details issue_ = Return details /\
      (Jira.missing f "assignee" = true -> assignee details = None) /\
      (Jira.missing f "priority" = true -> priority details = None))
  /\
  (exists out,
      Jira.format_issue issue_ = Return (JDict out) /\
      (Jira.missing f "assignee" = true ->
       lookup "assignee" out = Some (JStr "Unassigned")) /\
      (Jira.missing f "priority" = true ->
       lookup "priority" out = Some (JStr ""))).
Proof.
  intros Hkey Hfields Hwf.
  unfold Jira.well_formed_fields in Hwf.
  rewrite !andb_true_iff in Hwf.
  destruct Hwf as [[[[[[[[[Wsummary Wdesc] Wstatus] Wassignee] Wreporter]
                         Wcreated] Wupdated] Wpriority] Wtype] Wproject].
  destruct (py_get_str f "summary" Wsummary) as [summary_ Hsummary].
  destruct (py_get_opt_str f "description" Wdesc) as [description_ [Hdesc Hd]].
  destruct (get2_ref f "status" "name" Wstatus) as [status_ Hstatus].
  destruct (get2_ref f "reporter" "displayName" Wreporter)
    as [reporter_ Hreporter].
  destruct (py_get_str f "created" Wcreated) as [created_ Hcreated].
  destruct (py_get_str f "updated" Wupdated) as [updated_ Hupdated].
  destruct (get2_ref f "issuetype" "name" Wtype) as [issue_type_ Hissuetype].
  destruct (get2_ref f "project" "key" Wproject) as [project_ Hproject].
  split.
  - destruct (get2_if_optional f "assignee" "displayName" "" JNull Wassignee)
      as [assignee_ [Hassignee [Ha Hamissing]]].
    destruct (get2_if_optional f "priority" "name" "" JNull Wpriority)
      as [priority_ [Hpriority [Hp Hpmissing]]].
    unfold Jira.issue_details.
    rewrite Hfields. cbn [rbind]. rewrite Hkey. cbn [rbind].
    rewrite Hsummary, Hdesc, Hstatus, Hassignee, Hreporter, Hcreated,
      Hupdated, Hpriority, Hissuetype, Hproject.
    cbn [rbind].
    assert (Hda : Jira.is_opt_str assignee_ = true)
      by (destruct Ha as [->|Ha]; [reflexivity|now destruct assignee_]).
    assert (Hdp : Jira.is_opt_str priority_ = true)
      by (destruct Hp as [->|Hp]; [reflexivity|now destruct priority_]).
    unfold Jira.JiraIssue_init. cbn [Jira.is_str].
    rewrite Hd, Hda, Hdp. cbn [app].
    eexists. split; [reflexivity|]. cbn [assignee priority].
    split; intros Hm.
    + now rewrite (Hamissing Hm).
    + now rewrite (Hpmissing Hm).
  - destruct (get2_if_optional f "assignee" "displayName" "Unassigned"
                (JStr "Unassigned") Wassignee)
      as [assignee_ [Hassignee [_ Hamissing]]].
    destruct (get2_if_optional f "priority" "name" "" (JStr "") Wpriority)
      as [priority_ [Hpriority [_ Hpmissing]]].
    unfold Jira.format_issue.
    rewrite Hfields. cbn [rbind]. rewrite Hkey. cbn [rbind].
    rewrite Hsummary, Hstatus, Hassignee, Hpriority, Hcreated, Hupdated.
    cbn [rbind].
    eexists. split; [reflexivity|].
    split; intros Hm.
    + now rewrite (Hamissing Hm).
    + now rewrite (Hpmissing Hm).
Qed.

Lemma rmap_middle {A B} (f : A -> result B) before x after ys y zs :
  rmap f before = Return ys -> f x = Return y -> rmap f after = Return zs ->
  rmap f (before ++ x :: after) = Return (ys ++ y :: zs)%list.
Proof.
  revert ys. induction before as [|b before IH]; intros ys Hb Hx Ha.
  - cbn in Hb. injection Hb as <-. cbn. now rewrite Hx, Ha.
  - cbn in Hb. cbn [app rmap].
    destruct (f b) as [b'|]; [|discriminate]. cbn [rbind] in *.
    destruct (rmap f before) as [ys'|]; [|discriminate]. cbn [rbind] in *.
    injection Hb as <-. now rewrite (IH ys' eq_refl Hx Ha).
Qed.

(** C8: for an issue whose fields are well formed, [_get_issue] turns a
    missing assignee and a missing priority into absent fields of the
    model it prints ([None], not the empty string), and [_search_issues]
    renders, for that issue wherever it stands among the hits, a missing
    assignee as "Unassigned" and a missing priority as the empty string.
    Both projections are functions of the issue alone, so the defaulting
    is the same at every invocation, in every state of the server. *)
Theorem C8_missing_assignee_and_priority issue_ key_ f :
  subscript issue_ "key" = Return (JStr key_) ->
  py_get issue_ "fields" (JDict []) = Return (JDict f) ->
  Jira.well_formed_fields f = true ->
  (exists details,
      Jira.issue_details issue_ = Return details /\
      (Jira.missing f "assignee" = true -> assignee details = None) /\
      (Jira.missing f "priority" = true -> priority details = None) /\
      (forall arguments st c issue_key,
          client st = Some c ->
          lookup "issue_key" arguments = Some issue_key ->
          remote w (trace st) (Jira.issue issue_key) = Return issue_ ->
          fst (Jira._get_issue w arguments st) =
            Return [text_content (model_dump_json details)]))
  /\
  (exists out,
      Jira.format_issue issue_ = Return (JDict out) /\
      (Jira.missing f "assignee" = true ->
       lookup "assignee" out = Some (JStr "Unassigned")) /\
      (Jira.missing f "priority" = true ->
       lookup "priority" out = Some (JStr "")) /\
      (forall arguments st c query results before after shown_before shown_after,
          client st = Some c ->
          lookup "jql" arguments = Some query ->
          remote w (trace st)
            (Jira.jql query (get_or arguments "max_results" (JNum 50))) =
            Return results ->
          py_get results "issues" (JList []) =
            Return (JList (before ++ issue_ :: after)) ->
          rmap Jira.format_issue before = Return shown_before ->
          rmap Jira.format_issue after = Return shown_after ->
          fst (Jira._search_issues w arguments st) =
            Return [text_content
                      (json_dumps (JList (shown_before ++ JDict out
                                          :: shown_after)))])).
Proof.
  intros Hkey Hfields Hwf.
  destruct (issue_projections issue_ key_ f Hkey Hfields Hwf)
    as [[details [Hdetails [Ha Hp]]] [out [Hout [Hoa Hop]]]].
  split.
  - exists details. repeat (split; [assumption|]).
    intros arguments st c issue_key E Hissue Hremote.
    unfold Jira._get_issue, item. rewrite Hissue.
    rewrite (bind_lift _ _ _ _ eq_refl).
    remote_step E Hremote.
    now rewrite (bind_lift _ _ _ _ Hdetails).
  - exists out. repeat (split; [assumption|]).
    intros arguments st c query results before after shown_before shown_after
      E Hquery Hremote Hissues Hbefore Hafter.
    unfold Jira._search_issues, item. rewrite Hquery.
    rewrite (bind_lift _ _ _ _ eq_refl). cbv zeta.
    remote_step E Hremote.
    rewrite Hissues. cbn [rbind py_iter].
    rewrite (bind_lift _ _ _ _ eq_refl).
    now rewrite (bind_lift _ _ _ _
                   (rmap_middle _ _ _ _ _ _ _ Hbefore Hout Hafter)).
Qed.

End JiraHandlers.

(** ** Arguments that the catalog requires *)

(** Runs a handler up to the first argument it cannot find: [H] says which
    required argument is the first one missing. *)
Ltac missing_argument H :=
  unfold first_missing in H; cbn [find] in H;
  repeat match type of H with
         | context [lookup ?k ?args] =>
             let E := fresh "E" in destruct (lookup k args) eqn:E; cbn iota in H
         end;
  try discriminate H; injection H as <-;
  cbv beta zeta delta [Confluence._search_content Confluence._get_page
                  Confluence._create_page Confluence._update_page
                  Confluence._delete_page Confluence._get_page_children
                  Confluence._add_attachment
                  Jira._search_issues Jira._get_issue Jira._create_issue
                  Jira._update_issue Jira._add_comment Jira._transition_issue
                  Jira.create_fields item bind lift];
  repeat match goal with
         | E : lookup _ _ = _ |- _ => rewrite E; clear E
         end;
  reflexivity.

Section RequiredArguments.

Context {rt : Runtime}.

(** X1: when an invocation of a declared tool leaves out an argument that
    the catalog lists as required, the server with a retained client answers
    "Error: " followed by [repr] of the first such argument, and has done
    nothing: no remote call, no file-system test. *)
Theorem missing_required_argument_is_reported :
  (forall (w : World Confluence.call) name arguments st c k,
      client st = Some c ->
      first_missing (required_arguments Confluence.list_tools name) arguments
        = Some k ->
      Confluence.call_tool w name arguments st =
        (Return [text_content ("Error: " ++ repr k)], st))
  /\
  (forall (w : World Jira.call) name arguments st c k,
      client st = Some c ->
      first_missing (required_arguments Jira.list_tools name) arguments
        = Some k ->
      Jira.call_tool w name arguments st =
        (Return [text_content ("Error: " ++ repr k)], st)).
Proof.
  split; intros w name arguments st c k E H.
  - rewrite (confluence_call_tool_connected w name arguments st st
               (confluence_connected w st c E)).
    unfold required_arguments in H. cbn [find Confluence.list_tools tool_name] in H.
    unfold try_except, Confluence.dispatch.
    repeat match type of H with
           | context [String.eqb name ?lit] =>
               destruct (String.eqb name lit); cbn iota in H;
               [cbn [tool_required] in H; missing_argument H|]
           end.
    discriminate H.
  - rewrite (jira_call_tool_connected w name arguments st st
               (jira_connected w st c E)).
    unfold required_arguments in H. cbn [find Jira.list_tools tool_name] in H.
    unfold try_except, Jira.dispatch.
    repeat match type of H with
           | context [String.eqb name ?lit] =>
               destruct (String.eqb name lit); cbn iota in H;
               [cbn [tool_required] in H; missing_argument H|]
           end.
    discriminate H.
Qed.

End RequiredArguments.


(** ** Remote calls of an invocation *)

Section EffectFacts.

Context {call : Type}.
Variable w : World call.

Lemma no_calls_ret {A} (a : A) : no_calls (call := call) (ret a).
Proof. intros st. reflexivity. Qed.

Lemma no_calls_raise {A} e : no_calls (call := call) (A := A) (raise e).
Proof. intros st. reflexivity. Qed.

Lemma no_calls_lift {A} (r : result A) : no_calls (call := call) (lift r).
Proof. intros st. reflexivity. Qed.

Lemma no_calls_client_url : no_calls (call := call) client_url.
Proof. intros st. unfold client_url. now destruct (client st). Qed.

Lemma no_calls_path_exists p : no_calls (path_exists w p).
Proof. intros st. cbn. rewrite calls_app. cbn. now rewrite app_nil_r. Qed.

Lemma no_calls_getenv name default : no_calls (getenv w name default).
Proof. intros st. cbn. rewrite calls_app. cbn. now rewrite app_nil_r. Qed.

Lemma no_calls_set_client c : no_calls (call := call) (set_client c).
Proof. intros st. cbn. rewrite calls_app. cbn. now rewrite app_nil_r. Qed.

Lemma no_calls_bind {A B} (m : M call A) (k : A -> M call B) :
  no_calls m -> (forall a, no_calls (k a)) -> no_calls (bind m k).
Proof.
  intros Hm Hk st. unfold bind. specialize (Hm st).
  destruct (m st) as [[a|e] st1]; cbn in *; [|assumption].
  now rewrite (Hk a st1).
Qed.

Lemma no_calls_for_each {A B} (body : A -> M call B) l :
  (forall x, no_calls (body x)) -> no_calls (for_each body l).
Proof.
  intros Hb. induction l as [|x tl IH]; cbn [for_each].
  - apply no_calls_ret.
  - apply no_calls_bind; [apply Hb|]. intros y.
    apply no_calls_bind; [apply IH|]. intros ys. apply no_calls_ret.
Qed.

Lemma at_most_of_no_calls {A} n (m : M call A) : no_calls m -> at_most n m.
Proof.
  intros Hm st. exists []. rewrite app_nil_r. split; [apply Hm|cbn; lia].
Qed.

Lemma at_most_bind_quiet {A B} n (m : M call A) (k : A -> M call B) :
  no_calls m -> (forall a, at_most n (k a)) -> at_most n (bind m k).
Proof.
  intros Hm Hk st. unfold bind. specialize (Hm st).
  destruct (m st) as [[a|e] st1]; cbn in *.
  - destruct (Hk a st1) as [added [Ha Hn]]. exists added. now rewrite Ha, Hm.
  - exists []. rewrite app_nil_r. split; [assumption|cbn; lia].
Qed.

Lemma at_most_bind_call {B} n method c (k : json -> M call B) :
  (forall a, at_most n (k a)) -> at_most (S n) (bind (client_call w method c) k).
Proof.
  intros Hk st. unfold bind, client_call.
  destruct (client st) as [cl|] eqn:E.
  - destruct (remote w (trace st) c) as [a|e].
    + match goal with
      | |- context [k a ?s] => destruct (Hk a s) as [added [Ha Hn]]
      end.
      exists (c :: added). rewrite Ha. cbn [trace]. rewrite calls_app. cbn.
      rewrite <- app_assoc. cbn. split; [reflexivity|lia].
    + exists [c]. cbn. rewrite calls_app. cbn. split; [reflexivity|lia].
  - exists []. cbn. rewrite app_nil_r. split; [reflexivity|lia].
Qed.

Lemma one_text_ret s : one_text (call := call) (ret [text_content s]).
Proof. intros st r st' H. injection H as <- _. now exists s. Qed.

Lemma one_text_bind {A} (m : M call A) k :
  (forall a, one_text (k a)) -> one_text (bind m k).
Proof.
  intros Hk st r st' H. unfold bind in H.
  destruct (m st) as [[a|e] st1]; [|discriminate].
  now apply (Hk a st1 r st').
Qed.

Section Unreachable.

Variable e : exn.
Hypothesis unreachable : forall history c, remote w history c = Raise e.

Lemma gives_up_of_no_calls {A} (m : M call A) : no_calls m -> gives_up e m.
Proof. intros Hm st. left. apply Hm. Qed.

Lemma gives_up_client_call method c : gives_up e (client_call w method c).
Proof.
  intros st. unfold client_call. destruct (client st) as [cl|].
  - right. exists c. cbn. rewrite calls_app. cbn. now rewrite unreachable.
  - now left.
Qed.

Lemma gives_up_bind {A B} (m : M call A) (k : A -> M call B) :
  gives_up e m -> (forall a, gives_up e (k a)) -> gives_up e (bind m k).
Proof.
  intros Hm Hk st. unfold bind. specialize (Hm st).
  destruct (m st) as [[a|e'] st1]; cbn in *.
  - destruct Hm as [Hm|[c [_ Hm]]]; [|discriminate].
    destruct (Hk a st1) as [Hka|[c [Hka Hr]]].
    + left. now rewrite Hka.
    + right. exists c. now rewrite Hka, Hm.
  - destruct Hm as [Hm|[c [Hm Hr]]]; [now left|]. right. exists c.
    injection Hr as ->. split; [assumption|reflexivity].
Qed.

Lemma gives_up_for_each {A B} (body : A -> M call B) l :
  (forall x, gives_up e (body x)) -> gives_up e (for_each body l).
Proof.
  intros Hb. induction l as [|x tl IH]; cbn [for_each].
  - apply gives_up_of_no_calls, no_calls_ret.
  - apply gives_up_bind; [apply Hb|]. intros y.
    apply gives_up_bind; [apply IH|]. intros ys.
    apply gives_up_of_no_calls, no_calls_ret.
Qed.

End Unreachable.

End EffectFacts.

Create HintDb no_calls.
#[local] Hint Resolve no_calls_ret no_calls_raise no_calls_lift
  no_calls_client_url no_calls_path_exists no_calls_getenv
  no_calls_set_client : no_calls.

(** Shows that a computation issues no remote call. *)
Ltac no_calls_steps :=
  repeat first
    [ progress intros
    | apply no_calls_bind
    | apply no_calls_for_each
    | solve [auto with no_calls]
    | match goal with
      | |- no_calls (if ?b then _ else _) => destruct b
      | |- no_calls (match ?x with _ => _ end) => destruct x
      end ].

(** Counts the remote calls of a handler along its steps. *)
Ltac count_calls :=
  repeat first
    [ progress intros
    | apply at_most_bind_call
    | apply at_most_bind_quiet; [solve [no_calls_steps]|]
    | apply at_most_of_no_calls; solve [no_calls_steps]
    | match goal with
      | |- at_most _ (if ?b then _ else _) => destruct b
      | |- at_most _ (match ?x with _ => _ end) => destruct x
      end ].

(** Shows that a handler returns one text content. *)
Ltac one_text_steps :=
  repeat first
    [ progress intros
    | apply one_text_ret
    | apply one_text_bind
    | match goal with
      | |- one_text (if ?b then _ else _) => destruct b
      | |- one_text (match ?x with _ => _ end) => destruct x
      end ].

(** Follows a handler whose remote service raises at every call. *)
Ltac gives_up_steps H :=
  repeat first
    [ progress intros
    | apply (gives_up_client_call _ _ H)
    | apply gives_up_of_no_calls; solve [no_calls_steps]
    | apply gives_up_bind
    | apply gives_up_for_each
    | match goal with
      | |- gives_up _ (if ?b then _ else _) => destruct b
      | |- gives_up _ (match ?x with _ => _ end) => destruct x
      end ].


Section InvocationEffects.

Context {rt : Runtime}.

Lemma at_most_try_except {call : Type} {A} n (body : M call A) handler :
  at_most n body -> (forall e, no_calls (handler e)) ->
  at_most n (try_except body handler).
Proof.
  intros Hb Hh st. unfold try_except. specialize (Hb st).
  destruct (body st) as [[a|e] st1]; cbn in *; [assumption|].
  now rewrite (Hh e st1).
Qed.

Lemma confluence_connect_no_calls (w : World Confluence.call) :
  no_calls (Confluence.ensure_connected w).
Proof.
  intros st. unfold Confluence.ensure_connected.
  destruct (client st); [reflexivity|].
  revert st. change (no_calls (Confluence._connect_to_confluence w)).
  unfold Confluence._connect_to_confluence. no_calls_steps.
Qed.

Lemma jira_connect_no_calls (w : World Jira.call) :
  no_calls (Jira.ensure_connected w).
Proof.
  intros st. unfold Jira.ensure_connected.
  destruct (client st); [reflexivity|].
  revert st. change (no_calls (Jira._connect_to_jira w)).
  unfold Jira._connect_to_jira. no_calls_steps.
Qed.

Lemma confluence_dispatch_one_text (w : World Confluence.call) name arguments :
  one_text (Confluence.dispatch w name arguments).
Proof.
  unfold Confluence.dispatch, Confluence._search_content, Confluence._get_page,
    Confluence._create_page, Confluence._update_page, Confluence._delete_page,
    Confluence._get_spaces, Confluence._get_page_children,
    Confluence._add_attachment.
  one_text_steps.
Qed.

Lemma jira_dispatch_one_text (w : World Jira.call) name arguments :
  one_text (Jira.dispatch w name arguments).
Proof.
  unfold Jira.dispatch, Jira._search_issues, Jira._get_issue,
    Jira._create_issue, Jira._update_issue, Jira._add_comment,
    Jira._transition_issue, Jira._get_projects.
  one_text_steps.
Qed.

(** X2: once a client is retained, an invocation never raises, whatever the
    tool name and the arguments: [call_tool] returns a list of exactly one
    text content. *)
Theorem connected_invocation_returns_one_text :
  (forall (w : World Confluence.call) name arguments st c,
      client st = Some c ->
      exists s st',
        Confluence.call_tool w name arguments st =
          (Return [text_content s], st'))
  /\
  (forall (w : World Jira.call) name arguments st c,
      client st = Some c ->
      exists s st',
        Jira.call_tool w name arguments st = (Return [text_content s], st')).
Proof.
  split; intros w name arguments st c E.
  - rewrite (confluence_call_tool_connected w name arguments st st
               (confluence_connected w st c E)).
    unfold try_except.
    destruct (Confluence.dispatch w name arguments st) as [[r|e] st'] eqn:D.
    + destruct (confluence_dispatch_one_text w name arguments st r st' D)
        as [s ->].
      now exists s, st'.
    + now exists ("Error: " ++ str_exn e), st'.
  - rewrite (jira_call_tool_connected w name arguments st st
               (jira_connected w st c E)).
    unfold try_except.
    destruct (Jira.dispatch w name arguments st) as [[r|e] st'] eqn:D.
    + destruct (jira_dispatch_one_text w name arguments st r st' D) as [s ->].
      now exists s, st'.
    + now exists ("Error: " ++ str_exn e), st'.
Qed.

Lemma confluence_dispatch_gives_up (w : World Confluence.call) e name arguments :
  (forall history c, remote w history c = Raise e) ->
  gives_up e (Confluence.dispatch w name arguments).
Proof.
  intros H.
  unfold Confluence.dispatch, Confluence._search_content, Confluence._get_page,
    Confluence._create_page, Confluence._update_page, Confluence._delete_page,
    Confluence._get_spaces, Confluence._get_page_children,
    Confluence._add_attachment.
  gives_up_steps H.
Qed.

Lemma jira_dispatch_gives_up (w : World Jira.call) e name arguments :
  (forall history c, remote w history c = Raise e) ->
  gives_up e (Jira.dispatch w name arguments).
Proof.
  intros H.
  unfold Jira.dispatch, Jira._search_issues, Jira._get_issue,
    Jira._create_issue, Jira._update_issue, Jira._add_comment,
    Jira._transition_issue, Jira._get_projects.
  gives_up_steps H.
Qed.

(** X3: when the remote service raises [e] at every call, an invocation on
    a retained client makes at most one attempt: either no remote call at
    all, or exactly one, after which the answer is "Error: " followed by
    [str(e)]; nothing is retried and no second call follows a failed one. *)
Theorem unreachable_service_is_tried_once :
  (forall (w : World Confluence.call) e name arguments st c,
      (forall history call, remote w history call = Raise e) ->
      client st = Some c ->
      calls (trace (snd (Confluence.call_tool w name arguments st))) =
        calls (trace st)
      \/
      exists attempt,
        calls (trace (snd (Confluence.call_tool w name arguments st))) =
          (calls (trace st) ++ [attempt])%list /\
        fst (Confluence.call_tool w name arguments st) =
          Return [text_content ("Error: " ++ str_exn e)])
  /\
  (forall (w : World Jira.call) e name arguments st c,
      (forall history call, remote w history call = Raise e) ->
      client st = Some c ->
      calls (trace (snd (Jira.call_tool w name arguments st))) =
        calls (trace st)
      \/
      exists attempt,
        calls (trace (snd (Jira.call_tool w name arguments st))) =
          (calls (trace st) ++ [attempt])%list /\
        fst (Jira.call_tool w name arguments st) =
          Return [text_content ("Error: " ++ str_exn e)]).
Proof.
  split; intros w e name arguments st c H E.
  - rewrite (confluence_call_tool_connected w name arguments st st
               (confluence_connected w st c E)).
    unfold try_except.
    destruct (confluence_dispatch_gives_up w e name arguments H st)
      as [Hnone|[attempt [Hone Hraise]]];
      destruct (Confluence.dispatch w name arguments st) as [[r|e'] st'];
      cbn in *; auto; try discriminate.
    right. exists attempt. injection Hraise as ->. auto.
  - rewrite (jira_call_tool_connected w name arguments st st
               (jira_connected w st c E)).
    unfold try_except.
    destruct (jira_dispatch_gives_up w e name arguments H st)
      as [Hnone|[attempt [Hone Hraise]]];
      destruct (Jira.dispatch w name arguments st) as [[r|e'] st'];
      cbn in *; auto; try discriminate.
    right. exists attempt. injection Hraise as ->. auto.
Qed.

End InvocationEffects.


Section CallBudget.

Context {rt : Runtime}.

Lemma confluence_update_page_two_calls (w : World Confluence.call) arguments :
  at_most 2 (Confluence._update_page w arguments).
Proof. unfold Confluence._update_page. count_calls. Qed.

Lemma confluence_other_handlers_one_call (w : World Confluence.call) name arguments :
  name <> "confluence_update_page" ->
  at_most 1 (Confluence.dispatch w name arguments).
Proof.
  intros Hne. unfold Confluence.dispatch.
  rewrite (proj2 (String.eqb_neq _ _) Hne).
  unfold Confluence._search_content, Confluence._get_page,
    Confluence._create_page, Confluence._delete_page,
    Confluence._get_spaces, Confluence._get_page_children,
    Confluence._add_attachment.
  count_calls.
Qed.

Lemma jira_transition_issue_two_calls (w : World Jira.call) arguments :
  at_most 2 (Jira._transition_issue w arguments).
Proof. unfold Jira._transition_issue. count_calls. Qed.

Lemma jira_other_handlers_one_call (w : World Jira.call) name arguments :
  name <> "jira_transition_issue" ->
  at_most 1 (Jira.dispatch w name arguments).
Proof.
  intros Hne. unfold Jira.dispatch.
  rewrite (proj2 (String.eqb_neq _ _) Hne).
  unfold Jira._search_issues, Jira._get_issue, Jira._create_issue,
    Jira._update_issue, Jira._add_comment, Jira._get_projects.
  count_calls.
Qed.

(** X4: an invocation, whatever its name, arguments and outcome, issues at
    most one remote call, except for [confluence_update_page] and
    [jira_transition_issue], which issue at most two. *)
Theorem remote_calls_per_invocation :
  (forall (w : World Confluence.call) name arguments st,
      exists added,
        calls (trace (snd (Confluence.call_tool w name arguments st))) =
          (calls (trace st) ++ added)%list /\
        (length added <=
           if String.eqb name "confluence_update_page" then 2 else 1)%nat)
  /\
  (forall (w : World Jira.call) name arguments st,
      exists added,
        calls (trace (snd (Jira.call_tool w name arguments st))) =
          (calls (trace st) ++ added)%list /\
        (length added <=
           if String.eqb name "jira_transition_issue" then 2 else 1)%nat).
Proof.
  split; intros w name arguments st.
  - unfold Confluence.call_tool.
    apply at_most_bind_quiet; [apply confluence_connect_no_calls|].
    intros _. apply at_most_try_except; [|intros e; apply no_calls_ret].
    destruct (String.eqb_spec name "confluence_update_page") as [->|Hne].
    + apply confluence_update_page_two_calls.
    + now apply confluence_other_handlers_one_call.
  - unfold Jira.call_tool.
    apply at_most_bind_quiet; [apply jira_connect_no_calls|].
    intros _. apply at_most_try_except; [|intros e; apply no_calls_ret].
    destruct (String.eqb_spec name "jira_transition_issue") as [->|Hne].
    + apply jira_transition_issue_two_calls.
    + now apply jira_other_handlers_one_call.
Qed.

End CallBudget.


(** ** More on the Confluence handlers *)

Section ConfluenceHandlersMore.

Context {rt : Runtime}.
Variable w : World Confluence.call.

(** X5: [_update_page] reads the current page also when the invocation
    supplies a title of its own: the read comes first, then the write under
    the supplied title, and what the page read looks like plays no part. *)
Theorem update_page_with_title_still_reads
    arguments st c page_id content title current result result_title number :
  client st = Some c ->
  lookup "page_id" arguments = Some page_id ->
  lookup "content" arguments = Some content ->
  lookup "title" arguments = Some title ->
  truthy title = true ->
  let read := Confluence.get_page_by_id page_id None in
  let write :=
    Confluence.update_page page_id title content
      (get_or arguments "version_comment" (JStr "Updated via MCP")) in
  remote w (trace st) read = Return current ->
  remote w (trace st ++ [EvCall read]) write = Return result ->
  subscript result "title" = Return result_title ->
  subscripts result ["version"; "number"] = Return number ->
  Confluence._update_page w arguments st =
    (Return [text_content ("Updated page: " ++ format result_title ++ nl
                           ++ "Version: " ++ format number)],
     {| client := Some c;
        trace := (trace st ++ [EvCall read; EvCall write])%list |}).
Proof.
  intros E Hid Hcontent Htitle Htruthy read write Hread Hwrite Hrt Hnum.
  unfold Confluence._update_page, item. rewrite Hid, Hcontent.
  rewrite (bind_lift _ _ _ _ eq_refl), (bind_lift _ _ _ _ eq_refl).
  cbv zeta. unfold get_or at 1 2. rewrite Htitle, Htruthy.
  remote_step E Hread.
  unfold bind at 1, ret at 1.
  remote_step (eq_refl (Some c)) Hwrite.
  rewrite (bind_lift _ _ _ _ Hrt), (bind_lift _ _ _ _ Hnum).
  unfold ret. cbn [trace]. now rewrite <- app_assoc.
Qed.

(** X6: [_update_page] never writes a page it could not read: when the read
    raises, and when no title is supplied and the page read is an object
    without a title, the handler ends in that exception with the read as
    its only remote call. *)
Theorem update_page_never_writes_unread_page
    arguments st c page_id content :
  client st = Some c ->
  lookup "page_id" arguments = Some page_id ->
  lookup "content" arguments = Some content ->
  let read := Confluence.get_page_by_id page_id None in
  let after := {| client := Some c; trace := (trace st ++ [EvCall read])%list |} in
  (forall e,
      remote w (trace st) read = Raise e ->
      Confluence._update_page w arguments st = (Raise e, after))
  /\
  (forall current,
      remote w (trace st) read = Return (JDict current) ->
      truthy (get_or arguments "title" JNull) = false ->
      lookup "title" current = None ->
      Confluence._update_page w arguments st = (Raise (KeyError "title"), after)).
Proof.
  intros E Hid Hcontent read after.
  split.
  - intros e Hread.
    unfold Confluence._update_page, item. rewrite Hid, Hcontent.
    rewrite (bind_lift _ _ _ _ eq_refl), (bind_lift _ _ _ _ eq_refl).
    cbv zeta. now remote_step E Hread.
  - intros current Hread Hfalsy Hnone.
    unfold Confluence._update_page, item. rewrite Hid, Hcontent.
    rewrite (bind_lift _ _ _ _ eq_refl), (bind_lift _ _ _ _ eq_refl).
    cbv zeta. rewrite Hfalsy. remote_step E Hread.
    unfold bind, lift, subscript, item. now rewrite Hnone.
Qed.

(** X7: [_get_page] asks for the page with the [expand] of the invocation,
    "body.storage,version" when none is given, and prints the seven fields
    id, title, space, version, created_by, created_date and url; the body is
    added as the last field [content] exactly when the page read has a
    [body] with a [storage] in it. *)
Theorem get_page_adds_content_when_present
    arguments st c page_id page id_ title space version created_by
    created_date webui :
  client st = Some c ->
  lookup "page_id" arguments = Some page_id ->
  let expand :=
    match lookup "expand" arguments with
    | Some supplied => supplied
    | None => JStr "body.storage,version"
    end in
  let read := Confluence.get_page_by_id page_id (Some expand) in
  remote w (trace st) read = Return (JDict page) ->
  lookup "id" page = Some id_ ->
  lookup "title" page = Some title ->
  subscripts (JDict page) ["space"; "key"] = Return space ->
  subscripts (JDict page) ["version"; "number"] = Return version ->
  subscripts (JDict page) ["version"; "by"; "displayName"] = Return created_by ->
  subscripts (JDict page) ["version"; "when"] = Return created_date ->
  subscripts (JDict page) ["_links"; "webui"] = Return webui ->
  let page_info :=
    [("id", id_); ("title", title); ("space", space); ("version", version);
     ("created_by", created_by); ("created_date", created_date);
     ("url", JStr (url c ++ format webui))] in
  let after := {| client := Some c; trace := (trace st ++ [EvCall read])%list |} in
  (lookup "body" page = None ->
   Confluence._get_page w arguments st =
     (Return [text_content (json_dumps (JDict page_info))], after))
  /\
  (forall body,
      lookup "body" page = Some (JDict body) ->
      lookup "storage" body = None ->
      Confluence._get_page w arguments st =
        (Return [text_content (json_dumps (JDict page_info))], after))
  /\
  (forall body storage value,
      lookup "body" page = Some (JDict body) ->
      lookup "storage" body = Some storage ->
      subscript storage "value" = Return value ->
      Confluence._get_page w arguments st =
        (Return [text_content
                   (json_dumps (JDict (page_info ++ [("content", value)])))],
         after)).
Proof.
  intros E Hid expand read Hread Hpid Htitle Hspace Hversion Hby Hwhen Hweb
    page_info after.
  assert (Hstart :
    Confluence._get_page w arguments st =
      bind (lift (py_in "body" (JDict page)))
        (fun has_body =>
           bind (if has_body
                 then lift (rbind (subscript (JDict page) "body") (py_in "storage"))
                 else ret false)
             (fun has_storage =>
                bind (if has_storage
                      then bind (lift (subscripts (JDict page)
                                         ["body"; "storage"; "value"]))
                             (fun content =>
                                ret (dict_set "content" content page_info))
                      else ret page_info)
                  (fun page_info' =>
                     ret [text_content (json_dumps (JDict page_info'))])))
        after).
  { unfold Confluence._get_page, item. rewrite Hid.
    rewrite (bind_lift _ _ _ _ eq_refl). cbv zeta.
    remote_step E Hread.
    rewrite (bind_lift _ _ _ id_)
      by (unfold subscript, item; now rewrite Hpid).
    rewrite (bind_lift _ _ _ title)
      by (unfold subscript, item; now rewrite Htitle).
    rewrite (bind_lift _ _ _ _ Hspace), (bind_lift _ _ _ _ Hversion),
      (bind_lift _ _ _ _ Hby), (bind_lift _ _ _ _ Hwhen).
    unfold bind at 1, client_url at 1. cbn [client].
    rewrite (bind_lift _ _ _ _ Hweb). reflexivity. }
  rewrite Hstart. clear Hstart.
  repeat split.
  - intros Hbody. unfold py_in. now rewrite Hbody.
  - intros body Hbody Hstorage.
    unfold py_in at 1. rewrite Hbody.
    unfold bind, lift, ret, subscript, item. rewrite Hbody. cbn [rbind py_in].
    now rewrite Hstorage.
  - intros body storage value Hbody Hstorage Hvalue.
    unfold py_in at 1. rewrite Hbody.
    unfold bind, lift, ret, subscript at 1, item. rewrite Hbody.
    cbn [rbind py_in]. rewrite Hstorage.
    cbn [subscripts]. unfold subscript at 1 2, item.
    rewrite Hbody. cbn [rbind]. rewrite Hstorage. cbn [rbind].
    now rewrite Hvalue.
Qed.

End ConfluenceHandlersMore.


(** ** Listings and searches *)

Section Listings.

Context {rt : Runtime}.

Lemma for_each_rows {call : Type} (body : json -> M call json) items rows st :
  Forall2 (fun item row => forall st', body item st' = (Return row, st'))
    items rows ->
  for_each body items st = (Return rows, st).
Proof.
  intros H. induction H as [|item row items rows Hrow _ IH]; [reflexivity|].
  cbn [for_each]. unfold bind at 1. rewrite Hrow.
  unfold bind at 1. now rewrite IH.
Qed.

Lemma for_each_stops {call : Type} (body : json -> M call json)
    items rows bad rest e st :
  Forall2 (fun item row => forall st', body item st' = (Return row, st'))
    items rows ->
  body bad st = (Raise e, st) ->
  for_each body (items ++ bad :: rest) st = (Raise e, st).
Proof.
  intros H Hbad. induction H as [|item row items rows Hrow _ IH].
  - cbn [app for_each]. unfold bind at 1. now rewrite Hbad.
  - cbn [app for_each]. unfold bind at 1. rewrite Hrow.
    unfold bind at 1. now rewrite IH.
Qed.

Lemma space_row_runs item row (st : Server Confluence.call) :
  row_of ["key"; "name"; "id"; "type"] item row ->
  (key_ <- lift (subscript item "key") ;;
   name <- lift (subscript item "name") ;;
   id_ <- lift (subscript item "id") ;;
   type_ <- lift (subscript item "type") ;;
   ret (JDict [("key", key_); ("name", name); ("id", id_); ("type", type_)]))
    st = (Return row, st).
Proof.
  intros [values [Hvalues ->]].
  repeat match goal with
         | H : Forall2 _ _ _ |- _ => inversion H; subst; clear H
         end.
  repeat match goal with
         | H : subscript _ _ = Return _ |- _ =>
             rewrite (bind_lift _ _ _ _ H); clear H
         end.
  reflexivity.
Qed.

(** X8: [_get_spaces] asks for the spaces with the limit of the invocation,
    25 when none is given, and prints one row per space, in the order of
    the answer, each with the four fields key, name, id and type and
    nothing else.  The listing is all or nothing: when a space lacks one
    of the four fields, or the answer has no [results], the handler ends in
    the [KeyError] of that key and prints no row. *)
Theorem get_spaces_lists_every_space
    (w : World Confluence.call) arguments st c answer :
  client st = Some c ->
  let limit :=
    match lookup "limit" arguments with
    | Some supplied => supplied
    | None => JNum 25
    end in
  let fetch := Confluence.get_all_spaces limit in
  let after := {| client := Some c; trace := (trace st ++ [EvCall fetch])%list |} in
  remote w (trace st) fetch = Return (JDict answer) ->
  (forall spaces rows,
      lookup "results" answer = Some (JList spaces) ->
      Forall2 (row_of ["key"; "name"; "id"; "type"]) spaces rows ->
      Confluence._get_spaces w arguments st =
        (Return [text_content (json_dumps (JList rows))], after))
  /\
  (forall spaces rows bad rest k,
      lookup "results" answer = Some (JList (spaces ++ JDict bad :: rest)) ->
      Forall2 (row_of ["key"; "name"; "id"; "type"]) spaces rows ->
      first_missing ["key"; "name"; "id"; "type"] bad = Some k ->
      Confluence._get_spaces w arguments st = (Raise (KeyError k), after))
  /\
  (lookup "results" answer = None ->
   Confluence._get_spaces w arguments st = (Raise (KeyError "results"), after)).
Proof.
  intros E limit fetch after Hfetch.
  assert (Hstart : forall items,
    lookup "results" answer = Some (JList items) ->
    Confluence._get_spaces w arguments st =
      bind (for_each (fun space =>
              key_ <- lift (subscript space "key") ;;
              name <- lift (subscript space "name") ;;
              id_ <- lift (subscript space "id") ;;
              type_ <- lift (subscript space "type") ;;
              ret (JDict [("key", key_); ("name", name); ("id", id_);
                          ("type", type_)])) items)
        (fun space_list => ret [text_content (json_dumps (JList space_list))])
        after).
  { intros items Hitems. unfold Confluence._get_spaces. cbv zeta.
    remote_step E Hfetch.
    unfold subscript, item. rewrite Hitems. cbn [rbind py_iter].
    now rewrite (bind_lift _ _ _ _ eq_refl). }
  repeat split.
  - intros spaces rows Hresults Hrows.
    rewrite (Hstart _ Hresults). unfold bind at 1.
    rewrite (for_each_rows _ spaces rows); [reflexivity|].
    eapply Forall2_impl; [|exact Hrows].
    intros item row Hrow st'. now apply space_row_runs.
  - intros spaces rows bad rest k Hresults Hrows Hmissing.
    rewrite (Hstart _ Hresults). unfold bind at 1.
    rewrite (for_each_stops _ spaces rows (JDict bad) rest (KeyError k));
      [reflexivity| |].
    + eapply Forall2_impl; [|exact Hrows].
      intros item row Hrow st'. now apply space_row_runs.
    + unfold first_missing in Hmissing. cbn [find] in Hmissing.
      unfold bind, lift, subscript, item.
      repeat match type of Hmissing with
             | context [lookup ?key bad] =>
                 destruct (lookup key bad); cbn iota in Hmissing
             end;
        try discriminate Hmissing; now injection Hmissing as <-.
  - intros Hnone. unfold Confluence._get_spaces. cbv zeta.
    remote_step E Hfetch.
    unfold bind, lift, subscript, item. now rewrite Hnone.
Qed.

(** X9: a search asks with the limit of the invocation, 25 for
    [_search_content] and 50 for [_search_issues] when none is given, and an
    answer that holds no list of hits (no [results], no [issues]) is an
    empty result, the dump of the empty list, not an error. *)
Theorem search_without_hits_is_empty :
  (forall (w : World Confluence.call) arguments st c query answer,
      client st = Some c ->
      lookup "cql" arguments = Some query ->
      let limit :=
        match lookup "limit" arguments with
        | Some supplied => supplied
        | None => JNum 25
        end in
      remote w (trace st) (Confluence.cql query limit) = Return (JDict answer) ->
      lookup "results" answer = None ->
      Confluence._search_content w arguments st =
        (Return [text_content (json_dumps (JList []))],
         {| client := Some c;
            trace := (trace st ++ [EvCall (Confluence.cql query limit)])%list |}))
  /\
  (forall (w : World Jira.call) arguments st c query answer,
      client st = Some c ->
      lookup "jql" arguments = Some query ->
      let limit :=
        match lookup "max_results" arguments with
        | Some supplied => supplied
        | None => JNum 50
        end in
      remote w (trace st) (Jira.jql query limit) = Return (JDict answer) ->
      lookup "issues" answer = None ->
      Jira._search_issues w arguments st =
        (Return [text_content (json_dumps (JList []))],
         {| client := Some c;
            trace := (trace st ++ [EvCall (Jira.jql query limit)])%list |})).
Proof.
  split; intros w arguments st c query answer E Hquery limit Hremote Hnone.
  - unfold Confluence._search_content, item. rewrite Hquery.
    rewrite (bind_lift _ _ _ _ eq_refl). cbv zeta.
    remote_step E Hremote.
    unfold py_get, get_or. rewrite Hnone. reflexivity.
  - unfold Jira._search_issues, item. rewrite Hquery.
    rewrite (bind_lift _ _ _ _ eq_refl). cbv zeta.
    remote_step E Hremote.
    unfold py_get, get_or. rewrite Hnone. reflexivity.
Qed.

End Listings.


(** ** More on the Jira handlers *)

Section JiraHandlersMore.

Context {rt : Runtime}.
Variable w : World Jira.call.

(** X10: [_update_issue] forwards the four fields summary, description,
    priority and assignee and nothing else: each is in the update exactly
    when the [fields] object of the invocation holds it, priority and
    assignee wrapped as objects with the one key [name]; every other key of
    [fields] is dropped, and the update is sent, once, even when it is
    empty. *)
Theorem update_issue_forwards_four_fields arguments st c issue_key fields :
  client st = Some c ->
  lookup "issue_key" arguments = Some issue_key ->
  lookup "fields" arguments = Some (JDict fields) ->
  let named (v : json) := JDict [("name", v)] in
  exists updates,
    Jira.update_fields (JDict fields) = Return updates /\
    lookup "summary" updates = lookup "summary" fields /\
    lookup "description" updates = lookup "description" fields /\
    lookup "priority" updates = option_map named (lookup "priority" fields) /\
    lookup "assignee" updates = option_map named (lookup "assignee" fields) /\
    (forall k, lookup k updates <> None ->
               In k ["summary"; "description"; "priority"; "assignee"]) /\
    let update := Jira.update_issue_field issue_key (JDict updates) in
    snd (Jira._update_issue w arguments st) =
      {| client := Some c; trace := (trace st ++ [EvCall update])%list |} /\
    (forall answer,
        remote w (trace st) update = Return answer ->
        fst (Jira._update_issue w arguments st) =
          Return [text_content ("Updated issue: " ++ format issue_key)]).
Proof.
  intros E Hkey Hfields named.
  assert (Hmap : exists updates,
    Jira.update_fields (JDict fields) = Return updates /\
    lookup "summary" updates = lookup "summary" fields /\
    lookup "description" updates = lookup "description" fields /\
    lookup "priority" updates = option_map named (lookup "priority" fields) /\
    lookup "assignee" updates = option_map named (lookup "assignee" fields) /\
    (forall k, lookup k updates <> None ->
               In k ["summary"; "description"; "priority"; "assignee"])).
  { unfold Jira.update_fields, py_in, subscript, item.
    destruct (lookup "summary" fields) as [s|];
      destruct (lookup "description" fields) as [d|];
      destruct (lookup "priority" fields) as [p|];
      destruct (lookup "assignee" fields) as [a|];
      cbn; eexists; (split; [reflexivity|]);
      repeat (split; [reflexivity|]);
      intros k; unfold lookup;
      repeat match goal with
             | |- context [String.eqb k ?lit] =>
                 destruct (String.eqb_spec k lit); [subst k; cbn; tauto|]
             end;
      congruence. }
  destruct Hmap as [updates [Hupdates Hrest]].
  exists updates. split; [exact Hupdates|].
  repeat match type of Hrest with
         | _ /\ _ => destruct Hrest as [? Hrest]; split; [assumption|]
         end.
  split; [exact Hrest|]. cbv zeta.
  assert (Hstart :
    Jira._update_issue w arguments st =
      bind (client_call w "update_issue_field"
              (Jira.update_issue_field issue_key (JDict updates)))
        (fun _ => ret [text_content ("Updated issue: " ++ format issue_key)]) st).
  { unfold Jira._update_issue, item. rewrite Hkey, Hfields.
    rewrite (bind_lift _ _ _ _ eq_refl), (bind_lift _ _ _ _ eq_refl).
    now rewrite (bind_lift _ _ _ _ Hupdates). }
  rewrite Hstart. split.
  - remote_step E (eq_refl (remote w (trace st)
                              (Jira.update_issue_field issue_key (JDict updates)))).
    destruct (remote w (trace st)
                (Jira.update_issue_field issue_key (JDict updates)));
      reflexivity.
  - intros answer Hanswer. now remote_step E Hanswer.
Qed.

(** X11: in both projections a reference that is present but [null] is an
    error, where an absent one is a default: with [status] sent as [null]
    the projection of [_get_issue] and the one of [_search_issues] end in
    the attribute error of [None.get], and [call_tool] answers
    "jira_get_issue" with that message. *)
Theorem null_status_is_an_error arguments st c issue_key issue_ issue_id f :
  client st = Some c ->
  lookup "issue_key" arguments = Some issue_key ->
  remote w (trace st) (Jira.issue issue_key) = Return (JDict issue_) ->
  lookup "key" issue_ = Some issue_id ->
  lookup "fields" issue_ = Some (JDict f) ->
  lookup "status" f = Some JNull ->
  let message := "'NoneType' object has no attribute 'get'" in
  Jira.issue_details (JDict issue_) = Raise (AttributeError message) /\
  Jira.format_issue (JDict issue_) = Raise (AttributeError message) /\
  Jira.call_tool w "jira_get_issue" arguments st =
    (Return [text_content ("Error: " ++ message)],
     {| client := Some c;
        trace := (trace st ++ [EvCall (Jira.issue issue_key)])%list |}).
Proof.
  intros E Hkey Hremote Hid Hfields Hstatus message.
  assert (Hdetails :
    Jira.issue_details (JDict issue_) = Raise (AttributeError message)).
  { unfold Jira.issue_details, Jira.get2, py_get, get_or, subscript, item.
    rewrite Hfields, Hid. cbn [rbind]. rewrite Hstatus. reflexivity. }
  split; [exact Hdetails|]. split.
  - unfold Jira.format_issue, Jira.get2, py_get, get_or, subscript, item.
    rewrite Hfields, Hid. cbn [rbind]. rewrite Hstatus. reflexivity.
  - rewrite (jira_call_tool_connected w _ arguments st st
               (jira_connected w st c E)).
    unfold try_except, Jira.dispatch. cbn [String.eqb Ascii.eqb Bool.eqb].
    unfold Jira._get_issue, item. rewrite Hkey.
    rewrite (bind_lift _ _ _ _ eq_refl).
    remote_step E Hremote.
    unfold bind, lift. rewrite Hdetails. reflexivity.
Qed.

End JiraHandlersMore.


(** ** The two projections of an issue, field by field *)

Section IssueFields.

Lemma lookup_without k k' d :
  k' <> k -> lookup k' (without k d) = lookup k' d.
Proof.
  intros Hne. induction d as [|[k0 v] d IH]; [reflexivity|].
  cbn [without filter fst lookup].
  destruct (String.eqb_spec k k0) as [->|Hk0]; cbn [negb].
  - rewrite (proj2 (String.eqb_neq _ _) Hne). exact IH.
  - cbn [lookup]. fold (without k d). now rewrite IH.
Qed.

(** The fields that both projections read without a condition. *)
Lemma issue_details_shape issue_ key_ f description_ assignee_ priority_ :
  subscript issue_ "key" = Return (JStr key_) ->
  py_get issue_ "fields" (JDict []) = Return (JDict f) ->
  Jira.str_or_absent f "summary" = true ->
  Jira.ref_or_absent f "status" "name" = true ->
  Jira.ref_or_absent f "reporter" "displayName" = true ->
  Jira.str_or_absent f "created" = true ->
  Jira.str_or_absent f "updated" = true ->
  Jira.ref_or_absent f "issuetype" "name" = true ->
  Jira.ref_or_absent f "project" "key" = true ->
  py_get (JDict f) "description" (JStr "") = Return description_ ->
  Jira.get2_if (JDict f) "assignee" "displayName" (JStr "") JNull
    = Return assignee_ ->
  Jira.get2_if (JDict f) "priority" "name" (JStr "") JNull = Return priority_ ->
  exists summary_ status_ reporter_ created_ updated_ issue_type_ project_,
    Jira.issue_details issue_ =
      Jira.JiraIssue_init (JStr key_) (JStr summary_) description_
        (JStr status_) assignee_ (JStr reporter_) (JStr created_)
        (JStr updated_) priority_ (JStr issue_type_) (JStr project_).
Proof.
  intros Hkey Hfields Wsummary Wstatus Wreporter Wcreated Wupdated Wtype
    Wproject Hdesc Hassignee Hpriority.
  destruct (py_get_str f "summary" Wsummary) as [summary_ Hsummary].
  destruct (get2_ref f "status" "name" Wstatus) as [status_ Hstatus].
  destruct (get2_ref f "reporter" "displayName" Wreporter)
    as [reporter_ Hreporter].
  destruct (py_get_str f "created" Wcreated) as [created_ Hcreated].
  destruct (py_get_str f "updated" Wupdated) as [updated_ Hupdated].
  destruct (get2_ref f "issuetype" "name" Wtype) as [issue_type_ Hissuetype].
  destruct (get2_ref f "project" "key" Wproject) as [project_ Hproject].
  exists summary_, status_, reporter_, created_, updated_, issue_type_, project_.
  unfold Jira.issue_details.
  rewrite Hfields. cbn [rbind]. rewrite Hkey. cbn [rbind].
  rewrite Hsummary, Hdesc, Hstatus, Hassignee, Hreporter, Hcreated,
    Hupdated, Hpriority, Hissuetype, Hproject.
  reflexivity.
Qed.

Lemma format_issue_shape issue_ key_ f assignee_ priority_ :
  subscript issue_ "key" = Return (JStr key_) ->
  py_get issue_ "fields" (JDict []) = Return (JDict f) ->
  Jira.str_or_absent f "summary" = true ->
  Jira.ref_or_absent f "status" "name" = true ->
  Jira.str_or_absent f "created" = true ->
  Jira.str_or_absent f "updated" = true ->
  Jira.get2_if (JDict f) "assignee" "displayName" (JStr "Unassigned")
    (JStr "Unassigned") = Return assignee_ ->
  Jira.get2_if (JDict f) "priority" "name" (JStr "") (JStr "")
    = Return priority_ ->
  exists summary_ status_ created_ updated_,
    Jira.format_issue issue_ =
      Return (JDict [("key", JStr key_); ("summary", JStr summary_);
                     ("status", JStr status_); ("assignee", assignee_);
                     ("priority", priority_); ("created", JStr created_);
                     ("updated", JStr updated_)]).
Proof.
  intros Hkey Hfields Wsummary Wstatus Wcreated Wupdated Hassignee Hpriority.
  destruct (py_get_str f "summary" Wsummary) as [summary_ Hsummary].
  destruct (get2_ref f "status" "name" Wstatus) as [status_ Hstatus].
  destruct (py_get_str f "created" Wcreated) as [created_ Hcreated].
  destruct (py_get_str f "updated" Wupdated) as [updated_ Hupdated].
  exists summary_, status_, created_, updated_.
  unfold Jira.format_issue.
  rewrite Hfields. cbn [rbind]. rewrite Hkey. cbn [rbind].
  rewrite Hsummary, Hstatus, Hassignee, Hpriority, Hcreated, Hupdated.
  reflexivity.
Qed.

Lemma optional_is_opt_str f k k2 v :
  Jira.optional_ref f k k2 = true ->
  Jira.get2_if (JDict f) k k2 (JStr "") JNull = Return v ->
  Jira.is_opt_str v = true.
Proof.
  intros Hwf Hv.
  destruct (get2_if_optional f k k2 "" JNull Hwf) as [v' [Hv' [Hor _]]].
  rewrite Hv in Hv'. injection Hv' as <-.
  destruct Hor as [->|Hs]; [reflexivity|]. now destruct v.
Qed.

(** X13: an assignee that is present but carries no [displayName] is shown
    by [_get_issue] as the empty string, not as an absent field, while
    [_search_issues] shows it as "Unassigned", the same as a missing
    assignee. *)
Theorem assignee_without_display_name issue_ key_ f a :
  subscript issue_ "key" = Return (JStr key_) ->
  py_get issue_ "fields" (JDict []) = Return (JDict f) ->
  Jira.well_formed_fields f = true ->
  lookup "assignee" f = Some (JDict a) ->
  a <> [] ->
  lookup "displayName" a = None ->
  (exists details,
      Jira.issue_details issue_ = Return details /\
      assignee details = Some "")
  /\
  (exists out,
      Jira.format_issue issue_ = Return (JDict out) /\
      lookup "assignee" out = Some (JStr "Unassigned")).
Proof.
  intros Hkey Hfields Hwf Hassignee Hnonempty Hnoname.
  unfold Jira.well_formed_fields in Hwf.
  rewrite !andb_true_iff in Hwf.
  destruct Hwf as [[[[[[[[[Wsummary Wdesc] Wstatus] Wassignee] Wreporter]
                         Wcreated] Wupdated] Wpriority] Wtype] Wproject].
  assert (Hget : forall default otherwise,
    Jira.get2_if (JDict f) "assignee" "displayName" (JStr default) otherwise
    = Return (JStr default)).
  { intros default otherwise.
    unfold Jira.get2_if, Jira.get2, py_get, get_or. rewrite Hassignee.
    cbn [rbind truthy]. destruct a; [congruence|]. now rewrite Hnoname. }
  split.
  - destruct (py_get_opt_str f "description" Wdesc) as [description_ [Hdesc Hd]].
    destruct (get2_if_optional f "priority" "name" "" JNull Wpriority)
      as [priority_ [Hpriority _]].
    pose proof (optional_is_opt_str f "priority" "name" priority_ Wpriority
                  Hpriority) as Hp.
    destruct (issue_details_shape issue_ key_ f description_ (JStr "") priority_
                Hkey Hfields Wsummary Wstatus Wreporter Wcreated Wupdated Wtype
                Wproject Hdesc (Hget "" JNull) Hpriority)
      as [s [st [r [c [u [t [p Hdetails]]]]]]].
    rewrite Hdetails. unfold Jira.JiraIssue_init. cbn [Jira.is_str Jira.is_opt_str].
    rewrite Hd, Hp. cbn [app]. eexists. split; reflexivity.
  - destruct (get2_if_optional f "priority" "name" "" (JStr "") Wpriority)
      as [priority_ [Hpriority _]].
    destruct (format_issue_shape issue_ key_ f (JStr "Unassigned") priority_
                Hkey Hfields Wsummary Wstatus Wcreated Wupdated
                (Hget "Unassigned" (JStr "Unassigned")) Hpriority)
      as [s [st [c [u Hout]]]].
    rewrite Hout. eexists. split; reflexivity.
Qed.

(** X14: a description that is neither a string nor [null], such as a
    structured document, cannot be shown by [_get_issue]: the model
    rejects it with a validation error that names [description] alone.
    [_search_issues] does not read the description and projects the same
    issue. *)
Theorem structured_description_is_rejected issue_ key_ f document :
  subscript issue_ "key" = Return (JStr key_) ->
  py_get issue_ "fields" (JDict []) = Return (JDict f) ->
  lookup "description" f = Some document ->
  Jira.is_opt_str document = false ->
  Jira.well_formed_fields (without "description" f) = true ->
  Jira.issue_details issue_ =
    Raise (ValidationError "JiraIssue" ["description"])
  /\
  exists out, Jira.format_issue issue_ = Return (JDict out).
Proof.
  intros Hkey Hfields Hdescription Hdocument Hwf.
  unfold Jira.well_formed_fields, Jira.str_or_absent, Jira.ref_or_absent,
    Jira.optional_ref in Hwf.
  rewrite !lookup_without in Hwf by discriminate.
  fold (Jira.str_or_absent f "summary") (Jira.str_or_absent f "created")
    (Jira.str_or_absent f "updated") in Hwf.
  rewrite !andb_true_iff in Hwf.
  destruct Hwf as [[[[[[[[[Wsummary _] Wstatus] Wassignee] Wreporter]
                         Wcreated] Wupdated] Wpriority] Wtype] Wproject].
  split.
  - destruct (get2_if_optional f "assignee" "displayName" "" JNull Wassignee)
      as [assignee_ [Hassignee _]].
    destruct (get2_if_optional f "priority" "name" "" JNull Wpriority)
      as [priority_ [Hpriority _]].
    pose proof (optional_is_opt_str f _ _ _ Wassignee Hassignee) as Ha.
    pose proof (optional_is_opt_str f _ _ _ Wpriority Hpriority) as Hp.
    assert (Hdesc : py_get (JDict f) "description" (JStr "") = Return document)
      by (unfold py_get, get_or; now rewrite Hdescription).
    destruct (issue_details_shape issue_ key_ f document assignee_ priority_
                Hkey Hfields Wsummary Wstatus Wreporter Wcreated Wupdated Wtype
                Wproject Hdesc Hassignee Hpriority)
      as [s [st [r [c [u [t [p Hdetails]]]]]]].
    rewrite Hdetails. unfold Jira.JiraIssue_init. cbn [Jira.is_str].
    now rewrite Hdocument, Ha, Hp.
  - destruct (get2_if_optional f "assignee" "displayName" "Unassigned"
                (JStr "Unassigned") Wassignee) as [assignee_ [Hassignee _]].
    destruct (get2_if_optional f "priority" "name" "" (JStr "") Wpriority)
      as [priority_ [Hpriority _]].
    destruct (format_issue_shape issue_ key_ f assignee_ priority_
                Hkey Hfields Wsummary Wstatus Wcreated Wupdated
                Hassignee Hpriority)
      as [s [st [c [u Hout]]]].
    rewrite Hout. now eexists.
Qed.

End IssueFields.


(** ** More on projects and new pages *)

Section HandlersEdge.

Context {rt : Runtime}.

Lemma rmap_rows {A B} (f : A -> result B) items rows :
  Forall2 (fun item row => f item = Return row) items rows ->
  rmap f items = Return rows.
Proof.
  intros H. induction H as [|item row items rows Hrow _ IH]; [reflexivity|].
  cbn [rmap]. now rewrite Hrow, IH.
Qed.

Lemma rmap_stops {A B} (f : A -> result B) items rows bad rest e :
  Forall2 (fun item row => f item = Return row) items rows ->
  f bad = Raise e ->
  rmap f (items ++ bad :: rest) = Raise e.
Proof.
  intros H Hbad. induction H as [|item row items rows Hrow _ IH].
  - cbn [app rmap]. now rewrite Hbad.
  - cbn [app rmap]. now rewrite Hrow, IH.
Qed.

(** X16: [_get_projects] prints one row per project of the answer, in
    order, each with the three fields key, name and id and nothing else;
    when a project lacks one of them the handler ends in the [KeyError] of
    the first missing field and prints no row. *)
Theorem get_projects_lists_every_project (w : World Jira.call) st c :
  client st = Some c ->
  let after :=
    {| client := Some c; trace := (trace st ++ [EvCall Jira.projects])%list |} in
  (forall listing rows,
      remote w (trace st) Jira.projects = Return (JList listing) ->
      Forall2 (row_of ["key"; "name"; "id"]) listing rows ->
      Jira._get_projects w st =
        (Return [text_content (json_dumps (JList rows))], after))
  /\
  (forall listing rows bad rest k,
      remote w (trace st) Jira.projects =
        Return (JList (listing ++ JDict bad :: rest)) ->
      Forall2 (row_of ["key"; "name"; "id"]) listing rows ->
      first_missing ["key"; "name"; "id"] bad = Some k ->
      Jira._get_projects w st = (Raise (KeyError k), after)).
Proof.
  intros E after.
  assert (Hrow : forall item row,
    row_of ["key"; "name"; "id"] item row ->
    rbind (subscript item "key") (fun key_ =>
    rbind (subscript item "name") (fun name =>
    rbind (subscript item "id") (fun id_ =>
    Return (JDict [("key", key_); ("name", name); ("id", id_)])))) = Return row).
  { intros item row [values [Hvalues ->]].
    repeat match goal with
           | H : Forall2 _ _ _ |- _ => inversion H; subst; clear H
           end.
    repeat match goal with
           | H : subscript _ _ = Return _ |- _ => rewrite H; clear H
           end.
    reflexivity. }
  split.
  - intros listing rows Hremote Hrows.
    unfold Jira._get_projects. remote_step E Hremote.
    cbn [py_iter]. rewrite (bind_lift _ _ _ _ eq_refl).
    erewrite bind_lift; [reflexivity|].
    apply rmap_rows. eapply Forall2_impl; [|exact Hrows]. exact Hrow.
  - intros listing rows bad rest k Hremote Hrows Hmissing.
    unfold Jira._get_projects. remote_step E Hremote.
    cbn [py_iter]. rewrite (bind_lift _ _ _ _ eq_refl).
    unfold bind, lift.
    erewrite rmap_stops; [reflexivity| |].
    + eapply Forall2_impl; [|exact Hrows]. exact Hrow.
    + unfold first_missing in Hmissing. cbn [find] in Hmissing.
      unfold subscript, item.
      repeat match type of Hmissing with
             | context [lookup ?key bad] =>
                 destruct (lookup key bad); cbn iota in Hmissing
             end;
        try discriminate Hmissing; now injection Hmissing as <-.
Qed.

(** X17: [_create_page] creates the page under the parent of the
    invocation, [None] when none is given, with one remote call, and
    answers with the title and the id of the page created and with its
    address: the url of the retained client followed by the [webui] link
    of the answer. *)
Theorem create_page_reports_the_new_page
    (w : World Confluence.call) arguments st c space_key title content
    result new_title new_id webui :
  client st = Some c ->
  lookup "space_key" arguments = Some space_key ->
  lookup "title" arguments = Some title ->
  lookup "content" arguments = Some content ->
  let parent_id :=
    match lookup "parent_id" arguments with
    | Some supplied => supplied
    | None => JNull
    end in
  let create := Confluence.create_page space_key title content parent_id in
  remote w (trace st) create = Return result ->
  subscript result "title" = Return new_title ->
  subscript result "id" = Return new_id ->
  subscripts result ["_links"; "webui"] = Return webui ->
  Confluence._create_page w arguments st =
    (Return [text_content ("Created page: " ++ format new_title ++ nl
                           ++ "ID: " ++ format new_id ++ nl
                           ++ "URL: " ++ url c ++ format webui)],
     {| client := Some c; trace := (trace st ++ [EvCall create])%list |}).
Proof.
  intros E Hspace Htitle Hcontent parent_id create Hremote Hnew Hid Hweb.
  unfold Confluence._create_page, item. rewrite Hspace, Htitle, Hcontent.
  rewrite !(bind_lift _ _ _ _ eq_refl). cbv zeta.
  remote_step E Hremote.
  rewrite (bind_lift _ _ _ _ Hnew), (bind_lift _ _ _ _ Hid).
  unfold bind at 1, client_url at 1. cbn [client].
  now rewrite (bind_lift _ _ _ _ Hweb).
Qed.

End HandlersEdge.


(** ** More on the session *)

Section SessionMore.

Context {rt : Runtime}.

Lemma confluence_serve_unconfigured (w : World Confluence.call) invocations st :
  Confluence.credentials_set w = false ->
  client st = None ->
  client (Confluence.serve w invocations st) = None /\
  trace (Confluence.serve w invocations st) =
    (trace st ++ concat (map (fun _ => map EvGetenv Confluence.env_names)
                           invocations))%list.
Proof.
  intros Hcred. revert st.
  induction invocations as [|[name arguments] rest IH]; intros st E.
  - cbn. now rewrite app_nil_r.
  - cbn [Confluence.serve map concat].
    rewrite (confluence_call_tool_unconnected w name arguments _ _ _
               (confluence_connect_fails w st E Hcred)).
    cbn [snd].
    match goal with
    | |- context [Confluence.serve w rest ?s] =>
        destruct (IH s eq_refl) as [Hc Ht]
    end.
    rewrite Hc, Ht. cbn [trace]. now rewrite <- app_assoc.
Qed.

Lemma jira_serve_unconfigured (w : World Jira.call) invocations st :
  Jira.credentials_set w = false ->
  client st = None ->
  client (Jira.serve w invocations st) = None /\
  trace (Jira.serve w invocations st) =
    (trace st ++ concat (map (fun _ => map EvGetenv Jira.env_names)
                           invocations))%list.
Proof.
  intros Hcred. revert st.
  induction invocations as [|[name arguments] rest IH]; intros st E.
  - cbn. now rewrite app_nil_r.
  - cbn [Jira.serve map concat].
    rewrite (jira_call_tool_unconnected w name arguments _ _ _
               (jira_connect_fails w st E Hcred)).
    cbn [snd].
    match goal with
    | |- context [Jira.serve w rest ?s] =>
        destruct (IH s eq_refl) as [Hc Ht]
    end.
    rewrite Hc, Ht. cbn [trace]. now rewrite <- app_assoc.
Qed.

(** X18: a failed connection is not remembered.  While a credential is
    missing, every invocation served since [__init__] reads the four
    environment variables again and does nothing else: the trace of the
    process is these four reads once per invocation, with no client
    constructed and no remote call made. *)
Theorem missing_credentials_are_read_at_every_invocation :
  (forall (w : World Confluence.call) invocations,
      Confluence.credentials_set w = false ->
      client (Confluence.serve w invocations Confluence.__init__) = None /\
      trace (Confluence.serve w invocations Confluence.__init__) =
        concat (map (fun _ => map EvGetenv Confluence.env_names) invocations))
  /\
  (forall (w : World Jira.call) invocations,
      Jira.credentials_set w = false ->
      client (Jira.serve w invocations Jira.__init__) = None /\
      trace (Jira.serve w invocations Jira.__init__) =
        concat (map (fun _ => map EvGetenv Jira.env_names) invocations)).
Proof.
  split; intros w invocations Hcred.
  - exact (confluence_serve_unconfigured w invocations Confluence.__init__
             Hcred eq_refl).
  - exact (jira_serve_unconfigured w invocations Jira.__init__ Hcred eq_refl).
Qed.

(** X19: the client retained after the first invocation is the one that
    the library constructor, [Confluence] or [Jira], builds from the three
    credentials exactly as the environment gives them and from a cloud
    flag that is set exactly when the value of the fourth variable, "true"
    when it is unset, is "true" once lower-cased.  What the constructed
    client keeps as its url is left to the library. *)
Theorem client_is_built_from_the_environment :
  (forall (w : World Confluence.call) name arguments st address user token,
      client st = None ->
      environ w "CONFLUENCE_URL" = Some address ->
      environ w "CONFLUENCE_USERNAME" = Some user ->
      environ w "CONFLUENCE_API_TOKEN" = Some token ->
      address <> "" -> user <> "" -> token <> "" ->
      client (snd (Confluence.call_tool w name arguments st)) =
        Some (atlassian_Confluence address user token
                (String.eqb
                   (str_lower match environ w "CONFLUENCE_CLOUD" with
                              | Some flag => flag
                              | None => "true"
                              end) "true")))
  /\
  (forall (w : World Jira.call) name arguments st address user token,
      client st = None ->
      environ w "JIRA_URL" = Some address ->
      environ w "JIRA_USERNAME" = Some user ->
      environ w "JIRA_API_TOKEN" = Some token ->
      address <> "" -> user <> "" -> token <> "" ->
      client (snd (Jira.call_tool w name arguments st)) =
        Some (atlassian_Jira address user token
                (String.eqb
                   (str_lower match environ w "JIRA_CLOUD" with
                              | Some flag => flag
                              | None => "true"
                              end) "true"))).
Proof.
  split; intros w name arguments st address user token E Hurl Huser Htoken
    Ha Hu Ht;
    apply String.eqb_neq in Ha, Hu, Ht.
  - assert (Hconn : exists st1,
      Confluence.ensure_connected w st = (Return tt, st1) /\
      client st1 =
        Some (atlassian_Confluence address user token
                (String.eqb
                   (str_lower match environ w "CONFLUENCE_CLOUD" with
                              | Some flag => flag
                              | None => "true"
                              end) "true"))).
    { unfold Confluence.ensure_connected. rewrite E.
      unfold Confluence._connect_to_confluence, bind, getenv, set_client.
      rewrite Hurl, Huser, Htoken. cbn. rewrite Ha, Hu, Ht. cbn.
      eexists. split; reflexivity. }
    destruct Hconn as [st1 [Hconn Hclient]].
    rewrite (confluence_call_tool_connected w name arguments st st1 Hconn).
    destruct (quiet_preserves _ st1 (confluence_try_quiet w name arguments))
      as [Hc _].
    now rewrite Hc.
  - assert (Hconn : exists st1,
      Jira.ensure_connected w st = (Return tt, st1) /\
      client st1 =
        Some (atlassian_Jira address user token
                (String.eqb
                   (str_lower match environ w "JIRA_CLOUD" with
                              | Some flag => flag
                              | None => "true"
                              end) "true"))).
    { unfold Jira.ensure_connected. rewrite E.
      unfold Jira._connect_to_jira, bind, getenv, set_client.
      rewrite Hurl, Huser, Htoken. cbn. rewrite Ha, Hu, Ht. cbn.
      eexists. split; reflexivity. }
    destruct Hconn as [st1 [Hconn Hclient]].
    rewrite (jira_call_tool_connected w name arguments st st1 Hconn).
    destruct (quiet_preserves _ st1 (jira_try_quiet w name arguments))
      as [Hc _].
    now rewrite Hc.
Qed.

End SessionMore.


(** ** Hits, children and confirmations *)

Section LinkedListings.

Context {rt : Runtime}.
Variable w : World Confluence.call.

Lemma subscripts_one v k : subscripts v [k] = subscript v k.
Proof. cbn. now destruct (subscript v k). Qed.

Lemma for_each_rows_connected (body : json -> M Confluence.call json)
    items rows st :
  Forall2 (fun item row => body item st = (Return row, st)) items rows ->
  for_each body items st = (Return rows, st).
Proof.
  intros H. induction H as [|item row items rows Hrow _ IH]; [reflexivity|].
  cbn [for_each]. unfold bind at 1. rewrite Hrow.
  unfold bind at 1. now rewrite IH.
Qed.

(** X20: [_search_content] prints one row per hit of the answer, in order,
    each with the id, the title and the type of the content, the key of its
    space, and a url that is the url of the retained client followed by the
    [webui] link of the content. *)
Theorem search_content_lists_every_hit
    arguments st c query answer hits rows :
  client st = Some c ->
  lookup "cql" arguments = Some query ->
  let search := Confluence.cql query (get_or arguments "limit" (JNum 25)) in
  remote w (trace st) search = Return (JDict answer) ->
  lookup "results" answer = Some (JList hits) ->
  Forall2 (linked_row (url c)
             [("id", ["content"; "id"]); ("title", ["content"; "title"]);
              ("type", ["content"; "type"]);
              ("space", ["content"; "space"; "key"])]
             ["content"; "_links"; "webui"]) hits rows ->
  Confluence._search_content w arguments st =
    (Return [text_content (json_dumps (JList rows))],
     {| client := Some c; trace := (trace st ++ [EvCall search])%list |}).
Proof.
  intros E Hquery search Hremote Hresults Hrows.
  unfold Confluence._search_content, item. rewrite Hquery.
  rewrite (bind_lift _ _ _ _ eq_refl). cbv zeta.
  remote_step E Hremote.
  unfold py_get, get_or. rewrite Hresults. cbn [rbind py_iter].
  rewrite (bind_lift _ _ _ _ eq_refl).
  unfold bind at 1.
  rewrite (for_each_rows_connected _ hits rows); [reflexivity|].
  eapply Forall2_impl; [|exact Hrows]. clear Hrows.
  intros hit row [values [webui [Hvalues [Hweb ->]]]].
  repeat match goal with
         | H : Forall2 _ _ _ |- _ => inversion H; subst; clear H
         end.
  cbn [snd] in *.
  repeat match goal with
         | H : subscripts hit _ = Return _ |- _ =>
             rewrite (bind_lift _ _ _ _ H)
         end.
  unfold bind at 1, client_url at 1. cbn [client].
  now rewrite (bind_lift _ _ _ _ Hweb).
Qed.

(** X21: [_get_page_children] asks for the children of type "page" with
    the limit of the invocation, 25 when none is given, and prints one row
    per child, in order, with its id, its title and a url that is the url
    of the retained client followed by the [webui] link of the child. *)
Theorem get_page_children_lists_every_child
    arguments st c page_id children rows :
  client st = Some c ->
  lookup "page_id" arguments = Some page_id ->
  let fetch :=
    Confluence.get_page_child_by_type page_id (JStr "page")
      (get_or arguments "limit" (JNum 25)) in
  remote w (trace st) fetch = Return (JList children) ->
  Forall2 (linked_row (url c) [("id", ["id"]); ("title", ["title"])]
             ["_links"; "webui"]) children rows ->
  Confluence._get_page_children w arguments st =
    (Return [text_content (json_dumps (JList rows))],
     {| client := Some c; trace := (trace st ++ [EvCall fetch])%list |}).
Proof.
  intros E Hid fetch Hremote Hrows.
  unfold Confluence._get_page_children, item. rewrite Hid.
  rewrite (bind_lift _ _ _ _ eq_refl). cbv zeta.
  remote_step E Hremote.
  cbn [py_iter]. rewrite (bind_lift _ _ _ _ eq_refl).
  unfold bind at 1.
  rewrite (for_each_rows_connected _ children rows); [reflexivity|].
  eapply Forall2_impl; [|exact Hrows]. clear Hrows.
  intros child row [values [webui [Hvalues [Hweb ->]]]].
  repeat match goal with
         | H : Forall2 _ _ _ |- _ => inversion H; subst; clear H
         end.
  cbn [snd] in *.
  repeat match goal with
         | H : subscripts child [_] = Return _ |- _ =>
             rewrite subscripts_one in H; rewrite (bind_lift _ _ _ _ H); clear H
         end.
  unfold bind at 1, client_url at 1. cbn [client].
  now rewrite (bind_lift _ _ _ _ Hweb).
Qed.

End LinkedListings.

Section Confirmations.

Context {rt : Runtime}.

(** X22: the handlers that delete a page and add a comment never look at
    what the remote call returns: whatever the answer, they confirm with
    the id (the issue key) as the invocation gave it; only an exception of
    the call makes them fail, and with that exception. *)
Theorem confirmations_ignore_the_answer :
  (forall (w : World Confluence.call) arguments st c page_id,
      client st = Some c ->
      lookup "page_id" arguments = Some page_id ->
      let delete := Confluence.remove_page page_id in
      let after :=
        {| client := Some c; trace := (trace st ++ [EvCall delete])%list |} in
      Confluence._delete_page w arguments st =
        (match remote w (trace st) delete with
         | Return _ =>
             Return [text_content ("Deleted page with ID: " ++ format page_id)]
         | Raise e => Raise e
         end, after))
  /\
  (forall (w : World Jira.call) arguments st c issue_key comment,
      client st = Some c ->
      lookup "issue_key" arguments = Some issue_key ->
      lookup "comment" arguments = Some comment ->
      let add := Jira.issue_add_comment issue_key comment in
      let after :=
        {| client := Some c; trace := (trace st ++ [EvCall add])%list |} in
      Jira._add_comment w arguments st =
        (match remote w (trace st) add with
         | Return _ =>
             Return [text_content ("Added comment to issue: "
                                   ++ format issue_key)]
         | Raise e => Raise e
         end, after)).
Proof.
  split.
  - intros w arguments st c page_id E Hid delete after.
    unfold Confluence._delete_page, item. rewrite Hid.
    rewrite (bind_lift _ _ _ _ eq_refl).
    remote_step E (eq_refl (remote w (trace st) delete)).
    now destruct (remote w (trace st) delete).
  - intros w arguments st c issue_key comment E Hkey Hcomment add after.
    unfold Jira._add_comment, item. rewrite Hkey, Hcomment.
    rewrite !(bind_lift _ _ _ _ eq_refl).
    remote_step E (eq_refl (remote w (trace st) add)).
    now destruct (remote w (trace st) add).
Qed.

End Confirmations.


(** ** Concrete invocations *)

#[local] Existing Instance Sample.plain_runtime.

(** C1: with no credential set and no client retained, an invocation of a
    declared tool does not come back as a text that begins with "Error:":
    [_connect_to_confluence] (and [_connect_to_jira]) is called before the
    [try] of [call_tool], so its [ValueError] leaves [call_tool] as an
    exception, after the four environment variables were read. *)
Theorem C1_missing_credentials_raise_out_of_call_tool :
  Confluence.call_tool (rt := Sample.plain_runtime) (Sample.bare_world _)
    "confluence_get_spaces" [] Confluence.__init__ =
    (Raise (ValueError Confluence.missing_credentials),
     {| client := None; trace := map EvGetenv Confluence.env_names |})
  /\
  Jira.call_tool (rt := Sample.plain_runtime) (Sample.bare_world _)
    "jira_get_projects" [] Jira.__init__ =
    (Raise (ValueError Jira.missing_credentials),
     {| client := None; trace := map EvGetenv Jira.env_names |}).
Proof. split; reflexivity. Qed.

Lemma C2_witness :
  Confluence.call_tool (rt := Sample.plain_runtime) Sample.wiki_world
    "confluence_delete_page" [("page_id", JStr "42")] (Sample.connected _) =
    (Return [text_content "Error: 404 Client Error: Not Found"],
     {| client := Some Sample.a_client;
        trace := [EvCall (Confluence.remove_page (JStr "42"))] |})
  /\
  Jira.call_tool (rt := Sample.plain_runtime) Sample.tracker_world
    "jira_add_comment" [("issue_key", JStr "PROJ-1")] (Sample.connected _) =
    (Return [text_content "Error: 'comment'"],
     {| client := Some Sample.a_client; trace := [] |}).
Proof.
  split.
  - apply (proj1 (C2_handler_exception_becomes_error_text
                    (rt := Sample.plain_runtime))
             Sample.wiki_world "confluence_delete_page" [("page_id", JStr "42")]
             (Confluence._delete_page Sample.wiki_world)
             (Sample.connected _) (Sample.connected _)
             (LibraryError "HTTPError" "404 Client Error: Not Found"));
      reflexivity.
  - apply (proj2 (C2_handler_exception_becomes_error_text
                    (rt := Sample.plain_runtime))
             Sample.tracker_world "jira_add_comment" [("issue_key", JStr "PROJ-1")]
             (Jira._add_comment Sample.tracker_world)
             (Sample.connected _) (Sample.connected _)
             (KeyError "comment"));
      reflexivity.
Defined.

(** With no credential set, an undeclared tool name is not answered with
    "Unknown tool: ...": the invocation raises. *)
Lemma C3_unknown_tool_without_credentials :
  fst (Confluence.call_tool (rt := Sample.plain_runtime) (Sample.bare_world _)
         "no_such_tool" [] Confluence.__init__) =
    Raise (ValueError Confluence.missing_credentials)
  /\
  fst (Confluence.call_tool (rt := Sample.plain_runtime) (Sample.bare_world _)
         "no_such_tool" [] Confluence.__init__) <>
    Return [text_content "Unknown tool: no_such_tool"].
Proof. split; [reflexivity|discriminate]. Qed.

Lemma C3_witness :
  exists st',
    Confluence.call_tool (rt := Sample.plain_runtime) Sample.wiki_world
      "no_such_tool" [] Confluence.__init__ =
      (Return [text_content "Unknown tool: no_such_tool"], st') /\
    calls (trace st') = [].
Proof.
  apply (proj1 (C3_unknown_tool_is_reported (rt := Sample.plain_runtime))
           Sample.wiki_world "no_such_tool" [] Confluence.__init__).
  - reflexivity.
  - right. reflexivity.
Defined.

Lemma C4_witness :
  Confluence._update_page (rt := Sample.plain_runtime) Sample.wiki_world
    [("page_id", JStr "42"); ("content", JStr "<p>new</p>")]
    (Sample.connected _) =
    (Return [text_content ("Updated page: Home" ++ nl ++ "Version: 8")],
     {| client := Some Sample.a_client;
        trace := [EvCall (Confluence.get_page_by_id (JStr "42") None);
                  EvCall (Confluence.update_page (JStr "42") (JStr "Home")
                            (JStr "<p>new</p>") (JStr "Updated via MCP"))] |}).
Proof.
  apply (C4_update_page_without_title (rt := Sample.plain_runtime)
           Sample.wiki_world
           [("page_id", JStr "42"); ("content", JStr "<p>new</p>")]
           (Sample.connected _) Sample.a_client (JStr "42") (JStr "<p>new</p>")
           (JDict [("id", JStr "42"); ("title", JStr "Home");
                   ("version", JDict [("number", JNum 7)])])
           (JStr "Home")
           (JDict [("id", JStr "42"); ("title", JStr "Home");
                   ("version", JDict [("number", JNum 8)])])
           (JStr "Home") (JNum 8));
    reflexivity.
Defined.

Lemma C10_witness :
  Confluence._update_page (rt := Sample.plain_runtime) Sample.wiki_world
    [("page_id", JStr "42"); ("content", JStr "<p>new</p>"); ("title", JStr "")]
    (Sample.connected _) =
    (Return [text_content ("Updated page: Home" ++ nl ++ "Version: 8")],
     {| client := Some Sample.a_client;
        trace := [EvCall (Confluence.get_page_by_id (JStr "42") None);
                  EvCall (Confluence.update_page (JStr "42") (JStr "Home")
                            (JStr "<p>new</p>") (JStr "Updated via MCP"))] |}).
Proof.
  apply (C10_update_page_with_empty_title (rt := Sample.plain_runtime)
           Sample.wiki_world
           [("page_id", JStr "42"); ("content", JStr "<p>new</p>");
            ("title", JStr "")]
           (Sample.connected _) Sample.a_client (JStr "42") (JStr "<p>new</p>")
           (JDict [("id", JStr "42"); ("title", JStr "Home");
                   ("version", JDict [("number", JNum 7)])])
           (JStr "Home")
           (JDict [("id", JStr "42"); ("title", JStr "Home");
                   ("version", JDict [("number", JNum 8)])])
           (JStr "Home") (JNum 8));
    reflexivity.
Defined.

Lemma C6_witness :
  Confluence._add_attachment (rt := Sample.plain_runtime) Sample.wiki_world
    [("page_id", JStr "42"); ("file_path", JStr "/tmp/none.pdf")]
    (Sample.connected _) =
    (Return [text_content "Error: File not found: /tmp/none.pdf"],
     {| client := Some Sample.a_client;
        trace := [EvExists (JStr "/tmp/none.pdf")] |})
  /\
  Confluence._add_attachment (rt := Sample.plain_runtime) Sample.wiki_world
    [("page_id", JStr "42"); ("file_path", JStr "/tmp/report.pdf")]
    (Sample.connected _) =
    (Return [text_content "Attached file: report.pdf to page 42"],
     {| client := Some Sample.a_client;
        trace := [EvExists (JStr "/tmp/report.pdf");
                  EvCall (Confluence.attach_file (JStr "/tmp/report.pdf")
                            (JStr "42") (JStr ""))] |}).
Proof.
  split.
  - apply (proj1 (C6_add_attachment_checks_the_file (rt := Sample.plain_runtime)
                    Sample.wiki_world
                    [("page_id", JStr "42"); ("file_path", JStr "/tmp/none.pdf")]
                    (Sample.connected _) (JStr "42") "/tmp/none.pdf"
                    eq_refl eq_refl)).
    reflexivity.
  - apply (proj2 (C6_add_attachment_checks_the_file (rt := Sample.plain_runtime)
                    Sample.wiki_world
                    [("page_id", JStr "42"); ("file_path", JStr "/tmp/report.pdf")]
                    (Sample.connected _) (JStr "42") "/tmp/report.pdf"
                    eq_refl eq_refl)
             Sample.a_client (JDict []) "report.pdf");
      reflexivity.
Defined.

(** C5: on the answer of the client, a list of transitions, each with its
    name, its id and the name of the status it leads to, the invocation of
    "jira_transition_issue" neither scans for the status, nor lists the
    available names, nor sets a status: [_transition_issue] indexes the
    list with the string "transitions", and [call_tool] answers with the
    text of that [TypeError], for a status that is available ("Done") as
    for one that is not ("Blocked"), after the one call that fetched the
    transitions. *)
Theorem C5_transition_issue_fails_on_the_client_answer :
  Jira.call_tool (rt := Sample.plain_runtime) Sample.tracker_world
    "jira_transition_issue"
    [("issue_key", JStr "PROJ-1"); ("status", JStr "Done")]
    (Sample.connected _) =
    (Return [text_content
               "Error: list indices must be integers or slices, not str"],
     {| client := Some Sample.a_client;
        trace := [EvCall (Jira.get_issue_transitions (JStr "PROJ-1"))] |})
  /\
  Jira.call_tool (rt := Sample.plain_runtime) Sample.tracker_world
    "jira_transition_issue"
    [("issue_key", JStr "PROJ-1"); ("status", JStr "Blocked")]
    (Sample.connected _) =
    (Return [text_content
               "Error: list indices must be integers or slices, not str"],
     {| client := Some Sample.a_client;
        trace := [EvCall (Jira.get_issue_transitions (JStr "PROJ-1"))] |}).
Proof. split; reflexivity. Qed.

Lemma C7_witness :
  exists fields,
    Jira.create_fields
      [("project_key", JStr "PROJ"); ("summary", JStr "Broken link");
       ("assignee", JStr "ada")] = Return fields /\
    lookup "issuetype" fields = Some (JDict [("name", JStr "Task")]) /\
    lookup "priority" fields = None /\
    lookup "assignee" fields = Some (JDict [("name", JStr "ada")]).
Proof.
  destruct (C7_create_issue_builds_the_field_map (rt := Sample.plain_runtime)
              Sample.tracker_world
              [("project_key", JStr "PROJ"); ("summary", JStr "Broken link");
               ("assignee", JStr "ada")]
              (JStr "PROJ") (JStr "Broken link") eq_refl eq_refl)
    as [fields [Hfields [_ [_ [Htype [_ [Hpriority [Hassignee _]]]]]]]].
  exists fields. repeat split; assumption.
Defined.

Lemma C8_witness :
  fst (Jira._get_issue (rt := Sample.plain_runtime) Sample.tracker_world
         [("issue_key", JStr "PROJ-1")] (Sample.connected _)) =
    Return [text_content
              (model_dump_json
                 {| key := "PROJ-1"; summary := "Broken link";
                    description := Some ""; status := "Open";
                    assignee := None; reporter := "Ada";
                    created := ""; updated := "";
                    priority := None; issue_type := ""; project := "" |})]
  /\
  (exists out,
      Jira.format_issue
        (JDict [("key", JStr "PROJ-1");
                ("fields", JDict [("summary", JStr "Broken link");
                                  ("status", JDict [("name", JStr "Open")]);
                                  ("assignee", JNull);
                                  ("reporter", JDict [("displayName", JStr "Ada")]);
                                  ("priority", JNull)])]) = Return (JDict out) /\
      lookup "assignee" out = Some (JStr "Unassigned") /\
      lookup "priority" out = Some (JStr "")).
Proof.
  destruct (C8_missing_assignee_and_priority (rt := Sample.plain_runtime)
              Sample.tracker_world
              (JDict [("key", JStr "PROJ-1");
                      ("fields", JDict [("summary", JStr "Broken link");
                                        ("status", JDict [("name", JStr "Open")]);
                                        ("assignee", JNull);
                                        ("reporter", JDict [("displayName", JStr "Ada")]);
                                        ("priority", JNull)])])
              "PROJ-1"
              [("summary", JStr "Broken link");
               ("status", JDict [("name", JStr "Open")]);
               ("assignee", JNull);
               ("reporter", JDict [("displayName", JStr "Ada")]);
               ("priority", JNull)]
              eq_refl eq_refl eq_refl)
    as [[details [Hd [_ [_ Hhandler]]]] [out [Ho [Hoa [Hop _]]]]].
  split.
  - injection Hd as <-.
    exact (Hhandler [("issue_key", JStr "PROJ-1")] (Sample.connected _)
             Sample.a_client (JStr "PROJ-1") eq_refl eq_refl eq_refl).
  - exists out. repeat split; [exact Ho|exact (Hoa eq_refl)|exact (Hop eq_refl)].
Defined.

Lemma C9_witness :
  client (Confluence.serve (rt := Sample.plain_runtime) Sample.wiki_world
            [("confluence_delete_page", [("page_id", JStr "42")]);
             ("no_such_tool", [])]
            (Sample.connected _)) = Some Sample.a_client
  /\
  (exists c,
      client (snd (Jira.call_tool (rt := Sample.plain_runtime)
                     Sample.tracker_world "jira_get_projects" []
                     Jira.__init__)) = Some c /\
      connects (trace (snd (Jira.call_tool (rt := Sample.plain_runtime)
                              Sample.tracker_world "jira_get_projects" []
                              Jira.__init__))) = [c]).
Proof.
  split.
  - apply (proj1 (proj2 (proj1 (C9_client_constructed_at_most_once
                                  (rt := Sample.plain_runtime))
                           Sample.wiki_world))
             [("confluence_delete_page", [("page_id", JStr "42")]);
              ("no_such_tool", [])]
             (Sample.connected _) Sample.a_client eq_refl).
  - apply (proj2 (proj1 (proj2 (C9_client_constructed_at_most_once
                                  (rt := Sample.plain_runtime))
                           Sample.tracker_world)
                    "jira_get_projects" [] Jira.__init__ eq_refl)
             eq_refl).
Defined.

(** ** Concrete invocations, continued *)

Lemma missing_required_argument_witness :
  Confluence.call_tool (rt := Sample.plain_runtime) Sample.wiki_world
    "confluence_create_page" [("space_key", JStr "DOC")] (Sample.connected _) =
    (Return [text_content "Error: 'title'"], Sample.connected _).
Proof.
  exact (proj1 (missing_required_argument_is_reported
                  (rt := Sample.plain_runtime))
           Sample.wiki_world "confluence_create_page" [("space_key", JStr "DOC")]
           (Sample.connected _) Sample.a_client "title" eq_refl eq_refl).
Defined.

Lemma connected_invocation_witness :
  exists s st',
    Jira.call_tool (rt := Sample.plain_runtime) Sample.tracker_world
      "jira_add_comment" [("issue_key", JStr "PROJ-1"); ("comment", JStr "hi")]
      (Sample.connected _) = (Return [text_content s], st').
Proof.
  exact (proj2 (connected_invocation_returns_one_text
                  (rt := Sample.plain_runtime))
           Sample.tracker_world "jira_add_comment"
           [("issue_key", JStr "PROJ-1"); ("comment", JStr "hi")]
           (Sample.connected _) Sample.a_client eq_refl).
Defined.

Lemma unreachable_service_witness :
  calls (trace (snd (Confluence.call_tool (rt := Sample.plain_runtime)
                       (Sample.bare_world _) "confluence_update_page"
                       [("page_id", JStr "42"); ("content", JStr "<p>x</p>")]
                       (Sample.connected _)))) = []
  \/
  exists attempt,
    calls (trace (snd (Confluence.call_tool (rt := Sample.plain_runtime)
                         (Sample.bare_world _) "confluence_update_page"
                         [("page_id", JStr "42"); ("content", JStr "<p>x</p>")]
                         (Sample.connected _)))) = [attempt] /\
    fst (Confluence.call_tool (rt := Sample.plain_runtime)
           (Sample.bare_world _) "confluence_update_page"
           [("page_id", JStr "42"); ("content", JStr "<p>x</p>")]
           (Sample.connected _)) =
      Return [text_content "Error: unreachable"].
Proof.
  exact (proj1 (unreachable_service_is_tried_once (rt := Sample.plain_runtime))
           (Sample.bare_world _) (LibraryError "ConnectionError" "unreachable")
           "confluence_update_page"
           [("page_id", JStr "42"); ("content", JStr "<p>x</p>")]
           (Sample.connected _) Sample.a_client
           (fun _ _ => eq_refl) eq_refl).
Defined.

Lemma update_page_with_title_witness :
  Confluence._update_page (rt := Sample.plain_runtime) Sample.wiki_world
    [("page_id", JStr "42"); ("content", JStr "<p>new</p>");
     ("title", JStr "Start")]
    (Sample.connected _) =
    (Return [text_content ("Updated page: Start" ++ nl ++ "Version: 8")],
     {| client := Some Sample.a_client;
        trace := [EvCall (Confluence.get_page_by_id (JStr "42") None);
                  EvCall (Confluence.update_page (JStr "42") (JStr "Start")
                            (JStr "<p>new</p>") (JStr "Updated via MCP"))] |}).
Proof.
  apply (update_page_with_title_still_reads (rt := Sample.plain_runtime)
           Sample.wiki_world
           [("page_id", JStr "42"); ("content", JStr "<p>new</p>");
            ("title", JStr "Start")]
           (Sample.connected _) Sample.a_client (JStr "42") (JStr "<p>new</p>")
           (JStr "Start")
           (JDict [("id", JStr "42"); ("title", JStr "Home");
                   ("version", JDict [("number", JNum 7)])])
           (JDict [("id", JStr "42"); ("title", JStr "Start");
                   ("version", JDict [("number", JNum 8)])])
           (JStr "Start") (JNum 8));
    reflexivity.
Defined.

Lemma update_page_unread_witness :
  Confluence._update_page (rt := Sample.plain_runtime)
    (Scenes.answering _ (Return (JDict [("id", JStr "42")])))
    [("page_id", JStr "42"); ("content", JStr "<p>new</p>")]
    (Sample.connected _) =
    (Raise (KeyError "title"),
     {| client := Some Sample.a_client;
        trace := [EvCall (Confluence.get_page_by_id (JStr "42") None)] |}).
Proof.
  apply (proj2 (update_page_never_writes_unread_page
                  (rt := Sample.plain_runtime)
                  (Scenes.answering _ (Return (JDict [("id", JStr "42")])))
                  [("page_id", JStr "42"); ("content", JStr "<p>new</p>")]
                  (Sample.connected _) Sample.a_client (JStr "42")
                  (JStr "<p>new</p>") eq_refl eq_refl eq_refl)
           [("id", JStr "42")]);
    reflexivity.
Defined.

Lemma get_page_witness :
  Confluence._get_page (rt := Sample.plain_runtime)
    (Scenes.answering _ (Return (JDict Scenes.page_fields)))
    [("page_id", JStr "42")] (Sample.connected _) =
    (Return [text_content
               (json_dumps
                  (JDict [("id", JStr "42"); ("title", JStr "Home");
                          ("space", JStr "DOC"); ("version", JNum 7);
                          ("created_by", JStr "Ada");
                          ("created_date", JStr "2024-01-01");
                          ("url", JStr "https://wiki.example.org/pages/42");
                          ("content", JStr "<p>hi</p>")]))],
     {| client := Some Sample.a_client;
        trace := [EvCall (Confluence.get_page_by_id (JStr "42")
                            (Some (JStr "body.storage,version")))] |}).
Proof.
  apply (proj2 (proj2 (get_page_adds_content_when_present
                         (rt := Sample.plain_runtime)
                         (Scenes.answering _ (Return (JDict Scenes.page_fields)))
                         [("page_id", JStr "42")] (Sample.connected _)
                         Sample.a_client (JStr "42") Scenes.page_fields
                         (JStr "42") (JStr "Home") (JStr "DOC") (JNum 7)
                         (JStr "Ada") (JStr "2024-01-01") (JStr "/pages/42")
                         eq_refl eq_refl eq_refl eq_refl eq_refl eq_refl
                         eq_refl eq_refl eq_refl eq_refl))
           [("storage", JDict [("value", JStr "<p>hi</p>")])]
           (JDict [("value", JStr "<p>hi</p>")]) (JStr "<p>hi</p>"));
    reflexivity.
Defined.

Lemma get_spaces_witness :
  Confluence._get_spaces (rt := Sample.plain_runtime)
    (Scenes.answering _
       (Return (JDict [("results", JList [Scenes.space "DOC" "Documents";
                                          Scenes.space "OPS" "Operations"])])))
    [("limit", JNum 2)] (Sample.connected _) =
    (Return [text_content
               (json_dumps (JList [Scenes.space_row "DOC" "Documents";
                                   Scenes.space_row "OPS" "Operations"]))],
     {| client := Some Sample.a_client;
        trace := [EvCall (Confluence.get_all_spaces (JNum 2))] |}).
Proof.
  apply (proj1 (get_spaces_lists_every_space (rt := Sample.plain_runtime)
                  (Scenes.answering _
                     (Return (JDict [("results",
                                      JList [Scenes.space "DOC" "Documents";
                                             Scenes.space "OPS" "Operations"])])))
                  [("limit", JNum 2)] (Sample.connected _) Sample.a_client
                  [("results", JList [Scenes.space "DOC" "Documents";
                                      Scenes.space "OPS" "Operations"])]
                  eq_refl eq_refl)
           [Scenes.space "DOC" "Documents"; Scenes.space "OPS" "Operations"]).
  - reflexivity.
  - repeat constructor.
    + exists [JStr "DOC"; JStr "Documents"; JNum 1; JStr "global"].
      split; [repeat constructor|reflexivity].
    + exists [JStr "OPS"; JStr "Operations"; JNum 1; JStr "global"].
      split; [repeat constructor|reflexivity].
Defined.

Lemma search_without_hits_witness :
  Jira._search_issues (rt := Sample.plain_runtime)
    (Scenes.answering _ (Return (JDict [("total", JNum 0)])))
    [("jql", JStr "project = PROJ")] (Sample.connected _) =
    (Return [text_content "[]"],
     {| client := Some Sample.a_client;
        trace := [EvCall (Jira.jql (JStr "project = PROJ") (JNum 50))] |}).
Proof.
  apply (proj2 (search_without_hits_is_empty (rt := Sample.plain_runtime))
           (Scenes.answering _ (Return (JDict [("total", JNum 0)])))
           [("jql", JStr "project = PROJ")] (Sample.connected _)
           Sample.a_client (JStr "project = PROJ") [("total", JNum 0)]);
    reflexivity.
Defined.

Lemma update_issue_witness :
  exists updates,
    Jira.update_fields
      (JDict [("labels", JList [JStr "web"]); ("priority", JStr "High")])
      = Return updates /\
    updates = [("priority", JDict [("name", JStr "High")])] /\
    snd (Jira._update_issue (rt := Sample.plain_runtime) Sample.tracker_world
           [("issue_key", JStr "PROJ-1");
            ("fields", JDict [("labels", JList [JStr "web"]);
                              ("priority", JStr "High")])]
           (Sample.connected _)) =
      {| client := Some Sample.a_client;
         trace := [EvCall (Jira.update_issue_field (JStr "PROJ-1")
                             (JDict updates))] |}.
Proof.
  destruct (update_issue_forwards_four_fields (rt := Sample.plain_runtime)
              Sample.tracker_world
              [("issue_key", JStr "PROJ-1");
               ("fields", JDict [("labels", JList [JStr "web"]);
                                 ("priority", JStr "High")])]
              (Sample.connected _) Sample.a_client (JStr "PROJ-1")
              [("labels", JList [JStr "web"]); ("priority", JStr "High")]
              eq_refl eq_refl eq_refl)
    as [updates [Hupdates [_ [_ [_ [_ [_ [Hsnd _]]]]]]]].
  exists updates. split; [exact Hupdates|].
  split; [|exact Hsnd].
  injection Hupdates as <-. reflexivity.
Defined.

Lemma null_status_witness :
  Jira.call_tool (rt := Sample.plain_runtime)
    (Scenes.answering _ (Return (JDict Scenes.null_status_issue)))
    "jira_get_issue" [("issue_key", JStr "PROJ-1")] (Sample.connected _) =
    (Return [text_content "Error: 'NoneType' object has no attribute 'get'"],
     {| client := Some Sample.a_client;
        trace := [EvCall (Jira.issue (JStr "PROJ-1"))] |}).
Proof.
  apply (null_status_is_an_error (rt := Sample.plain_runtime)
           (Scenes.answering _ (Return (JDict Scenes.null_status_issue)))
           [("issue_key", JStr "PROJ-1")] (Sample.connected _) Sample.a_client
           (JStr "PROJ-1") Scenes.null_status_issue (JStr "PROJ-1")
           [("summary", JStr "Broken link"); ("status", JNull)]
           eq_refl eq_refl eq_refl eq_refl eq_refl eq_refl).
Defined.

Lemma assignee_without_display_name_witness :
  (exists details,
      Jira.issue_details Scenes.anonymous_assignee_issue = Return details /\
      assignee details = Some "")
  /\
  (exists out,
      Jira.format_issue Scenes.anonymous_assignee_issue = Return (JDict out) /\
      lookup "assignee" out = Some (JStr "Unassigned")).
Proof.
  apply (assignee_without_display_name Scenes.anonymous_assignee_issue
           "PROJ-1"
           [("summary", JStr "Broken link");
            ("assignee", JDict [("accountId", JStr "5b10")])]
           [("accountId", JStr "5b10")]);
    try reflexivity.
  discriminate.
Defined.

Lemma structured_description_witness :
  Jira.issue_details Scenes.document_issue =
    Raise (ValidationError "JiraIssue" ["description"])
  /\
  exists out, Jira.format_issue Scenes.document_issue = Return (JDict out).
Proof.
  exact (structured_description_is_rejected Scenes.document_issue "PROJ-1"
           [("summary", JStr "Broken link");
            ("description", JDict [("type", JStr "doc"); ("version", JNum 1)])]
           (JDict [("type", JStr "doc"); ("version", JNum 1)])
           eq_refl eq_refl eq_refl eq_refl eq_refl).
Defined.

Lemma get_projects_witness :
  Jira._get_projects (rt := Sample.plain_runtime) Sample.tracker_world
    (Sample.connected _) =
    (Return [text_content
               (json_dumps (JList [JDict [("key", JStr "PROJ");
                                          ("name", JStr "Project");
                                          ("id", JStr "10000")]]))],
     {| client := Some Sample.a_client; trace := [EvCall Jira.projects] |}).
Proof.
  apply (proj1 (get_projects_lists_every_project (rt := Sample.plain_runtime)
                  Sample.tracker_world (Sample.connected _) Sample.a_client
                  eq_refl)
           [JDict [("key", JStr "PROJ"); ("name", JStr "Project");
                   ("id", JStr "10000")]]).
  - reflexivity.
  - repeat constructor.
    exists [JStr "PROJ"; JStr "Project"; JStr "10000"].
    split; [repeat constructor|reflexivity].
Defined.

Lemma create_page_witness :
  Confluence._create_page (rt := Sample.plain_runtime)
    (Scenes.answering _ (Return (JDict Scenes.page_fields)))
    [("space_key", JStr "DOC"); ("title", JStr "Home");
     ("content", JStr "<p>hi</p>")]
    (Sample.connected _) =
    (Return [text_content ("Created page: Home" ++ nl ++ "ID: 42" ++ nl
                           ++ "URL: https://wiki.example.org/pages/42")],
     {| client := Some Sample.a_client;
        trace := [EvCall (Confluence.create_page (JStr "DOC") (JStr "Home")
                            (JStr "<p>hi</p>") JNull)] |}).
Proof.
  apply (create_page_reports_the_new_page (rt := Sample.plain_runtime)
           (Scenes.answering _ (Return (JDict Scenes.page_fields)))
           [("space_key", JStr "DOC"); ("title", JStr "Home");
            ("content", JStr "<p>hi</p>")]
           (Sample.connected _) Sample.a_client (JStr "DOC") (JStr "Home")
           (JStr "<p>hi</p>") (JDict Scenes.page_fields)
           (JStr "Home") (JStr "42") (JStr "/pages/42"));
    reflexivity.
Defined.

Lemma missing_credentials_witness :
  client (Jira.serve (rt := Sample.plain_runtime) (Sample.bare_world _)
            [("jira_get_projects", []); ("jira_get_projects", [])]
            Jira.__init__) = None
  /\
  trace (Jira.serve (rt := Sample.plain_runtime) (Sample.bare_world _)
           [("jira_get_projects", []); ("jira_get_projects", [])]
           Jira.__init__) =
    map EvGetenv (Jira.env_names ++ Jira.env_names)%list.
Proof.
  exact (proj2 (missing_credentials_are_read_at_every_invocation
                  (rt := Sample.plain_runtime))
           (Sample.bare_world _)
           [("jira_get_projects", []); ("jira_get_projects", [])] eq_refl).
Defined.

Lemma client_from_environment_witness :
  client (snd (Confluence.call_tool (rt := Sample.plain_runtime)
                 Sample.wiki_world "confluence_get_spaces" []
                 Confluence.__init__)) = Some Sample.a_client.
Proof.
  apply (proj1 (client_is_built_from_the_environment
                  (rt := Sample.plain_runtime))
           Sample.wiki_world "confluence_get_spaces" [] Confluence.__init__
           "https://wiki.example.org" "ada" "secret");
    try reflexivity; discriminate.
Defined.

Lemma search_content_witness :
  Confluence._search_content (rt := Sample.plain_runtime)
    (Scenes.answering _ (Return (JDict [("results", JList [Scenes.hit])])))
    [("cql", JStr "title ~ Home")] (Sample.connected _) =
    (Return [text_content (json_dumps (JList [Scenes.hit_row]))],
     {| client := Some Sample.a_client;
        trace := [EvCall (Confluence.cql (JStr "title ~ Home") (JNum 25))] |}).
Proof.
  apply (search_content_lists_every_hit (rt := Sample.plain_runtime)
           (Scenes.answering _
              (Return (JDict [("results", JList [Scenes.hit])])))
           [("cql", JStr "title ~ Home")] (Sample.connected _) Sample.a_client
           (JStr "title ~ Home") [("results", JList [Scenes.hit])]
           [Scenes.hit]);
    try reflexivity.
  repeat constructor.
  exists [JStr "42"; JStr "Home"; JStr "page"; JStr "DOC"], (JStr "/pages/42").
  split; [repeat constructor|split; reflexivity].
Defined.

Lemma get_page_children_witness :
  Confluence._get_page_children (rt := Sample.plain_runtime)
    (Scenes.answering _ (Return (JList [Scenes.child])))
    [("page_id", JStr "42")] (Sample.connected _) =
    (Return [text_content (json_dumps (JList [Scenes.child_row]))],
     {| client := Some Sample.a_client;
        trace := [EvCall (Confluence.get_page_child_by_type (JStr "42")
                            (JStr "page") (JNum 25))] |}).
Proof.
  apply (get_page_children_lists_every_child (rt := Sample.plain_runtime)
           (Scenes.answering _ (Return (JList [Scenes.child])))
           [("page_id", JStr "42")] (Sample.connected _) Sample.a_client
           (JStr "42") [Scenes.child]);
    try reflexivity.
  repeat constructor.
  exists [JStr "43"; JStr "Notes"], (JStr "/pages/43").
  split; [repeat constructor|split; reflexivity].
Defined.

Lemma confirmations_witness :
  Confluence._delete_page (rt := Sample.plain_runtime)
    (Scenes.answering _ (Return (JBool false)))
    [("page_id", JStr "42")] (Sample.connected _) =
    (Return [text_content "Deleted page with ID: 42"],
     {| client := Some Sample.a_client;
        trace := [EvCall (Confluence.remove_page (JStr "42"))] |}).
Proof.
  exact (proj1 (confirmations_ignore_the_answer (rt := Sample.plain_runtime))
           (Scenes.answering _ (Return (JBool false)))
           [("page_id", JStr "42")] (Sample.connected _) Sample.a_client
           (JStr "42") eq_refl eq_refl).
Defined.
